(** * pc-gui-agent: orchestration core

  A shallow embedding of the control logic of the agent
  (error handling, tool registry, protocol client, plan parsing,
  self-consistency voting, the agent loop and the workflow runner)
  together with the properties stated for it.

  Conventions used throughout.
  - Python [float] values are embedded as exact rationals ([Q]); every
    constant that occurs in the sources (0.3, 0.7, 0.9, 60.0, ...) is
    written as the fraction it denotes.  Rounding is not modelled.  The
    product of a float and an [int] too large for a float, which
    [get_retry_delay] can reach, raises [OverflowError] as in Python.
  - Python [int] values are embedded as [Z].
  - Python [str] values are embedded as [string].
  - A call that may raise is embedded in the sum [Exn + A]; [try]/[except]
    blocks become pattern matches on that sum.
  - Python dictionaries whose iteration order is observable are embedded
    as association lists kept in insertion order. *)

From Stdlib Require Import ZArith QArith Qminmax List Bool Lia Ascii String.
From stdpp Require Import base strings pretty gmap.
Import ListNotations.

Set Warnings "-register-all".

Open Scope string_scope.

(** ** Python preliminaries *)

Module Py.

(** Exception classes that the sources distinguish in their handlers. *)
Inductive Exn : Type :=
| JSONDecodeError (msg : string) (lineno colno pos : nat)
| ValueError (msg : string)
| TypeError (msg : string)
| AttributeError (msg : string)
| KeyError (msg : string)
| RuntimeError (msg : string)
| OverflowError (msg : string)
| OtherException (msg : string).

(** [str(e)] *)
Definition str_of_exn (e : Exn) : string :=
  match e with
  | JSONDecodeError msg lineno colno pos =>
      msg +:+ ": line " +:+ pretty lineno +:+ " column " +:+ pretty colno
        +:+ " (char " +:+ pretty pos +:+ ")"
  | ValueError msg | TypeError msg | AttributeError msg | KeyError msg
  | RuntimeError msg | OverflowError msg | OtherException msg => msg
  end.

Definition result (A : Type) : Type := Exn + A.

Definition ret {A} (a : A) : result A := inr a.
Definition raise {A} (e : Exn) : result A := inl e.
Definition bind {A B} (m : result A) (k : A -> result B) : result B :=
  match m with
  | inl e => inl e
  | inr a => k a
  end.

(** [min(a, b)] on floats: Python keeps the first argument unless the
    second is strictly smaller. *)
Definition min (a b : Q) : Q := if Qle_bool a b then a else b.
(** [max(a, b)]: the first argument unless the second is strictly larger. *)
Definition max (a b : Q) : Q := if Qle_bool b a then a else b.

(** [2 ** n] for an [int] [n], as the operand of a product with a float.
    For [n >= 0] the power is an [int], which the product converts to a
    float: from [2 ** 1024] on the conversion raises [OverflowError].  For
    [n < 0] the power is a float already: [2 ** n] down to [n = -1074],
    and 0.0 below. *)
Definition float_pow2 (n : Z) : result Q :=
  if (n <? 0)%Z then
    if (n <? -1074)%Z then ret 0%Q else ret (2 ^ n)%Q
  else if (1024 <=? n)%Z then
    raise (OverflowError "int too large to convert to float")
  else ret (2 ^ n)%Q.

(** [", ".join(xs)] *)
Fixpoint join (sep : string) (xs : list string) : string :=
  match xs with
  | [] => ""
  | [x] => x
  | x :: rest => x +:+ sep +:+ join sep rest
  end.

(** [all(...)] over a list of booleans *)
Definition all (bs : list bool) : bool := forallb id bs.

End Py.

Notation "'let*' x ':=' m 'in' k" := (Py.bind m (fun x => k))
(at level 10, x name, m at level 100, k at level 200).

Notation "'let*' ' p ':=' m 'in' k" :=
  (Py.bind m (fun x => match x with p => k end))
(at level 10, p strict pattern, m at level 100, k at level 200).

(** ** core/error_handler.py *)

Module ErrorHandler.

Inductive ErrorType : Type :=
| TIMEOUT | ELEMENT_NOT_FOUND | PERMISSION_DENIED | NETWORK_ERROR
| JSON_PARSE_ERROR | TOOL_EXECUTION_ERROR | VALIDATION_ERROR | UNKNOWN_ERROR.

Inductive RecoveryStrategy : Type :=
| RETRY | SKIP | ABORT | FALLBACK | MANUAL_INTERVENTION.

Definition error_type_value (t : ErrorType) : string :=
  match t with
  | TIMEOUT => "timeout"
  | ELEMENT_NOT_FOUND => "element_not_found"
  | PERMISSION_DENIED => "permission_denied"
  | NETWORK_ERROR => "network_error"
  | JSON_PARSE_ERROR => "json_parse_error"
  | TOOL_EXECUTION_ERROR => "tool_execution_error"
  | VALIDATION_ERROR => "validation_error"
  | UNKNOWN_ERROR => "unknown_error"
  end.

Definition strategy_eqb (a b : RecoveryStrategy) : bool :=
  match a, b with
  | RETRY, RETRY | SKIP, SKIP | ABORT, ABORT | FALLBACK, FALLBACK
  | MANUAL_INTERVENTION, MANUAL_INTERVENTION => true
  | _, _ => false
  end.

Record ErrorContext : Type := mkErrorContext {
  error_type : ErrorType;
  error_message : string;
  action_id : option string;
  tool_name : option string;
  retry_count : Z
}.

Record RecoveryAction : Type := mkRecoveryAction {
  strategy : RecoveryStrategy;
  should_retry : bool;
  retry_delay : Q;
  max_retries : Z;
  message : string;
  confidence : Q
}.

Definition ERROR_RECOVERY_MAP (t : ErrorType) : RecoveryStrategy :=
  match t with
  | TIMEOUT => RETRY
  | ELEMENT_NOT_FOUND => RETRY
  | NETWORK_ERROR => RETRY
  | TOOL_EXECUTION_ERROR => RETRY
  | JSON_PARSE_ERROR => FALLBACK
  | PERMISSION_DENIED => ABORT
  | VALIDATION_ERROR => ABORT
  | UNKNOWN_ERROR => MANUAL_INTERVENTION
  end.

(** [error_type in [ErrorType.TIMEOUT, ErrorType.NETWORK_ERROR]] *)
Definition is_timeout_or_network (t : ErrorType) : bool :=
  match t with
  | TIMEOUT | NETWORK_ERROR => true
  | _ => false
  end.

Definition is_permission_denied (t : ErrorType) : bool :=
  match t with
  | PERMISSION_DENIED => true
  | _ => false
  end.

(** The dictionary literal at the head of [_calculate_confidence]. *)
Definition base_confidence_table (s : RecoveryStrategy) : Q :=
  match s with
  | RETRY => 7 # 10
  | SKIP => 5 # 10
  | ABORT => 9 # 10
  | FALLBACK => 6 # 10
  | MANUAL_INTERVENTION => 3 # 10
  end.

Definition _calculate_confidence
    (error_context : ErrorContext) (s : RecoveryStrategy) : Q :=
  let base_confidence := base_confidence_table s in
  let base_confidence :=
    if is_timeout_or_network (error_type error_context) then
      if strategy_eqb s RETRY then 8 # 10 else base_confidence
    else if is_permission_denied (error_type error_context) then
      if strategy_eqb s ABORT then 95 # 100 else base_confidence
    else base_confidence in
  let base_confidence :=
    if (retry_count error_context >? 0)%Z
    then (base_confidence * (9 # 10))%Q
    else base_confidence in
  Py.min 1%Q (Py.max 0%Q base_confidence).

Definition _generate_recovery_message
    (error_context : ErrorContext) (s : RecoveryStrategy) : string :=
  let v := error_type_value (error_type error_context) in
  match s with
  | RETRY =>
      "检测到" +:+ v +:+ "错误，将重试（第"
        +:+ pretty (retry_count error_context + 1)%Z +:+ "次）"
  | SKIP => "检测到" +:+ v +:+ "错误，跳过当前步骤"
  | ABORT => "检测到" +:+ v +:+ "错误，中止任务执行"
  | FALLBACK => "检测到" +:+ v +:+ "错误，使用备用方案"
  | MANUAL_INTERVENTION => "检测到" +:+ v +:+ "错误，需要人工干预"
  end.

Definition get_recovery_strategy
    (error_context : ErrorContext) (max_retries : Z) (retry_delay : Q)
    : RecoveryAction :=
  let error_type := error_type error_context in
  let retry_count := retry_count error_context in
  let default_strategy := ERROR_RECOVERY_MAP error_type in
  let default_strategy :=
    if (retry_count >=? max_retries)%Z then
      if strategy_eqb default_strategy RETRY then
        if is_timeout_or_network error_type then SKIP else ABORT
      else default_strategy
    else default_strategy in
  let should_retry :=
    strategy_eqb default_strategy RETRY && (retry_count <? max_retries)%Z in
  let confidence := _calculate_confidence error_context default_strategy in
  let message := _generate_recovery_message error_context default_strategy in
  {| strategy := default_strategy;
     should_retry := should_retry;
     retry_delay := retry_delay;
     max_retries := max_retries;
     message := message;
     confidence := confidence |}.

(** [base_delay] is a float, so that [2 ** retry_count] is converted to
    a float by the product. *)
Definition get_retry_delay
    (error_context : ErrorContext) (base_delay : Q)
    (use_exponential_backoff : bool) : Py.result Q :=
  if negb use_exponential_backoff then Py.ret base_delay
  else
    let retry_count := retry_count error_context in
    let* power := Py.float_pow2 retry_count in
    let delay := (base_delay * power)%Q in
    Py.ret (Py.min delay 60%Q).

(** [create_error_context] with the classification given by the caller:
    the record is built and appended to [self.error_history]. *)
Definition create_error_context
    (error_history : list ErrorContext) (error : Py.Exn)
    (error_type : ErrorType) (action_id tool_name : option string)
    (retry_count : Z) : ErrorContext * list ErrorContext :=
  let error_context :=
    {| error_type := error_type;
       error_message := Py.str_of_exn error;
       action_id := action_id;
       tool_name := tool_name;
       retry_count := retry_count |} in
  (error_context, (error_history ++ [error_context])%list).

(** The base rate after the category adjustments, before any decay. *)
Definition adjusted_base_rate (t : ErrorType) (s : RecoveryStrategy) : Q :=
  match s with
  | RETRY => if is_timeout_or_network t then 8 # 10 else 7 # 10
  | ABORT => if is_permission_denied t then 95 # 100 else 9 # 10
  | _ => base_confidence_table s
  end.

(** The confidence as the specification words it: the adjusted base rate
    multiplied by 0.9 once for each prior retry. *)
Definition confidence_decayed_per_retry
    (error_context : ErrorContext) (s : RecoveryStrategy) : Q :=
  (adjusted_base_rate (error_type error_context) s
    * (9 # 10) ^ (retry_count error_context))%Q.



(** The context used to tell the two decay rules apart: a timeout after
    two prior retries, with a budget of three. *)
Definition twice_retried_timeout : ErrorContext :=
  {| error_type := TIMEOUT; error_message := "timed out";
     action_id := None; tool_name := None; retry_count := 2 |}.

End ErrorHandler.


(** ** JSON values and Python containers *)

Module Json.

(** The values produced by [json.loads].  Numbers are embedded by their
    rational value; dictionaries keep insertion order. *)
Inductive t : Type :=
| JNull
| JBool (b : bool)
| JNum (q : Q)
| JStr (s : string)
| JList (l : list t)
| JDict (d : list (string * t)).

Definition Dict : Type := list (string * t).

(** [d.get(k)] *)
Fixpoint dict_get {V : Type} (k : string) (d : list (string * V)) : option V :=
  match d with
  | [] => None
  | (k', v) :: rest => if String.eqb k k' then Some v else dict_get k rest
  end.

(** [k in d] *)
Definition dict_has {V : Type} (k : string) (d : list (string * V)) : bool :=
  match dict_get k d with
  | Some _ => true
  | None => false
  end.

(** [d[k] = v]: an existing key keeps its position, a new key goes last. *)
Fixpoint dict_set {V : Type} (k : string) (v : V) (d : list (string * V))
  : list (string * V) :=
  match d with
  | [] => [(k, v)]
  | (k', v') :: rest =>
      if String.eqb k k' then (k, v) :: rest else (k', v') :: dict_set k v rest
  end.

(** [list(d.keys())] *)
Definition dict_keys {V : Type} (d : list (string * V)) : list string :=
  List.map fst d.

(** [list(d.values())] *)
Definition dict_values {V : Type} (d : list (string * V)) : list V :=
  List.map snd d.

(** [bool(v)] *)
Definition truthy (v : t) : bool :=
  match v with
  | JNull => false
  | JBool b => b
  | JNum q => negb (Qeq_bool q 0)
  | JStr s => negb (String.eqb s "")
  | JList l => match l with [] => false | _ => true end
  | JDict d => match d with [] => false | _ => true end
  end.

(** [isinstance(v, dict)] *)
Definition is_dict (v : t) : bool :=
  match v with
  | JDict _ => true
  | _ => false
  end.

(** The one-character strings of a string, as [for c in s] yields them. *)
Fixpoint chars (s : string) : list t :=
  match s with
  | EmptyString => []
  | String c rest => JStr (String c EmptyString) :: chars rest
  end.

(** [for x in v]: lists yield their items, dictionaries their keys, strings
    their characters; the other values are not iterable. *)
Definition iter (v : t) : Py.result (list t) :=
  match v with
  | JList l => Py.ret l
  | JDict d => Py.ret (List.map JStr (dict_keys d))
  | JStr s => Py.ret (chars s)
  | JNull => Py.raise (Py.TypeError "'NoneType' object is not iterable")
  | JBool _ => Py.raise (Py.TypeError "'bool' object is not iterable")
  | JNum _ => Py.raise (Py.TypeError "number object is not iterable")
  end.

End Json.

(** ** String helpers *)

Module Str.

(** [needle in hay] *)
Definition contains (needle hay : string) : bool :=
  match String.index 0 needle hay with
  | Some _ => true
  | None => false
  end.

(** [s.find(sub, start)], [None] standing for [-1]. *)
Definition find (sub s : string) (start : nat) : option nat :=
  String.index start sub s.

(** [s[a:b]] for [0 <= a] and [0 <= b]. *)
Definition slice (s : string) (a b : nat) : string :=
  String.substring a (b - a) s.

(** The quote character, for the literals of the sources that contain it. *)
Definition dq : string := String "034"%char EmptyString.

(** [str.lower()] restricted to the ASCII range, an instance for the
    interpreter's lowering that the registry takes as a parameter. *)
Definition ascii_lower_char (c : ascii) : ascii :=
  let n := nat_of_ascii c in
  if (65 <=? n)%nat && (n <=? 90)%nat then ascii_of_nat (n + 32) else c.

Fixpoint ascii_lower (s : string) : string :=
  match s with
  | EmptyString => EmptyString
  | String c rest => String (ascii_lower_char c) (ascii_lower rest)
  end.

(** [str.strip()] restricted to the ASCII whitespace characters, an
    instance for the interpreter's stripping that the parsers take as a
    parameter. *)
Definition is_ascii_space (c : ascii) : bool :=
  let n := nat_of_ascii c in
  ((9 <=? n)%nat && (n <=? 13)%nat) || ((28 <=? n)%nat && (n <=? 32)%nat).

Fixpoint lstrip (s : string) : string :=
  match s with
  | EmptyString => EmptyString
  | String c rest => if is_ascii_space c then lstrip rest else s
  end.

Definition ascii_strip (s : string) : string :=
  String.rev (lstrip (String.rev (lstrip s))).

(** [s.rfind(sub, 0, stop)] for a one-character [sub]. *)
Fixpoint rfind_char_from (c : ascii) (s : string) (i stop : nat) (last : option nat)
  : option nat :=
  match stop with
  | O => last
  | S stop' =>
      match s with
      | EmptyString => last
      | String c' rest =>
          rfind_char_from c rest (S i) stop'
            (if Ascii.eqb c c' then Some i else last)
      end
  end.

Definition rfind_char (c : ascii) (s : string) (stop : nat) : option nat :=
  rfind_char_from c s 0 stop None.

(** [t] occurs somewhere inside [s]. *)
Definition occurs_in (t s : string) : Prop :=
  exists pre post : string, s = pre +:+ t +:+ post.

End Str.

(** ** core/types.py *)

Module Types.

Inductive ActionType : Type := GUI | CODE | MCP.

Inductive TaskStatus : Type := PENDING | RUNNING | COMPLETED | FAILED | CANCELLED.

(** An action.  The tool name, the arguments and the description are
    whatever the decoded document holds at those keys. *)
Record Action : Type := mkAction {
  action_type : ActionType;
  tool : Json.t;
  args : Json.t;
  description : Json.t;
  dependencies : list string;
  timeout : option Z
}.

Record Subtask : Type := mkSubtask {
  subtask_id : string;
  subtask_description : string;
  actions : list Action;
  subtask_dependencies : list string;
  subtask_status : TaskStatus
}.

Record Task : Type := mkTask {
  task_id : string;
  goal : string;
  subtasks : list Subtask;
  status : TaskStatus
}.

Record ActionResult : Type := mkActionResult {
  action_id : string;
  success : bool;
  data : option Json.t;
  error : option string;
  message : string
}.

Record Reflection : Type := mkReflection {
  reflection_task_id : string;
  reflection_success : bool;
  analysis : string;
  suggestions : list string;
  needs_replan : bool;
  reflection_confidence : Q
}.

Record Context : Type := mkContext {
  task : Task;
  current_subtask_id : option string;
  action_results : list ActionResult;
  variables : gmap string Json.t
}.

Record WorkflowStep : Type := mkWorkflowStep {
  step_id : string;
  step_name : string;
  step_description : string;
  step_action : Action;
  condition : option string;
  step_on_error : option string;
  retry_count : Z;
  step_timeout : option Z
}.

Record WorkflowDefinition : Type := mkWorkflowDefinition {
  workflow_id : string;
  workflow_name : string;
  workflow_description : string;
  version : string;
  steps : list WorkflowStep;
  workflow_variables : gmap string Json.t;
  on_complete : option string;
  on_error : option string
}.

(** A step decision.  The three flags are read for their truth value
    only; the other fields are kept as decoded. *)
Record StepDecision : Type := mkStepDecision {
  decision_action : option Action;
  should_continue : bool;
  should_retry : bool;
  should_skip : bool;
  reasoning : Json.t;
  decision_confidence : Json.t;
  next_step_description : Json.t
}.

(** [result.success and result.data] *)
Definition has_payload (r : ActionResult) : bool :=
  success r &&
  match data r with
  | Some v => Json.truthy v
  | None => false
  end.

(** [all(r.success for r in action_results)] *)
Definition all_success (rs : list ActionResult) : bool :=
  Py.all (List.map success rs).

End Types.

(** ** tools/registry.py *)

Module ToolRegistry.

(** The dictionary a tool hands back: the keys the callers read. *)
Record ToolResult : Type := mkToolResult {
  success : bool;
  data : option Json.t;
  error : option string;
  message : string;
  available_tools : option (list string)
}.

Record BaseTool : Type := mkBaseTool {
  name : string;
  description : string;
  validate_args : Json.Dict -> Py.result bool;
  tool_execute : Json.Dict -> Py.result ToolResult
}.

(** [self._tools], in registration order. *)
Definition Registry : Type := list (string * BaseTool).

Definition register (tool : BaseTool) (reg : Registry) : Registry :=
  Json.dict_set (name tool) tool reg.

Definition register_multiple (tools : list BaseTool) (reg : Registry) : Registry :=
  fold_left (fun r tool => register tool r) tools reg.

Definition get (reg : Registry) (n : string) : option BaseTool :=
  Json.dict_get n reg.

Definition has (reg : Registry) (n : string) : bool :=
  Json.dict_has n reg.

Definition get_tools_list (reg : Registry) : list (string * string) :=
  List.map (fun tool => (name tool, description tool)) (Json.dict_values reg).

Section Execute.

(** [str.lower] *)
Variable lower : string -> string.

(** The comprehension that picks the names resembling [n]. *)
Definition similar_tools (reg : Registry) (n : string) : list string :=
  List.filter
    (fun t => Str.contains (lower n) (lower t) || Str.contains (lower t) (lower n))
    (Json.dict_keys reg).

Definition not_found_message (reg : Registry) (n : string) : string :=
  let available_tools := Json.dict_keys reg in
  let available_tools_str :=
    match available_tools with
    | [] => "无"
    | _ => Py.join ", " available_tools
    end in
  let similar := similar_tools reg n in
  let error_msg := "工具 '" +:+ n +:+ "' 不存在" in
  let suggestion_msg :=
    match similar with
    | _ :: _ => " 您是否想使用: " +:+ Py.join ", " similar +:+ "?"
    | [] =>
        match available_tools with
        | _ :: _ => " 可用工具: " +:+ available_tools_str
        | [] => ""
        end
    end in
  error_msg +:+ suggestion_msg.

Definition execute (reg : Registry) (n : string) (args : Json.Dict)
  : Py.result ToolResult :=
  match get reg n with
  | None =>
      Py.ret {| success := false;
                data := None;
                error := Some ("Tool '" +:+ n +:+ "' not found");
                message := not_found_message reg n;
                available_tools := Some (Json.dict_keys reg) |}
  | Some tool =>
      let body :=
        let* ok := validate_args tool args in
        if negb ok then
          Py.ret {| success := false;
                    data := None;
                    error := Some "Invalid arguments";
                    message := "参数验证失败";
                    available_tools := None |}
        else tool_execute tool args in
      match body with
      | inr r => Py.ret r
      | inl e =>
          Py.ret {| success := false;
                    data := None;
                    error := Some (Py.str_of_exn e);
                    message := "工具执行失败: " +:+ Py.str_of_exn e;
                    available_tools := None |}
      end
  end.

End Execute.

(** A registry with two tools, to try the lookups on. *)
Definition sample_tool (n : string) : BaseTool :=
  {| name := n; description := "";
     validate_args := fun _ => Py.ret true;
     tool_execute := fun _ =>
       Py.ret {| success := true; data := None; error := None;
                 message := ""; available_tools := None |} |}.

Definition sample_registry : Registry :=
  register_multiple [sample_tool "navigate"; sample_tool "click"] [].

End ToolRegistry.


(** ** mcp/client.py *)

Module MCPClient.

Record StdioServerParameters : Type := mkStdioServerParameters {
  command : string;
  sp_args : list string
}.

(** The items of a tool result on the wire.  [OtherContent] stands for
    every item that is neither text nor image: its [type] attribute and
    its [model_dump()] when it has one. *)
Inductive ContentItem : Type :=
| TextContent (text : string)
| ImageContent (data : string) (mimeType : string)
| OtherContent (kind : string) (dump : option Json.Dict).

Record CallToolResult : Type := mkCallToolResult {
  content : list ContentItem;
  structuredContent : option Json.t;
  isError : bool
}.

Record Tool : Type := mkTool {
  tool_name : string;
  tool_description : option string;
  inputSchema : Json.t
}.

Section Client.

(** The SDK and the operating system behind it: the state of the outside
    world, the handles it hands out and the calls the client makes. *)
Variable World : Type.
Variable Stream : Type.
Variable Session : Type.

Inductive Resource : Type :=
| RStdio (read_stream write_stream : Stream)
| RSession (session : Session).

Record SDK : Type := mkSDK {
  (** [shlex.split] *)
  shlex_split : string -> Py.result (list string);
  (** entering [stdio_client(params)]: spawns the child process *)
  stdio_client : StdioServerParameters -> World -> Py.result (Stream * Stream) * World;
  (** entering [ClientSession(read, write)] *)
  client_session : Stream -> Stream -> World -> Py.result Session * World;
  (** [session.initialize()]: the handshake *)
  initialize : Session -> World -> Py.result unit * World;
  (** [session.list_tools()] *)
  sdk_list_tools : Session -> World -> Py.result (list Tool) * World;
  (** [session.call_tool(name, arguments)] *)
  sdk_call_tool : Session -> string -> Json.Dict -> World -> Py.result CallToolResult * World;
  (** [exit_stack.aclose()] on the resources entered so far, newest first *)
  aclose : list Resource -> World -> Py.result unit * World
}.

Variable sdk : SDK.

Record Client : Type := mkClient {
  server_command : option string;
  transport : string;
  _stdio_params : option StdioServerParameters;
  _exit_stack : list Resource;
  _session : option Session;
  _read_stream : option Stream;
  _write_stream : option Stream;
  connected : bool;
  _tools : list Json.Dict
}.

Definition init (server_command : option string) (transport : string) : Client :=
  {| server_command := server_command;
     transport := transport;
     _stdio_params := None;
     _exit_stack := [];
     _session := None;
     _read_stream := None;
     _write_stream := None;
     connected := false;
     _tools := [] |}.

Definition set_stdio_params (c : Client) (p : StdioServerParameters) : Client :=
  {| server_command := server_command c; transport := transport c;
     _stdio_params := Some p; _exit_stack := _exit_stack c;
     _session := _session c; _read_stream := _read_stream c;
     _write_stream := _write_stream c; connected := connected c;
     _tools := _tools c |}.

Definition set_streams (c : Client) (r w : Stream) : Client :=
  {| server_command := server_command c; transport := transport c;
     _stdio_params := _stdio_params c;
     _exit_stack := RStdio r w :: _exit_stack c;
     _session := _session c; _read_stream := Some r;
     _write_stream := Some w; connected := connected c;
     _tools := _tools c |}.

Definition set_session (c : Client) (s : Session) : Client :=
  {| server_command := server_command c; transport := transport c;
     _stdio_params := _stdio_params c;
     _exit_stack := RSession s :: _exit_stack c;
     _session := Some s; _read_stream := _read_stream c;
     _write_stream := _write_stream c; connected := connected c;
     _tools := _tools c |}.

Definition set_connected (c : Client) (b : bool) : Client :=
  {| server_command := server_command c; transport := transport c;
     _stdio_params := _stdio_params c; _exit_stack := _exit_stack c;
     _session := _session c; _read_stream := _read_stream c;
     _write_stream := _write_stream c; connected := b;
     _tools := _tools c |}.

Definition set_tools (c : Client) (ts : list Json.Dict) : Client :=
  {| server_command := server_command c; transport := transport c;
     _stdio_params := _stdio_params c; _exit_stack := _exit_stack c;
     _session := _session c; _read_stream := _read_stream c;
     _write_stream := _write_stream c; connected := connected c;
     _tools := ts |}.

(** The [finally] block of [_cleanup]. *)
Definition reset_state (c : Client) : Client :=
  {| server_command := server_command c; transport := transport c;
     _stdio_params := _stdio_params c; _exit_stack := [];
     _session := None; _read_stream := None;
     _write_stream := None; connected := false;
     _tools := _tools c |}.

Definition _parse_server_command (cmd : string)
  : Py.result StdioServerParameters :=
  let* parts := shlex_split sdk cmd in
  match parts with
  | [] => Py.raise (Py.ValueError "Empty server command")
  | command :: args => Py.ret {| command := command; sp_args := args |}
  end.

Definition tool_dict (tool : Tool) : Json.Dict :=
  [ ("name", Json.JStr (tool_name tool));
    ("description",
      Json.JStr match tool_description tool with
                | Some d => if String.eqb d "" then "" else d
                | None => ""
                end);
    ("inputSchema", inputSchema tool) ].

Definition list_tools (c : Client) (w : World)
  : list Json.Dict * Client * World :=
  match _session c, connected c with
  | Some session, true =>
      match sdk_list_tools sdk session w with
      | (inr tools, w') =>
          let ts := List.map tool_dict tools in
          (ts, set_tools c ts, w')
      | (inl _, w') => ([], c, w')
      end
  | _, _ => ([], c, w)
  end.

Definition _cleanup (c : Client) (w : World) : Client * World :=
  if negb (connected c) then (c, w)
  else
    let c := set_connected c false in
    let '(_, w') := aclose sdk (_exit_stack c) w in
    (reset_state c, w').

Definition connect (c : Client) (w : World) : bool * Client * World :=
  match server_command c with
  | None => (false, c, w)
  | Some cmd =>
      if String.eqb cmd "" then (false, c, w)
      else if negb (String.eqb (transport c) "stdio") then (false, c, w)
      else
        match _parse_server_command cmd with
        | inl _ => let '(c', w') := _cleanup c w in (false, c', w')
        | inr params =>
            let c := set_stdio_params c params in
            match stdio_client sdk params w with
            | (inl _, w) => let '(c', w') := _cleanup c w in (false, c', w')
            | (inr (r, wr), w) =>
                let c := set_streams c r wr in
                match client_session sdk r wr w with
                | (inl _, w) => let '(c', w') := _cleanup c w in (false, c', w')
                | (inr session, w) =>
                    let c := set_session c session in
                    match initialize sdk session w with
                    | (inl _, w) =>
                        let '(c', w') := _cleanup c w in (false, c', w')
                    | (inr _, w) =>
                        let c := set_connected c true in
                        let '(_, c, w) := list_tools c w in
                        (true, c, w)
                    end
                end
            end
        end
  end.

Definition content_dict (item : ContentItem) : Json.Dict :=
  match item with
  | TextContent text => [("type", Json.JStr "text"); ("text", Json.JStr text)]
  | ImageContent data mimeType =>
      [("type", Json.JStr "image"); ("data", Json.JStr data);
       ("mimeType", Json.JStr mimeType)]
  | OtherContent kind dump =>
      let content_dict := [("type", Json.JStr kind)] in
      match dump with
      | Some d => fold_left (fun acc kv => Json.dict_set (fst kv) (snd kv) acc) d content_dict
      | None => content_dict
      end
  end.

(** [d.get("type") == "text"] *)
Definition is_text_label (v : option Json.t) : bool :=
  match v with
  | Some (Json.JStr s) => String.eqb s "text"
  | _ => false
  end.

(** The text of the first [TextContent] item, where the loop breaks. *)
Fixpoint first_text (items : list ContentItem) : option string :=
  match items with
  | [] => None
  | TextContent text :: _ => Some text
  | _ :: rest => first_text rest
  end.

(** The first stage of the conversion, [if result.content: ...]. *)
Definition convert_content (items : list ContentItem) : Py.result Json.Dict :=
  let result_dict : Json.Dict := [] in
    match items with
    | [] => Py.ret result_dict
    | _ :: _ =>
        let content_list := List.map content_dict items in
        let result_dict :=
          Json.dict_set "content" (Json.JList (List.map Json.JDict content_list))
            result_dict in
        match content_list with
        | first :: _ =>
            if is_text_label (Json.dict_get "type" first) then
              match Json.dict_get "text" first with
              | Some text => Py.ret (Json.dict_set "text" text result_dict)
              | None => Py.raise (Py.KeyError "'text'")
              end
            else Py.ret result_dict
        | [] => Py.ret result_dict
        end
    end.

(** The conversion of a [CallToolResult] into the dictionary handed back. *)
Definition convert_result (result : CallToolResult) : Py.result Json.Dict :=
  let* result_dict := convert_content (content result) in
  let result_dict :=
    match structuredContent result with
    | Some sc =>
        if Json.truthy sc then Json.dict_set "structuredContent" sc result_dict
        else result_dict
    | None => result_dict
    end in
  let result_dict :=
    if isError result then
      let result_dict := Json.dict_set "isError" (Json.JBool true) result_dict in
      match first_text (content result) with
      | Some text => Json.dict_set "error" (Json.JStr text) result_dict
      | None => result_dict
      end
    else result_dict in
  Py.ret result_dict.

Definition call_tool (c : Client) (name : string) (arguments : option Json.Dict)
    (w : World) : Py.result Json.Dict * World :=
  match _session c, connected c with
  | Some session, true =>
      let arguments := match arguments with
                       | Some ((_ :: _) as a) => a
                       | _ => []
                       end in
      match sdk_call_tool sdk session name arguments w with
      | (inl e, w') => (Py.raise e, w')
      | (inr result, w') => (convert_result result, w')
      end
  | _, _ => (Py.raise (Py.RuntimeError "MCP client not connected"), w)
  end.

Definition disconnect (c : Client) (w : World) : Client * World :=
  if negb (connected c) then (c, w) else _cleanup c w.

End Client.

Arguments mkSDK {World Stream Session}.
Arguments shlex_split {World Stream Session}.
Arguments stdio_client {World Stream Session}.
Arguments client_session {World Stream Session}.
Arguments initialize {World Stream Session}.
Arguments sdk_list_tools {World Stream Session}.
Arguments sdk_call_tool {World Stream Session}.
Arguments aclose {World Stream Session}.
Arguments RStdio {Stream Session}.
Arguments RSession {Stream Session}.
Arguments mkClient {Stream Session}.
Arguments server_command {Stream Session}.
Arguments transport {Stream Session}.
Arguments _stdio_params {Stream Session}.
Arguments _exit_stack {Stream Session}.
Arguments _session {Stream Session}.
Arguments _read_stream {Stream Session}.
Arguments _write_stream {Stream Session}.
Arguments connected {Stream Session}.
Arguments _tools {Stream Session}.
Arguments init {Stream Session}.
Arguments set_stdio_params {Stream Session}.
Arguments set_streams {Stream Session}.
Arguments set_session {Stream Session}.
Arguments set_connected {Stream Session}.
Arguments set_tools {Stream Session}.
Arguments reset_state {Stream Session}.
Arguments _parse_server_command {World Stream Session}.
Arguments list_tools {World Stream Session}.
Arguments _cleanup {World Stream Session}.
Arguments connect {World Stream Session}.
Arguments call_tool {World Stream Session}.
Arguments disconnect {World Stream Session}.

(** Every item that is neither text nor image carries a label other than
    [text]: in the SDK that label belongs to [TextContent] alone. *)
Definition sdk_typed (item : ContentItem) : bool :=
  match item with
  | OtherContent _ _ => negb (is_text_label (Json.dict_get "type" (content_dict item)))
  | _ => true
  end.

(** A small instance of the outside world that counts what it is asked to
    do: each spawn starts child process number [spawned + 1] and hands out
    that number as both streams; the session on it carries the same
    number. *)
Record CountingWorld : Type := mkCountingWorld {
  spawned : nat;
  handshakes : nat;
  discoveries : nat;
  closed : nat
}.

Definition counting_sdk : SDK CountingWorld nat nat :=
  {| shlex_split := fun cmd => Py.ret [cmd];
     stdio_client := fun _ w =>
       let n := S (spawned w) in
       (Py.ret (n, n),
        {| spawned := n; handshakes := handshakes w;
           discoveries := discoveries w; closed := closed w |});
     client_session := fun r _ w => (Py.ret r, w);
     initialize := fun _ w =>
       (Py.ret tt,
        {| spawned := spawned w; handshakes := S (handshakes w);
           discoveries := discoveries w; closed := closed w |});
     sdk_list_tools := fun _ w =>
       (Py.ret [],
        {| spawned := spawned w; handshakes := handshakes w;
           discoveries := S (discoveries w); closed := closed w |});
     sdk_call_tool := fun _ _ _ w =>
       (Py.ret {| content := [TextContent "boom"];
                  structuredContent := None; isError := true |}, w);
     aclose := fun rs w =>
       (Py.ret tt,
        {| spawned := spawned w; handshakes := handshakes w;
           discoveries := discoveries w; closed := closed w + length rs |}) |}.

Definition world0 : CountingWorld :=
  {| spawned := 0; handshakes := 0; discoveries := 0; closed := 0 |}.

Definition fresh_client : Client nat nat := init (Some "server") "stdio".

(** The client and the world after a first, successful [connect]. *)
Definition connected_once : bool * Client nat nat * CountingWorld :=
  connect counting_sdk fresh_client world0.

(** The same after a second [connect] on the connected client. *)
Definition connected_twice : bool * Client nat nat * CountingWorld :=
  connect counting_sdk (snd (fst connected_once)) (snd connected_once).

End MCPClient.


(** ** core/planner.py *)

Module Planner.

Inductive re_flag : Type := MULTILINE | DOTALL.

(** What the planner asks of the interpreter's libraries and of the
    oracle.  Patterns and replacement templates are passed as written in
    the sources. *)
Record Lib : Type := mkLib {
  (** [json.loads] *)
  json_loads : string -> Py.result Json.t;
  (** [re.sub(pattern, repl, s, flags=...)] with a template *)
  re_sub : string -> string -> list re_flag -> string -> string;
  (** [re.sub(pattern, fn, s)] with a callback that reads [match.group(1)] *)
  re_sub_fn : string -> (string -> string) -> string -> string;
  (** [re.search(pattern, s, flags)] followed by [match.group(1)] *)
  re_search_group1 : string -> list re_flag -> string -> option string;
  (** [re.findall(pattern, s)] *)
  re_findall : string -> string -> list string;
  (** [str.strip()] *)
  strip : string -> string;
  (** [ollama_client.generate_async(prompt)] *)
  generate_async : string -> Py.result string
}.

Definition q : string := Str.dq.

Definition NL : string := String "010"%char EmptyString.

Section Parsing.

Variable lib : Lib.

Definition _is_valid_json (json_str : string) : Py.result bool :=
  if String.eqb json_str "" || String.eqb (strip lib json_str) "" then Py.ret false
  else
    match json_loads lib json_str with
    | inr data => Py.ret (Json.is_dict data)
    | inl (Py.JSONDecodeError _ _ _ _) => Py.ret false
    | inl (Py.ValueError _) => Py.ret false
    | inl e => Py.raise e
    end.

(** The callback of [_clean_json_string] on the inside of one string
    literal. *)
Definition is_escape_letter (c : ascii) : bool :=
  Str.contains (String c EmptyString) ("nrtbfu" +:+ q +:+ "\/").

Definition hex_digit (n : nat) : ascii :=
  match n with
  | 0 => "0" | 1 => "1" | 2 => "2" | 3 => "3" | 4 => "4" | 5 => "5"
  | 6 => "6" | 7 => "7" | 8 => "8" | 9 => "9" | 10 => "a" | 11 => "b"
  | 12 => "c" | 13 => "d" | 14 => "e" | _ => "f"
  end%char.

Definition control_escape (c : ascii) : string :=
  let n := nat_of_ascii c in
  if (n =? 10)%nat then "\n"
  else if (n =? 13)%nat then "\r"
  else if (n =? 9)%nat then "\t"
  else if (n =? 8)%nat then "\b"
  else if (n =? 12)%nat then "\f"
  else "\u00" +:+ String (hex_digit (n / 16)) (String (hex_digit (n mod 16)) EmptyString).

Fixpoint escape_loop (string_content : string) : string :=
  match string_content with
  | EmptyString => EmptyString
  | String char rest =>
      if Ascii.eqb char "\"%char then
        match rest with
        | String next_char rest' =>
            if is_escape_letter next_char
            then String char (String next_char (escape_loop rest'))
            else "\\" +:+ escape_loop rest
        | EmptyString => String char EmptyString
        end
      else if (nat_of_ascii char <? 32)%nat
      then control_escape char +:+ escape_loop rest
      else String char (escape_loop rest)
  end.

Definition escape_control_chars (group1 : string) : string :=
  q +:+ escape_loop group1 +:+ q.

Definition _clean_json_string (json_str : string) : Py.result string :=
  let* valid := _is_valid_json json_str in
  if valid then Py.ret json_str
  else
    let json_str := re_sub lib "//.*?$" "" [MULTILINE] json_str in
    let json_str := re_sub lib "/\*.*?\*/" "" [DOTALL] json_str in
    let json_str :=
      re_sub lib "'(\w+)'(\s*:)" (q +:+ "\1" +:+ q +:+ "\2") [] json_str in
    let json_str :=
      re_sub lib ":\s*'([^']*)'" (": " +:+ q +:+ "\1" +:+ q) [] json_str in
    let json_str :=
      re_sub_fn lib (q +:+ "((?:[^" +:+ q +:+ "\\]|\\.)*)" +:+ q)
        escape_control_chars json_str in
    let json_str :=
      re_sub lib (q +:+ "\s+" +:+ q +:+ "([^" +:+ q +:+ "]+)" +:+ q +:+ "\s*:")
        (q +:+ ", " +:+ q +:+ "\1" +:+ q +:+ ":") [] json_str in
    let json_str :=
      re_sub lib
        (q +:+ "\s+" +:+ q +:+ "([^" +:+ q +:+ "]+)" +:+ q +:+ "\s*([,}\]]])")
        (q +:+ ", " +:+ q +:+ "\1" +:+ q +:+ "\2") [] json_str in
    let json_str :=
      re_sub lib (q +:+ "\s+" +:+ q) (q +:+ ", " +:+ q) [] json_str in
    let json_str :=
      re_sub lib ("(\d+)\s+([" +:+ q +:+ "\d{tfn\-])") "\1, \2" [] json_str in
    let json_str :=
      re_sub lib ("(true|false|null)\s+([" +:+ q +:+ "\d{tfn\-])") "\1, \2" []
        json_str in
    let json_str :=
      re_sub lib ("([}\]])\s+" +:+ q) ("\1, " +:+ q) [] json_str in
    let json_str :=
      re_sub lib "([}\]])\s+([\d{tfn\-])" "\1, \2" [] json_str in
    let json_str := re_sub lib ",(\s*[}\]]])" "\1" [] json_str in
    Py.ret (strip lib json_str).

(** Strategy 2 of [_extract_json_from_response]: the scan over
    [enumerate(response)]; [rest] is what remains from index [i]. *)
Fixpoint scan_object (response rest : string) (i : nat) (brace_count : Z)
    (start_idx : option nat) : Py.result (option string) :=
  match rest with
  | EmptyString => Py.ret None
  | String char rest' =>
      if Ascii.eqb char "{"%char then
        scan_object response rest' (S i) (brace_count + 1)%Z
          (match start_idx with None => Some i | Some _ => start_idx end)
      else if Ascii.eqb char "}"%char then
        let brace_count := (brace_count - 1)%Z in
        match (brace_count =? 0)%Z, start_idx with
        | true, Some start =>
            let extracted := strip lib (Str.slice response start (i + 1)) in
            let* valid := _is_valid_json extracted in
            if valid then Py.ret (Some extracted)
            else scan_object response rest' (S i) brace_count start_idx
        | _, _ => scan_object response rest' (S i) brace_count start_idx
        end
      else scan_object response rest' (S i) brace_count start_idx
  end.

(** Strategy 3: the scan over [range(json_start, len(response))]. *)
Fixpoint scan_from (response rest : string) (i json_start : nat)
    (brace_count : Z) : Py.result (option string) :=
  match rest with
  | EmptyString => Py.ret None
  | String char rest' =>
      if Ascii.eqb char "{"%char then
        scan_from response rest' (S i) json_start (brace_count + 1)%Z
      else if Ascii.eqb char "}"%char then
        let brace_count := (brace_count - 1)%Z in
        if (brace_count =? 0)%Z then
          let extracted := strip lib (Str.slice response json_start (i + 1)) in
          let* valid := _is_valid_json extracted in
          if valid then Py.ret (Some extracted)
          else scan_from response rest' (S i) json_start brace_count
        else scan_from response rest' (S i) json_start brace_count
      else scan_from response rest' (S i) json_start brace_count
  end.

(** The fenced block after the marker [fence], when it is closed and holds
    a valid document. *)
Definition fenced_block (response fence : string) : Py.result (option string) :=
  match Str.find fence response 0 with
  | None => Py.ret None
  | Some at_ =>
      let start := at_ + String.length fence in
      match Str.find "```" response start with
      | None => Py.ret None
      | Some end_ =>
          let extracted := strip lib (Str.slice response start end_) in
          let* valid := _is_valid_json extracted in
          Py.ret (if valid then Some extracted else None)
      end
  end.

Definition _extract_json_from_response (response : string) : Py.result string :=
  let response := strip lib response in
  let* block :=
    if Str.contains "```json" response then fenced_block response "```json"
    else if Str.contains "```" response then fenced_block response "```"
    else Py.ret None in
  match block with
  | Some extracted => Py.ret extracted
  | None =>
      let* object := scan_object response response 0 0%Z None in
      match object with
      | Some extracted => Py.ret extracted
      | None =>
          let dsub := q +:+ "subtasks" +:+ q in
          let* anchored :=
            if Str.contains dsub response || Str.contains "'subtasks'" response
            then
              let start :=
                match Str.find dsub response 0 with
                | Some start => Some start
                | None => Str.find "'subtasks'" response 0
                end in
              match start with
              | None => Py.ret None
              | Some start =>
                  match Str.rfind_char "{"%char response start with
                  | None => Py.ret None
                  | Some json_start =>
                      scan_from response
                        (Str.slice response json_start (String.length response))
                        json_start json_start 0%Z
                  end
              end
            else Py.ret None in
          match anchored with
          | Some extracted => Py.ret extracted
          | None => Py.ret response
          end
      end
  end.

(** [key in v] for the operand kinds [json.loads] can produce. *)
Definition py_in (key : string) (v : Json.t) : Py.result bool :=
  match v with
  | Json.JDict d => Py.ret (Json.dict_has key d)
  | Json.JList l =>
      Py.ret (existsb (fun x => match x with
                                | Json.JStr s => String.eqb s key
                                | _ => false
                                end) l)
  | Json.JStr s => Py.ret (Str.contains key s)
  | _ => Py.raise (Py.TypeError "argument is not iterable")
  end.

(** The inner loop of [_validate_plan_data] over the actions of one
    subtask. *)
Fixpoint validate_actions (actions : list Json.t) : list Json.t :=
  match actions with
  | [] => []
  | Json.JDict action :: rest =>
      if negb (Json.dict_has "tool" action) then validate_actions rest
      else
        let action :=
          if Json.dict_has "args" action then action
          else Json.dict_set "args" (Json.JDict []) action in
        let action :=
          if Json.dict_has "type" action then action
          else Json.dict_set "type" (Json.JStr "gui") action in
        Json.JDict action :: validate_actions rest
  | _ :: rest => validate_actions rest
  end.

(** The outer loop over [enumerate(plan_data.get("subtasks", []))]. *)
Fixpoint validate_subtasks (idx : nat) (subtasks : list Json.t)
  : Py.result (list Json.t) :=
  match subtasks with
  | [] => Py.ret []
  | Json.JDict subtask :: rest =>
      let subtask :=
        if Json.dict_has "id" subtask then subtask
        else Json.dict_set "id" (Json.JStr ("subtask_" +:+ pretty (idx + 1))) subtask in
      let subtask :=
        if Json.dict_has "description" subtask then subtask
        else Json.dict_set "description"
               (Json.JStr ("Subtask " +:+ pretty (idx + 1))) subtask in
      let subtask :=
        if Json.dict_has "actions" subtask then subtask
        else Json.dict_set "actions" (Json.JList []) subtask in
      let* actions :=
        match Json.dict_get "actions" subtask with
        | Some v => Json.iter v
        | None => Py.ret []
        end in
      let subtask :=
        Json.dict_set "actions" (Json.JList (validate_actions actions)) subtask in
      let* validated := validate_subtasks (S idx) rest in
      Py.ret (Json.JDict subtask :: validated)
  | _ :: rest => validate_subtasks (S idx) rest
  end.

Definition _validate_plan_data (plan_data : Json.t) : Py.result Json.t :=
  match plan_data with
  | Json.JDict plan_data =>
      let plan_data :=
        if Json.dict_has "subtasks" plan_data then plan_data
        else Json.dict_set "subtasks" (Json.JList []) plan_data in
      let* subtasks :=
        match Json.dict_get "subtasks" plan_data with
        | Some v => Json.iter v
        | None => Py.ret []
        end in
      let* validated_subtasks := validate_subtasks 0 subtasks in
      Py.ret (Json.JDict (Json.dict_set "subtasks" (Json.JList validated_subtasks)
                            plan_data))
  | _ => Py.raise (Py.ValueError "Plan data must be a dictionary")
  end.

(** The character loop of [_fix_common_json_issues]: the text is split at
    line breaks, every character of every line is appended again with the
    quote and escape state carried along, and the lines are joined. *)
Fixpoint copy_lines (s : string) (in_string escape_next : bool) : string :=
  match s with
  | EmptyString => EmptyString
  | String char rest =>
      if Ascii.eqb char "010"%char then String char (copy_lines rest in_string escape_next)
      else if escape_next then String char (copy_lines rest in_string false)
      else if Ascii.eqb char "\"%char then String char (copy_lines rest in_string true)
      else if Ascii.eqb char "034"%char
      then String char (copy_lines rest (negb in_string) false)
      else String char (copy_lines rest in_string false)
  end.

Definition _fix_common_json_issues (json_str : string) : string :=
  let json_str := copy_lines json_str false false in
  re_sub lib "(\d+)\s*,(\s*[}\]])" "\1\2" [] json_str.

(** The loop of [_extract_partial_json] over the candidate objects. *)
Fixpoint parse_candidates (subtask_matches : list string) : list Json.t :=
  match subtask_matches with
  | [] => []
  | subtask_str :: rest =>
      match json_loads lib subtask_str with
      | inr (Json.JDict d) => Json.JDict d :: parse_candidates rest
      | _ => parse_candidates rest
      end
  end.

Definition _extract_partial_json (response : string) : option Json.t :=
  match re_search_group1 lib
          (q +:+ "subtasks" +:+ q +:+ "\s*:\s*\[(.*?)\]") [DOTALL] response with
  | None => None
  | Some subtasks_content =>
      let subtask_matches :=
        re_findall lib "\{[^{}]*(?:\{[^{}]*\}[^{}]*)*\}" subtasks_content in
      match parse_candidates subtask_matches with
      | [] => None
      | subtasks => Some (Json.JDict [("subtasks", Json.JList subtasks)])
      end
  end.

(** [" " * n] *)
Fixpoint spaces (n : nat) : string :=
  match n with
  | O => EmptyString
  | S n' => String " "%char (spaces n')
  end.

(** The repair prompt of [_fix_json_with_llm]. *)
Definition fix_prompt (broken_json msg : string) (lineno colno pos : nat)
  : string :=
  let error_context_start := pos - 100 in
  let error_context_end := Nat.min (String.length broken_json) (pos + 100) in
  let error_context := Str.slice broken_json error_context_start error_context_end in
  let error_marker := spaces (pos - error_context_start) +:+ "^" in
  "以下是一个格式错误的 JSON 字符串，请修复它使其成为有效的 JSON。" +:+ NL +:+ NL
  +:+ "错误信息：" +:+ msg +:+ NL
  +:+ "错误位置：第 " +:+ pretty lineno +:+ " 行，第 " +:+ pretty colno
  +:+ " 列（字符位置 " +:+ pretty pos +:+ "）" +:+ NL +:+ NL
  +:+ "错误位置附近的上下文：" +:+ NL
  +:+ error_context +:+ NL
  +:+ error_marker +:+ NL +:+ NL
  +:+ "完整的损坏 JSON：" +:+ NL
  +:+ broken_json +:+ NL +:+ NL
  +:+ "**重要要求：**" +:+ NL
  +:+ "1. 仔细检查错误位置（第 " +:+ pretty lineno +:+ " 行，第 " +:+ pretty colno
  +:+ " 列）附近的代码" +:+ NL
  +:+ "2. 修复所有格式错误（缺少逗号、尾随逗号、缺少引号、单引号、未转义的控制字符等）" +:+ NL
  +:+ "3. 确保修复后的 JSON 可以被 Python 的 json.loads() 正确解析" +:+ NL
  +:+ "4. **只返回修复后的 JSON，不要任何解释、说明、markdown 代码块标记或其他文字**" +:+ NL
  +:+ "5. 保持原有的数据结构不变，不要修改数据内容" +:+ NL
  +:+ "6. 确保所有字符串使用双引号，所有属性名使用双引号" +:+ NL
  +:+ "7. 确保所有逗号、括号、大括号都正确匹配" +:+ NL
  +:+ "8. 每个对象属性之间必须有逗号分隔（最后一个属性除外）" +:+ NL
  +:+ "9. 每个数组元素之间必须有逗号分隔（最后一个元素除外）" +:+ NL +:+ NL
  +:+ "**输出格式：**" +:+ NL
  +:+ "直接输出修复后的 JSON，不要包含 ```json 或 ``` 标记，不要有任何前缀或后缀文字。"
  +:+ NL +:+ NL
  +:+ "修复后的 JSON：".

(** [json.loads(text)] followed by [if "subtasks" in plan_data: return
    plan_data], inside [try ... except json.JSONDecodeError].  The outcome
    is the value to return, or [None] to go on; other exceptions leave. *)
Definition try_direct (text : string) : Py.result (option Json.t) :=
  match json_loads lib text with
  | inl (Py.JSONDecodeError _ _ _ _) => Py.ret None
  | inl e => Py.raise e
  | inr plan_data =>
      match py_in "subtasks" plan_data with
      | inl (Py.JSONDecodeError _ _ _ _) => Py.ret None
      | inl e => Py.raise e
      | inr true => Py.ret (Some plan_data)
      | inr false => Py.ret None
      end
  end.

(** The body of the outer [try] of [_fix_json_with_llm]. *)
Definition fix_json_body (broken_json msg : string) (lineno colno pos : nat)
  : Py.result (option Json.t) :=
  let* fixed_response :=
    generate_async lib (fix_prompt broken_json msg lineno colno pos) in
  let* direct := try_direct (strip lib fixed_response) in
  match direct with
  | Some plan_data => Py.ret (Some plan_data)
  | None =>
      let* fixed_json := _extract_json_from_response fixed_response in
      let* extracted := try_direct fixed_json in
      match extracted with
      | Some plan_data => Py.ret (Some plan_data)
      | None =>
          let* fixed_json := _clean_json_string fixed_json in
          let* plan_data := json_loads lib fixed_json in
          let* has_subtasks := py_in "subtasks" plan_data in
          if has_subtasks then Py.ret (Some plan_data) else Py.ret None
      end
  end.

Definition _fix_json_with_llm (broken_json msg : string) (lineno colno pos : nat)
  : option Json.t :=
  match fix_json_body broken_json msg lineno colno pos with
  | inr r => r
  | inl _ => None
  end.

(** The placeholder plans of [_parse_plan_response]. *)
Definition fallback_plan (description : string) : Json.t :=
  Json.JDict
    [("subtasks",
      Json.JList
        [Json.JDict [("id", Json.JStr "subtask_1");
                     ("description", Json.JStr description);
                     ("actions", Json.JList [])]])].

Definition default_notice : string := "解析规划失败，使用默认任务".

(** Strategy 1 of the decode-error handler. *)
Definition enhanced_regex_repair (original_response : string)
  : Py.result Json.t :=
  let* json_str := _extract_json_from_response original_response in
  let* json_str := _clean_json_string json_str in
  let json_str := _fix_common_json_issues json_str in
  let* plan_data := json_loads lib json_str in
  _validate_plan_data plan_data.

(** The [try] block of [_parse_plan_response]. *)
Definition parse_body (response : string) : Py.result Json.t :=
  let* json_str := _extract_json_from_response response in
  let* json_str := _clean_json_string json_str in
  let* plan_data := json_loads lib json_str in
  _validate_plan_data plan_data.

Definition history : Type := list ErrorHandler.ErrorContext.

Definition record_error (h : history) (e : Py.Exn) (t : ErrorHandler.ErrorType)
  : history :=
  snd (ErrorHandler.create_error_context h e t None None 0).

(** The handler for [json.JSONDecodeError]. *)
Definition on_decode_error (original_response msg : string)
    (lineno colno pos : nat) : Py.result Json.t :=
  let strategy1 :=
    match enhanced_regex_repair original_response with
    | inr plan_data =>
        match py_in "subtasks" plan_data with
        | inr true => Some plan_data
        | _ => None
        end
    | inl _ => None
    end in
  match strategy1 with
  | Some plan_data => Py.ret plan_data
  | None =>
      let strategy2 :=
        match _extract_partial_json original_response with
        | Some partial_data =>
            if Json.truthy partial_data then
              match py_in "subtasks" partial_data with
              | inr true => Some partial_data
              | _ => None
              end
            else None
        | None => None
        end in
      match strategy2 with
      | Some partial_data => Py.ret partial_data
      | None =>
          let strategy3 :=
            match _fix_json_with_llm original_response msg lineno colno pos with
            | Some fixed_data =>
                if Json.truthy fixed_data then
                  match _validate_plan_data fixed_data with
                  | inr fixed_data => Some fixed_data
                  | inl _ => None
                  end
                else None
            | None => None
            end in
          match strategy3 with
          | Some fixed_data => Py.ret fixed_data
          | None => Py.ret (fallback_plan default_notice)
          end
      end
  end.

Definition _parse_plan_response (h : history) (response : string)
  : Py.result Json.t * history :=
  let original_response := response in
  match parse_body response with
  | inr plan_data => (Py.ret plan_data, h)
  | inl (Py.JSONDecodeError msg lineno colno pos as e) =>
      (on_decode_error original_response msg lineno colno pos,
       record_error h e ErrorHandler.JSON_PARSE_ERROR)
  | inl (Py.ValueError _ as e) =>
      (Py.ret (fallback_plan ("解析规划失败: " +:+ Py.str_of_exn e)),
       record_error h e ErrorHandler.VALIDATION_ERROR)
  | inl e =>
      (Py.ret (fallback_plan default_notice),
       record_error h e ErrorHandler.UNKNOWN_ERROR)
  end.

(** A plan is a dictionary that binds [subtasks] to a list. *)
Definition is_plan (v : Json.t) : Prop :=
  exists (d : Json.Dict) (subtasks : list Json.t),
    v = Json.JDict d /\ Json.dict_get "subtasks" d = Some (Json.JList subtasks).

(** The three repairs of the decode-error handler all fail on [response]. *)
Definition repairs_fail (response msg : string) (lineno colno pos : nat) : Prop :=
  (exists e, enhanced_regex_repair response = inl e) /\
  _extract_partial_json response = None /\
  (_fix_json_with_llm response msg lineno colno pos = None \/
   exists fixed e,
     _fix_json_with_llm response msg lineno colno pos = Some fixed /\
     _validate_plan_data fixed = inl e).

End Parsing.

(** An instance of the libraries and the oracle for texts without any
    structure, such as the words [oops] and [sorry]: on them [json.loads]
    raises [Expecting value] at the first character, none of the patterns
    matches (a substitution returns its subject), and the oracle, asked to
    repair, answers [sorry]. *)
Definition plain_text_lib : Lib :=
  {| json_loads := fun _ => Py.raise (Py.JSONDecodeError "Expecting value" 1 1 0);
     re_sub := fun _ _ _ subject => subject;
     re_sub_fn := fun _ _ subject => subject;
     re_search_group1 := fun _ _ _ => None;
     re_findall := fun _ _ => [];
     strip := Str.ascii_strip;
     generate_async := fun _ => Py.ret "sorry" |}.

End Planner.


(** ** llm/self_consistency.py *)

Module SelfConsistency.

Inductive VotingStrategy : Type := MAJORITY | WEIGHTED | CLUSTERING | QUALITY_BASED.

Record SampleResult : Type := mkSampleResult {
  content : string;
  parsed_data : option Json.t;
  is_valid : bool;
  quality_score : Q;
  parse_error : option string
}.

(** What a dictionary or a set keys its entries by: [None], a number (a
    boolean counts as 0 or 1) or a string.  Numbers are kept in lowest
    terms so that equal numbers are equal keys. *)
Inductive Key : Type :=
| KNull
| KNum (num : Z) (den : positive)
| KStr (s : string).

#[global] Instance Key_eq_dec : EqDecision Key.
Proof. solve_decision. Defined.

#[global] Instance Key_countable : Countable Key.
Proof.
  refine (inj_countable'
    (fun k => match k with
              | KNull => inl ()
              | KNum n d => inr (inl (n, d))
              | KStr s => inr (inr s)
              end)
    (fun x => match x with
              | inl _ => KNull
              | inr (inl (n, d)) => KNum n d
              | inr (inr s) => KStr s
              end) _).
  intros []; reflexivity.
Defined.

Definition key_of_Q (q : Q) : Key :=
  let r := Qred q in KNum (Qnum r) (Qden r).

(** [hash(v)]: lists and dictionaries are unhashable. *)
Definition hash_key (v : Json.t) : Py.result Key :=
  match v with
  | Json.JNull => Py.ret KNull
  | Json.JBool b => Py.ret (key_of_Q (if b then 1 else 0)%Q)
  | Json.JNum q => Py.ret (key_of_Q q)
  | Json.JStr s => Py.ret (KStr s)
  | Json.JList _ => Py.raise (Py.TypeError "unhashable type: 'list'")
  | Json.JDict _ => Py.raise (Py.TypeError "unhashable type: 'dict'")
  end.

(** The details that accompany the winner. *)
Inductive VotingDetails : Type :=
| AllFailed
| NoValidSamples (strategy : string)
| MajorityDetails (tool_votes : list (Key * Z)) (subtask_counts : list (nat * Z))
    (best_score : Z)
| MajorityFallback
| WeightedDetails (best_weight : Q) (weights : list Q)
| ClusteringDetails (cluster_count largest_cluster_size : nat)
| QualityDetails (best_score frequency quality : Q).

Record ConsistencyResult : Type := mkConsistencyResult {
  best_result : Json.t;
  consistency_score : Q;
  sample_count : nat;
  valid_sample_count : nat;
  voting_details : VotingDetails
}.

Record Config : Type := mkConfig {
  num_samples : nat;
  voting_strategy : VotingStrategy;
  early_stop_threshold : Q;
  parallel : bool
}.

Definition default_config : Config :=
  {| num_samples := 5; voting_strategy := MAJORITY;
     early_stop_threshold := 9 # 10; parallel := true |}.

Record Lib : Type := mkLib {
  (** [json.loads] *)
  json_loads : string -> Py.result Json.t;
  (** [json.dumps(v, sort_keys=True)] *)
  json_dumps : Json.t -> Py.result string;
  (** [re.search(r'\{.*\}', text, re.DOTALL)] followed by [group(0)] *)
  re_search_object : string -> option string;
  (** [str.strip()] *)
  strip : string -> string
}.

(** [data.get("subtasks", [])] *)
Definition get_subtasks (data : Json.t) : Py.result Json.t :=
  match data with
  | Json.JDict d =>
      Py.ret match Json.dict_get "subtasks" d with
             | Some v => v
             | None => Json.JList []
             end
  | _ => Py.raise (Py.AttributeError "object has no attribute 'get'")
  end.

(** [v[key]] for a string key *)
Definition getitem (key : string) (v : Json.t) : Py.result Json.t :=
  match v with
  | Json.JDict d =>
      match Json.dict_get key d with
      | Some x => Py.ret x
      | None => Py.raise (Py.KeyError key)
      end
  | _ => Py.raise (Py.TypeError "indices must be integers")
  end.

(** [len(v)] *)
Definition len (v : Json.t) : Py.result nat :=
  match v with
  | Json.JList l => Py.ret (length l)
  | Json.JDict d => Py.ret (length d)
  | Json.JStr s => Py.ret (String.length s)
  | _ => Py.raise (Py.TypeError "object has no len()")
  end.

(** [key in v] *)
Definition py_in (key : string) (v : Json.t) : Py.result bool :=
  match v with
  | Json.JDict d => Py.ret (Json.dict_has key d)
  | Json.JList l =>
      Py.ret (existsb (fun x => match x with
                                | Json.JStr s => String.eqb s key
                                | _ => false
                                end) l)
  | Json.JStr s => Py.ret (Str.contains key s)
  | _ => Py.raise (Py.TypeError "argument is not iterable")
  end.

(** The nest of loops that visits every tool named by a dict action of a
    dict subtask, written three times in the sources; [f] is what each
    copy does with a tool. *)
Fixpoint fold_actions {A : Type} (f : A -> Json.t -> Py.result A) (acc : A)
    (actions : list Json.t) : Py.result A :=
  match actions with
  | [] => Py.ret acc
  | Json.JDict action :: rest =>
      match Json.dict_get "tool" action with
      | Some tool => let* acc := f acc tool in fold_actions f acc rest
      | None => fold_actions f acc rest
      end
  | _ :: rest => fold_actions f acc rest
  end.

Fixpoint fold_subtasks {A : Type} (f : A -> Json.t -> Py.result A) (acc : A)
    (subtasks : list Json.t) : Py.result A :=
  match subtasks with
  | [] => Py.ret acc
  | Json.JDict subtask :: rest =>
      match Json.dict_get "actions" subtask with
      | Some actions =>
          let* actions := Json.iter actions in
          let* acc := fold_actions f acc actions in
          fold_subtasks f acc rest
      | None => fold_subtasks f acc rest
      end
  | _ :: rest => fold_subtasks f acc rest
  end.

Definition fold_tools {A : Type} (f : A -> Json.t -> Py.result A) (acc : A)
    (subtasks : Json.t) : Py.result A :=
  let* subtasks := Json.iter subtasks in
  fold_subtasks f acc subtasks.

(** [tools.add(action["tool"])] *)
Definition add_tool (tools : gset Key) (tool : Json.t) : Py.result (gset Key) :=
  let* k := hash_key tool in Py.ret ({[ k ]} ∪ tools).

Definition Qlen (n : nat) : Q := inject_Z (Z.of_nat n).

Definition _calculate_similarity (data1 data2 : Json.t) : Py.result Q :=
  if negb (Json.truthy data1) || negb (Json.truthy data2) then Py.ret 0%Q
  else
    let score := 0%Q in
    let total := 0%Q in
    let* subtasks1 := get_subtasks data1 in
    let* subtasks2 := get_subtasks data2 in
    let* len1 := len subtasks1 in
    let* len2 := len subtasks2 in
    let score := if (len1 =? len2)%nat then (score + (3 # 10))%Q else score in
    let total := (total + (3 # 10))%Q in
    let* tools1 := fold_tools add_tool (∅ : gset Key) subtasks1 in
    let* tools2 := fold_tools add_tool (∅ : gset Key) subtasks2 in
    let score :=
      if negb (bool_decide (tools1 = ∅)) && negb (bool_decide (tools2 = ∅)) then
        let intersection := size (tools1 ∩ tools2) in
        let union := size (tools1 ∪ tools2) in
        if (0 <? union)%nat
        then (score + (7 # 10) * (Qlen intersection / Qlen union))%Q
        else score
      else score in
    let total := (total + (7 # 10))%Q in
    Py.ret (if Qle_bool total 0 then 0%Q else (score / total)%Q).

(** [sum(xs) / len(xs)] *)
Definition mean (xs : list Q) : Q :=
  (fold_left Qplus xs 0 / Qlen (length xs))%Q.

(** The similarities of the samples that carry data to [other]. *)
Fixpoint similarities_to (other : Json.t) (samples : list SampleResult)
  : Py.result (list Q) :=
  match samples with
  | [] => Py.ret []
  | sample :: rest =>
      match parsed_data sample with
      | Some data =>
          if Json.truthy data then
            let* similarity := _calculate_similarity data other in
            let* sims := similarities_to other rest in
            Py.ret (similarity :: sims)
          else similarities_to other rest
      | None => similarities_to other rest
      end
  end.

Definition _calculate_consistency_score
    (parsed_samples : list SampleResult) (best_result : Json.t) : Py.result Q :=
  match parsed_samples with
  | [] => Py.ret 0%Q
  | _ :: _ =>
      if negb (Json.truthy best_result) then Py.ret 0%Q
      else
        let* similarities := similarities_to best_result parsed_samples in
        match similarities with
        | [] => Py.ret 0%Q
        | _ :: _ => Py.ret (mean similarities)
        end
  end.

(** [sample.parsed_data] is set and truthy. *)
Definition data_of (sample : SampleResult) : option Json.t :=
  match parsed_data sample with
  | Some data => if Json.truthy data then Some data else None
  | None => None
  end.

(** The pairs [(i, j)], [i < j], of [_calculate_preliminary_consistency]. *)
Fixpoint pair_similarities (samples : list SampleResult) : Py.result (list Q) :=
  match samples with
  | [] => Py.ret []
  | sample :: rest =>
      let* row :=
        match data_of sample with
        | Some data => similarities_to data rest
        | None => Py.ret []
        end in
      let* more := pair_similarities rest in
      Py.ret (row ++ more)%list
  end.

Definition _calculate_preliminary_consistency (parsed_samples : list SampleResult)
  : Py.result Q :=
  if (length parsed_samples <? 2)%nat then Py.ret 0%Q
  else
    let* similarities := pair_similarities parsed_samples in
    match similarities with
    | [] => Py.ret 0%Q
    | _ :: _ => Py.ret (mean similarities)
    end.

(** The loop of [_calculate_quality_score] over the subtasks. *)
Fixpoint quality_loop (score : Q) (subtasks : list Json.t) : Py.result Q :=
  match subtasks with
  | [] => Py.ret score
  | subtask :: rest =>
      let score := if Json.is_dict subtask then score else (score * (8 # 10))%Q in
      let* has_actions := py_in "actions" subtask in
      let score := if has_actions then score else (score * (8 # 10))%Q in
      quality_loop score rest
  end.

Definition _calculate_quality_score (sample : SampleResult) : Py.result Q :=
  let score := 1%Q in
  if negb (is_valid sample) then Py.ret 0%Q
  else
    match data_of sample with
    | None => Py.ret score
    | Some data =>
        let* has_subtasks := py_in "subtasks" data in
        if has_subtasks then
          let* subtasks := getitem "subtasks" data in
          if negb (Json.truthy subtasks) then Py.ret (score * (5 # 10))%Q
          else
            let* subtasks := Json.iter subtasks in
            quality_loop score subtasks
        else Py.ret score
    end.

(** [max(xs, key=...)]: the first item whose key is largest. *)
Fixpoint max_by {A K : Type} (lt : K -> K -> bool) (key : A -> K) (best : A)
    (rest : list A) : A :=
  match rest with
  | [] => best
  | x :: rest' =>
      if lt (key best) (key x) then max_by lt key x rest'
      else max_by lt key best rest'
  end.

Definition Qltb (a b : Q) : bool := negb (Qle_bool b a).

(** [votes[k] = votes.get(k, 0) + 1] *)
Fixpoint bump {K : Type} `{EqDecision K} (k : K) (votes : list (K * Z))
  : list (K * Z) :=
  match votes with
  | [] => [(k, 1%Z)]
  | (k', n) :: rest =>
      if bool_decide (k = k') then (k', (n + 1)%Z) :: rest
      else (k', n) :: bump k rest
  end.

Fixpoint votes_get {K : Type} `{EqDecision K} (k : K) (votes : list (K * Z))
  : option Z :=
  match votes with
  | [] => None
  | (k', n) :: rest => if bool_decide (k = k') then Some n else votes_get k rest
  end.

Definition count_tool (tool_votes : list (Key * Z)) (tool : Json.t)
  : Py.result (list (Key * Z)) :=
  let* k := hash_key tool in Py.ret (bump k tool_votes).

(** The first loop of [_majority_vote]. *)
Fixpoint tally (tool_votes : list (Key * Z)) (subtask_counts : list (nat * Z))
    (samples : list SampleResult)
  : Py.result (list (Key * Z) * list (nat * Z)) :=
  match samples with
  | [] => Py.ret (tool_votes, subtask_counts)
  | sample :: rest =>
      match data_of sample with
      | None => tally tool_votes subtask_counts rest
      | Some data =>
          let* has_subtasks := py_in "subtasks" data in
          let* tool_votes :=
            if has_subtasks then
              let* subtasks := getitem "subtasks" data in
              fold_tools count_tool tool_votes subtasks
            else Py.ret tool_votes in
          let* subtasks := get_subtasks data in
          let* subtask_count := len subtasks in
          tally tool_votes (bump subtask_count subtask_counts) rest
      end
  end.

Definition add_votes (tool_votes : list (Key * Z)) (score : Z) (tool : Json.t)
  : Py.result Z :=
  let* k := hash_key tool in
  Py.ret match votes_get k tool_votes with
         | Some n => (score + n)%Z
         | None => score
         end.

(** The second loop of [_majority_vote]. *)
Fixpoint pick_best (tool_votes : list (Key * Z)) (most_common : nat)
    (best_sample : option SampleResult) (best_score : Z)
    (samples : list SampleResult) : Py.result (option SampleResult * Z) :=
  match samples with
  | [] => Py.ret (best_sample, best_score)
  | sample :: rest =>
      match data_of sample with
      | None => pick_best tool_votes most_common best_sample best_score rest
      | Some data =>
          let* has_subtasks := py_in "subtasks" data in
          if negb has_subtasks
          then pick_best tool_votes most_common best_sample best_score rest
          else
            let* subtasks := getitem "subtasks" data in
            let* n := len subtasks in
            let score := if (n =? most_common)%nat then 2%Z else 0%Z in
            let* score := fold_tools (add_votes tool_votes) score subtasks in
            if (best_score <? score)%Z
            then pick_best tool_votes most_common (Some sample) score rest
            else pick_best tool_votes most_common best_sample best_score rest
      end
  end.

(** The first sample that carries data. *)
Fixpoint first_data (samples : list SampleResult) : option Json.t :=
  match samples with
  | [] => None
  | sample :: rest =>
      match data_of sample with
      | Some data => Some data
      | None => first_data rest
      end
  end.

Definition _majority_vote (parsed_samples : list SampleResult)
  : Py.result (Json.t * VotingDetails) :=
  let* '(tool_votes, subtask_counts) := tally [] [] parsed_samples in
  let most_common_subtask_count :=
    match subtask_counts with
    | [] => 0
    | first :: rest => fst (max_by Z.ltb snd first rest)
    end in
  let* '(best_sample, best_score) :=
    pick_best tool_votes most_common_subtask_count None 0%Z parsed_samples in
  match match best_sample with
        | Some sample => data_of sample
        | None => None
        end with
  | Some data => Py.ret (data, MajorityDetails tool_votes subtask_counts best_score)
  | None =>
      match first_data parsed_samples with
      | Some data => Py.ret (data, MajorityFallback)
      | None => Py.ret (Json.JDict [], NoValidSamples "majority")
      end
  end.

(** The samples that carry data, each with its weight. *)
Fixpoint weighted_samples (samples : list SampleResult) : list (Json.t * Q) :=
  match samples with
  | [] => []
  | sample :: rest =>
      match data_of sample with
      | Some data => (data, quality_score sample) :: weighted_samples rest
      | None => weighted_samples rest
      end
  end.

Definition _weighted_vote (parsed_samples : list SampleResult)
  : Py.result (Json.t * VotingDetails) :=
  match weighted_samples parsed_samples with
  | [] => Py.ret (Json.JDict [], NoValidSamples "weighted")
  | first :: rest =>
      let '(best_data, best_weight) := max_by Qltb snd first rest in
      Py.ret (best_data,
              WeightedDetails best_weight
                (List.map snd (weighted_samples parsed_samples)))
  end.

(** The inner loop of [_clustering_vote]: [rest] is [parsed_samples[i+1:]]
    and [j] the index of its head. *)
Fixpoint gather_cluster (data1 : Json.t) (j : nat) (rest : list SampleResult)
    (cluster : list SampleResult) (used : list nat)
  : Py.result (list SampleResult * list nat) :=
  match rest with
  | [] => Py.ret (cluster, used)
  | sample2 :: rest' =>
      match bool_decide (j ∈ used), data_of sample2 with
      | false, Some data2 =>
          let* similarity := _calculate_similarity data1 data2 in
          if Qltb (7 # 10) similarity
          then gather_cluster data1 (S j) rest' (cluster ++ [sample2])%list (j :: used)
          else gather_cluster data1 (S j) rest' cluster used
      | _, _ => gather_cluster data1 (S j) rest' cluster used
      end
  end.

(** The outer loop: [rest] is [parsed_samples[i:]]. *)
Fixpoint build_clusters (i : nat) (rest : list SampleResult) (used : list nat)
  : Py.result (list (list SampleResult)) :=
  match rest with
  | [] => Py.ret []
  | sample1 :: rest' =>
      match bool_decide (i ∈ used), data_of sample1 with
      | false, Some data1 =>
          let* '(cluster, used) :=
            gather_cluster data1 (S i) rest' [sample1] (i :: used) in
          let* clusters := build_clusters (S i) rest' used in
          Py.ret (cluster :: clusters)
      | _, _ => build_clusters (S i) rest' used
      end
  end.

Definition _clustering_vote (parsed_samples : list SampleResult)
  : Py.result (Json.t * VotingDetails) :=
  let* clusters := build_clusters 0 parsed_samples [] in
  match clusters with
  | [] => Py.ret (Json.JDict [], NoValidSamples "clustering")
  | first :: rest =>
      let largest_cluster :=
        max_by Nat.ltb (fun cluster : list SampleResult => length cluster) first rest in
      match largest_cluster with
      | [] => Py.raise (Py.ValueError "max() arg is an empty sequence")
      | s :: ss =>
          let best_sample := max_by Qltb quality_score s ss in
          Py.ret (match parsed_data best_sample with
                  | Some data => data
                  | None => Json.JNull
                  end,
                  ClusteringDetails (length clusters) (length largest_cluster))
      end
  end.

(** The grouping loop of [_quality_based_vote]. *)
Fixpoint group_samples (lib : Lib) (sample_counts : list (string * list SampleResult))
    (samples : list SampleResult)
  : Py.result (list (string * list SampleResult)) :=
  match samples with
  | [] => Py.ret sample_counts
  | sample :: rest =>
      match data_of sample with
      | None => group_samples lib sample_counts rest
      | Some data =>
          let* key := json_dumps lib data in
          let group :=
            match Json.dict_get key sample_counts with
            | Some g => g
            | None => []
            end in
          group_samples lib
            (Json.dict_set key (group ++ [sample])%list sample_counts) rest
      end
  end.

Definition score_group (total : nat) (samples : list SampleResult)
  : option (Json.t * Q * Q * Q) :=
  match samples with
  | [] => None
  | first :: _ =>
      let frequency := (Qlen (length samples) / Qlen total)%Q in
      let avg_quality :=
        (fold_left Qplus (List.map quality_score samples) 0
           / Qlen (length samples))%Q in
      let combined_score := (frequency * (4 # 10) + avg_quality * (6 # 10))%Q in
      match data_of first with
      | Some data => Some (data, combined_score, frequency, avg_quality)
      | None => None
      end
  end.

Definition _quality_based_vote (lib : Lib) (parsed_samples : list SampleResult)
  : Py.result (Json.t * VotingDetails) :=
  let* sample_counts := group_samples lib [] parsed_samples in
  let scored_results :=
    omap (fun kv => score_group (length parsed_samples) (snd kv)) sample_counts in
  match scored_results with
  | [] => Py.ret (Json.JDict [], NoValidSamples "quality_based")
  | first :: rest =>
      let '(best_data, best_score, freq, qual) :=
        max_by Qltb (fun r : Json.t * Q * Q * Q => snd (fst (fst r))) first rest in
      Py.ret (best_data, QualityDetails best_score freq qual)
  end.

Definition _vote (lib : Lib) (strategy : VotingStrategy)
    (parsed_samples : list SampleResult) : Py.result (Json.t * VotingDetails) :=
  match strategy with
  | MAJORITY => _majority_vote parsed_samples
  | WEIGHTED => _weighted_vote parsed_samples
  | CLUSTERING => _clustering_vote parsed_samples
  | QUALITY_BASED => _quality_based_vote lib parsed_samples
  end.

Section Generator.

Variable lib : Lib.
Variable cfg : Config.

Definition _extract_json (text : string) : string :=
  let text := strip lib text in
  let fenced (fence : string) : option string :=
    match Str.find fence text 0 with
    | None => None
    | Some at_ =>
        let start := at_ + String.length fence in
        match Str.find "```" text start with
        | Some end_ => Some (strip lib (Str.slice text start end_))
        | None => None
        end
    end in
  let block :=
    if Str.contains "```json" text then fenced "```json"
    else if Str.contains "```" text then fenced "```"
    else None in
  match block with
  | Some extracted => extracted
  | None =>
      match re_search_object lib text with
      | Some object => object
      | None => text
      end
  end.

(** The parser applied to a sample: the caller's [parse_fn], or the
    default, [json.loads] on the extracted text. *)
Definition parse_with (parse_fn : option (string -> Py.result Json.t))
    (content : string) : Py.result Json.t :=
  match parse_fn with
  | Some parse_fn => parse_fn content
  | None => json_loads lib (_extract_json content)
  end.

Definition _parse_sample (content : string)
    (parse_fn : option (string -> Py.result Json.t)) : SampleResult :=
  match parse_with parse_fn content with
  | inr parsed_data =>
      {| content := content; parsed_data := Some parsed_data; is_valid := true;
         quality_score := 0; parse_error := None |}
  | inl e =>
      {| content := content; parsed_data := None; is_valid := false;
         quality_score := 0; parse_error := Some (Py.str_of_exn e) |}
  end.

(** Step 2 of [generate_with_voting]. *)
Fixpoint parse_all (samples : list string)
    (parse_fn : option (string -> Py.result Json.t))
    (validate_fn : option (option Json.t -> Py.result bool))
  : Py.result (list SampleResult) :=
  match samples with
  | [] => Py.ret []
  | sample :: rest =>
      let parsed := _parse_sample sample parse_fn in
      if is_valid parsed then
        let* parsed :=
          match validate_fn with
          | Some validate_fn =>
              let* ok := validate_fn (parsed_data parsed) in
              Py.ret {| content := content parsed;
                        parsed_data := parsed_data parsed;
                        is_valid := ok;
                        quality_score := if ok then quality_score parsed else 0;
                        parse_error := parse_error parsed |}
          | None => Py.ret parsed
          end in
        let* more := parse_all rest parse_fn validate_fn in
        Py.ret (parsed :: more)
      else parse_all rest parse_fn validate_fn
  end.

(** Step 3. *)
Fixpoint score_all (parsed_samples : list SampleResult)
  : Py.result (list SampleResult) :=
  match parsed_samples with
  | [] => Py.ret []
  | parsed :: rest =>
      let* score := _calculate_quality_score parsed in
      let* more := score_all rest in
      Py.ret ({| content := content parsed;
                 parsed_data := parsed_data parsed;
                 is_valid := is_valid parsed;
                 quality_score := score;
                 parse_error := parse_error parsed |} :: more)
  end.

(** Steps 2 to 5 of [generate_with_voting], on the samples drawn. *)
Definition vote_on_samples (samples : list string)
    (parse_fn : option (string -> Py.result Json.t))
    (validate_fn : option (option Json.t -> Py.result bool))
  : Py.result ConsistencyResult :=
  let* parsed_samples := parse_all samples parse_fn validate_fn in
  match parsed_samples with
  | [] =>
      Py.ret {| best_result := Json.JDict [];
                consistency_score := 0;
                sample_count := length samples;
                valid_sample_count := 0;
                voting_details := AllFailed |}
  | _ :: _ =>
      let* parsed_samples := score_all parsed_samples in
      let* '(best_result, voting_details) :=
        _vote lib (voting_strategy cfg) parsed_samples in
      let* consistency_score :=
        _calculate_consistency_score parsed_samples best_result in
      Py.ret {| best_result := best_result;
                consistency_score := consistency_score;
                sample_count := length samples;
                valid_sample_count := length parsed_samples;
                voting_details := voting_details |}
  end.

(** The oracle: the outcome of the [i]-th sampling call. *)
Variable generate_async : nat -> Py.result string.

(** [consistency >= self.early_stop_threshold], as the floats decide it
    for the consistency of the given samples.  The consistency is a mean
    of sums of products, and the rounding of these operations can carry it
    across the threshold: for three samples whose pairwise similarity is
    [0.3 + 0.7 * (12 / 14)] the rational is 0.9, the float
    0.8999999999999999.  Exact rationals cannot decide the test, so its
    outcome is a parameter. *)
Variable reaches_threshold : list SampleResult -> Q -> bool.

(** The serial branch of [_sample_multiple]: [i] is the loop index and
    [remaining] the number of iterations left. *)
Fixpoint sample_serial (i remaining : nat) (samples : list string)
  : Py.result (list string) :=
  match remaining with
  | O => Py.ret samples
  | S remaining' =>
      let* sample := generate_async i in
      let samples := (samples ++ [sample])%list in
      let* stop :=
        if (2 <=? i)%nat then
          let parsed_samples := List.map (fun s => _parse_sample s None) samples in
          let valid_samples := List.filter is_valid parsed_samples in
          match valid_samples with
          | [] => Py.ret false
          | _ :: _ =>
              let* _ := _calculate_preliminary_consistency valid_samples in
              Py.ret (reaches_threshold valid_samples (early_stop_threshold cfg))
          end
        else Py.ret false in
      if stop then Py.ret samples
      else sample_serial (S i) remaining' samples
  end.

Definition _sample_multiple : Py.result (list string) :=
  if parallel cfg then
    Py.ret (omap (fun i => match generate_async i with
                           | inr sample => Some sample
                           | inl _ => None
                           end) (seq 0 (num_samples cfg)))
  else sample_serial 0 (num_samples cfg) [].

Definition generate_with_voting
    (parse_fn : option (string -> Py.result Json.t))
    (validate_fn : option (option Json.t -> Py.result bool))
  : Py.result ConsistencyResult :=
  let* samples := _sample_multiple in
  vote_on_samples samples parse_fn validate_fn.

End Generator.

(** *** Plans in the planner's shape *)

(** [hash(v)] does not raise. *)
Definition hashable (v : Json.t) : bool :=
  match v with
  | Json.JList _ | Json.JDict _ => false
  | _ => true
  end.

(** [for x in v] does not raise. *)
Definition iterable (v : Json.t) : bool :=
  match v with
  | Json.JList _ | Json.JDict _ | Json.JStr _ => true
  | _ => false
  end.

(** The items [for x in v] yields ([[]] when [v] is not iterable). *)
Definition items (v : Json.t) : list Json.t :=
  match Json.iter v with
  | inr l => l
  | inl _ => []
  end.

(** An action whose tool, if it names one, can key a dictionary. *)
Definition action_ok (action : Json.t) : bool :=
  match action with
  | Json.JDict a =>
      match Json.dict_get "tool" a with
      | Some tool => hashable tool
      | None => true
      end
  | _ => true
  end.

(** A subtask that is a dictionary whose [actions], if present, can be
    iterated and hold only such actions. *)
Definition subtask_ok (subtask : Json.t) : bool :=
  match subtask with
  | Json.JDict sd =>
      match Json.dict_get "actions" sd with
      | Some actions => iterable actions && forallb action_ok (items actions)
      | None => true
      end
  | _ => false
  end.

(** A dictionary whose [subtasks] is a list of such subtasks. *)
Definition well_formed_plan (data : Json.t) : bool :=
  match data with
  | Json.JDict d =>
      match Json.dict_get "subtasks" d with
      | Some (Json.JList subtasks) => forallb subtask_ok subtasks
      | _ => false
      end
  | _ => false
  end.

Definition action_names_tool (action : Json.t) : bool :=
  match action with
  | Json.JDict a => Json.dict_has "tool" a
  | _ => false
  end.

Definition subtask_names_tool (subtask : Json.t) : bool :=
  match subtask with
  | Json.JDict sd =>
      match Json.dict_get "actions" sd with
      | Some actions => existsb action_names_tool (items actions)
      | None => false
      end
  | _ => false
  end.

(** Some dict action of some dict subtask has a [tool]. *)
Definition names_a_tool (data : Json.t) : bool :=
  match data with
  | Json.JDict d =>
      match Json.dict_get "subtasks" d with
      | Some subtasks => existsb subtask_names_tool (items subtasks)
      | None => false
      end
  | _ => false
  end.

(** Every entry of a tally counts at least one vote. *)
Definition votes_positive {K : Type} (votes : list (K * Z)) : Prop :=
  Forall (fun kv => (0 < snd kv)%Z) votes.

(** The sample [parse_all] and [score_all] build from the text [c] when it
    decodes to [data]. *)
Definition sample_of (c : string) (data : Json.t) (valid : bool) (q : Q)
  : SampleResult :=
  {| content := c; parsed_data := Some data; is_valid := valid;
     quality_score := q; parse_error := None |}.

(** *** Sample documents *)

(** The plan with no subtask, [{"subtasks": []}]. *)
Definition empty_plan : Json.t := Json.JDict [("subtasks", Json.JList [])].

(** A plan with one subtask that navigates. *)
Definition navigate_plan : Json.t :=
  Json.JDict
    [("subtasks",
      Json.JList
        [Json.JDict
           [("id", Json.JStr "subtask_1");
            ("actions",
             Json.JList
               [Json.JDict [("tool", Json.JStr "navigate");
                            ("type", Json.JStr "gui")]])]])].

(** The texts of the two plans, as an oracle writes them. *)
Definition empty_plan_text : string :=
  "{" +:+ Str.dq +:+ "subtasks" +:+ Str.dq +:+ ": []}".

Definition navigate_plan_text : string :=
  "{" +:+ Str.dq +:+ "subtasks" +:+ Str.dq +:+ ": [{"
    +:+ Str.dq +:+ "id" +:+ Str.dq +:+ ": " +:+ Str.dq +:+ "subtask_1" +:+ Str.dq +:+ ", "
    +:+ Str.dq +:+ "actions" +:+ Str.dq +:+ ": [{"
    +:+ Str.dq +:+ "tool" +:+ Str.dq +:+ ": " +:+ Str.dq +:+ "navigate" +:+ Str.dq +:+ ", "
    +:+ Str.dq +:+ "type" +:+ Str.dq +:+ ": " +:+ Str.dq +:+ "gui" +:+ Str.dq +:+ "}]}]}".

(** An instance of the libraries that knows these two texts: [json.loads]
    decodes them and rejects every other text as [Expecting value]; the
    object pattern finds them when they make up the whole text;
    [json.dumps] writes them back. *)
Definition sample_lib : Lib :=
  {| json_loads := fun text =>
       if String.eqb text empty_plan_text then Py.ret empty_plan
       else if String.eqb text navigate_plan_text then Py.ret navigate_plan
       else Py.raise (Py.JSONDecodeError "Expecting value" 1 1 0);
     json_dumps := fun v =>
       match v with
       | Json.JDict [(_, Json.JList [])] => Py.ret empty_plan_text
       | _ => Py.ret navigate_plan_text
       end;
     re_search_object := fun text =>
       if String.eqb text empty_plan_text || String.eqb text navigate_plan_text
       then Some text else None;
     strip := Str.ascii_strip |}.

End SelfConsistency.


(** ** core/agent_executor.py *)

Module AgentExecutor.

Import Types.

Section Executor.

(** The state of everything outside the executor: the oracle, the tools,
    the page they act on. *)
Variable World : Type.

Record Env : Type := mkEnv {
  (** [get_registry().get_tools_list()] *)
  get_tools_list : World -> list (string * string);
  (** [get_agent_step_prompt(...)] *)
  get_agent_step_prompt :
    string -> Context -> list (string * string) -> list ActionResult ->
    option StepDecision -> string;
  (** [ollama_client.generate_async(prompt)] *)
  generate_async : string -> World -> Py.result string * World;
  (** [json.loads] *)
  json_loads : string -> Py.result Json.t;
  (** [re.search(r'\{.*\}', response, re.DOTALL)] followed by [group(0)] *)
  re_search_object : string -> option string;
  (** [str.strip()] *)
  strip : string -> string;
  (** [worker.execute_action(action, context)] *)
  execute_action : Action -> Context -> World -> Py.result ActionResult * World;
  (** [reflector.reflect(task, action_results, current_state)] *)
  reflect : Task -> list ActionResult -> string -> World
            -> Py.result Reflection * World;
  (** [f"task_{uuid.uuid4().hex[:8]}"] *)
  new_task_id : World -> string * World
}.

Variable env : Env.
Variable max_steps : Z.

Definition default_max_steps : Z := 50.

Record TaskResult : Type := mkTaskResult {
  result_success : bool;
  result_error : option string;
  result_action_results : list ActionResult;
  result_reflection : option Reflection;
  result_step_count : Z;
  result_variables : option (gmap string Json.t)
}.

Definition _extract_json_from_response (response : string) : string :=
  let response := strip env response in
  let fenced (fence : string) : option string :=
    match Str.find fence response 0 with
    | None => None
    | Some at_ =>
        let start := at_ + String.length fence in
        match Str.find "```" response start with
        | Some end_ => Some (strip env (Str.slice response start end_))
        | None => None
        end
    end in
  let block :=
    if Str.contains "```json" response then fenced "```json"
    else if Str.contains "```" response then fenced "```"
    else None in
  match block with
  | Some extracted => extracted
  | None =>
      match re_search_object env response with
      | Some object => object
      | None => response
      end
  end.

(** [d.get(key, default)] on a decoded value: only dictionaries have it. *)
Definition get_default (d : Json.t) (key : string) (default : Json.t)
  : Py.result Json.t :=
  match d with
  | Json.JDict d =>
      Py.ret match Json.dict_get key d with
             | Some v => v
             | None => default
             end
  | _ => Py.raise (Py.AttributeError "object has no attribute 'get'")
  end.

(** [ActionType(value)] inside [try ... except ValueError]. *)
Definition action_type_of (v : Json.t) : ActionType :=
  match v with
  | Json.JStr "gui" => GUI
  | Json.JStr "code" => CODE
  | Json.JStr "mcp" => MCP
  | _ => GUI
  end.

(** The decision returned when anything goes wrong. *)
Definition stop_decision (reasoning : string) : StepDecision :=
  {| decision_action := None;
     should_continue := false;
     should_retry := false;
     should_skip := false;
     reasoning := Json.JStr reasoning;
     decision_confidence := Json.JNum 0;
     next_step_description := Json.JStr "" |}.

(** The [try] block of [_parse_decision_response]. *)
Definition parse_decision_body (response : string) : Py.result StepDecision :=
  let json_str := _extract_json_from_response response in
  let* decision_data := json_loads env json_str in
  let* has_action := SelfConsistency.py_in "action" decision_data in
  let* action_data :=
    if has_action then
      let* action_data := SelfConsistency.getitem "action" decision_data in
      Py.ret (if Json.truthy action_data then Some action_data else None)
    else Py.ret None in
  let* action :=
    match action_data with
    | None => Py.ret None
    | Some action_data =>
        let* action_type_str := get_default action_data "type" (Json.JStr "gui") in
        let action_type := action_type_of action_type_str in
        let* tool := get_default action_data "tool" (Json.JStr "") in
        let* args := get_default action_data "args" (Json.JDict []) in
        let* description := get_default action_data "description" (Json.JStr "") in
        Py.ret (Some {| action_type := action_type; tool := tool; args := args;
                        description := description; dependencies := [];
                        timeout := None |})
    end in
  let* should_continue := get_default decision_data "should_continue" (Json.JBool true) in
  let* should_retry := get_default decision_data "should_retry" (Json.JBool false) in
  let* should_skip := get_default decision_data "should_skip" (Json.JBool false) in
  let* reasoning := get_default decision_data "reasoning" (Json.JStr "") in
  let* confidence := get_default decision_data "confidence" (Json.JNum 0) in
  let* next_step_description :=
    get_default decision_data "next_step_description" (Json.JStr "") in
  Py.ret {| decision_action := action;
            should_continue := Json.truthy should_continue;
            should_retry := Json.truthy should_retry;
            should_skip := Json.truthy should_skip;
            reasoning := reasoning;
            decision_confidence := confidence;
            next_step_description := next_step_description |}.

Definition _parse_decision_response (response : string) : StepDecision :=
  match parse_decision_body response with
  | inr decision => decision
  | inl e => stop_decision ("解析决策响应失败: " +:+ Py.str_of_exn e)
  end.

Definition _decide_next_step (goal : string) (context : Context)
    (available_tools : list (string * string))
    (last_decision : option StepDecision) (w : World) : StepDecision * World :=
  let prompt :=
    get_agent_step_prompt env goal context available_tools
      (action_results context) last_decision in
  match generate_async env prompt w with
  | (inr response, w') => (_parse_decision_response response, w')
  | (inl e, w') => (stop_decision ("决策过程出错: " +:+ Py.str_of_exn e), w')
  end.

(** The oracle never stops and never acts: every decision continues and
    either skips or names no action. *)
Definition never_acts : Prop :=
  forall goal context tools last w,
    let d := fst (_decide_next_step goal context tools last w) in
    should_continue d = true /\ (should_skip d = true \/ decision_action d = None).

Definition _check_task_complete (action_results : list ActionResult) : bool :=
  match action_results with
  | [] => false
  | _ :: _ => all_success action_results
  end.

(** [f"{decision.confidence:.2f}"]: only numbers take the format. *)
Definition format_confidence (v : Json.t) : Py.result unit :=
  match v with
  | Json.JNum _ | Json.JBool _ => Py.ret tt
  | Json.JStr _ =>
      Py.raise (Py.ValueError "Unknown format code 'f' for object of type 'str'")
  | _ => Py.raise (Py.TypeError "unsupported format string")
  end.

(** The local variables of the loop of [execute_task]. *)
Record LoopState : Type := mkLoopState {
  context : Context;
  loop_action_results : list ActionResult;
  step_count : Z;
  last_decision : option StepDecision
}.

Inductive Iteration : Type :=
| Next (s : LoopState)
| Break (s : LoopState)
| Raised (e : Py.Exn) (s : LoopState).

Definition set_results (c : Context) (rs : list ActionResult) : Context :=
  {| task := task c; current_subtask_id := current_subtask_id c;
     action_results := rs; variables := variables c |}.

Definition set_variable (c : Context) (k : string) (v : Json.t) : Context :=
  {| task := task c; current_subtask_id := current_subtask_id c;
     action_results := action_results c; variables := <[ k := v ]> (variables c) |}.

(** One pass through the body of the [while] loop. *)
Definition loop_body (goal : string) (s : LoopState) (w : World)
  : Iteration * World :=
  let step_count := (step_count s + 1)%Z in
  let s := {| context := context s; loop_action_results := loop_action_results s;
              step_count := step_count; last_decision := last_decision s |} in
  let available_tools := get_tools_list env w in
  let '(decision, w) :=
    _decide_next_step goal (context s) available_tools (last_decision s) w in
  if negb (should_continue decision) then (Break s, w)
  else if should_skip decision then (Next s, w)
  else
    let after_action : Py.result LoopState * World :=
      match decision_action decision with
      | None => (Py.ret s, w)
      | Some action =>
          match format_confidence (decision_confidence decision) with
          | inl e => (Py.raise e, w)
          | inr _ =>
              match execute_action env action (context s) w with
              | (inl e, w') => (Py.raise e, w')
              | (inr result, w') =>
                  let action_results := (loop_action_results s ++ [result])%list in
                  let context := set_results (context s) action_results in
                  let context :=
                    match has_payload result, data result with
                    | true, Some d =>
                        set_variable context
                          ("step_" +:+ pretty step_count +:+ "_result") d
                    | _, _ => context
                    end in
                  (Py.ret {| context := context;
                             loop_action_results := action_results;
                             step_count := step_count;
                             last_decision := last_decision s |}, w')
              end
          end
      end in
    match after_action with
    | (inl e, w) => (Raised e s, w)
    | (inr s, w) =>
        let s := {| context := context s;
                    loop_action_results := loop_action_results s;
                    step_count := step_count;
                    last_decision := Some decision |} in
        if _check_task_complete (loop_action_results s) then (Break s, w)
        else (Next s, w)
    end.

(** How the [while] loop was left. *)
Inductive LoopExit : Type :=
| Exited (s : LoopState)
| Failed (e : Py.Exn) (s : LoopState).

(** [while step_count < self.max_steps: ...], run for at most [fuel]
    passes; [None] when the passes allowed do not suffice. *)
Fixpoint run_loop (fuel : nat) (goal : string) (s : LoopState) (w : World)
  : option (LoopExit * World) :=
  if negb (step_count s <? max_steps)%Z then Some (Exited s, w)
  else
    match fuel with
    | O => None
    | S fuel' =>
        match loop_body goal s w with
        | (Next s', w') => run_loop fuel' goal s' w'
        | (Break s', w') => Some (Exited s', w')
        | (Raised e s', w') => Some (Failed e s', w')
        end
    end.

Definition set_status (t : Task) (st : TaskStatus) : Task :=
  {| task_id := task_id t; goal := goal t; subtasks := subtasks t; status := st |}.

Definition failure (e : Py.Exn) (s : LoopState) : TaskResult :=
  {| result_success := false;
     result_error := Some (Py.str_of_exn e);
     result_action_results := loop_action_results s;
     result_reflection := None;
     result_step_count := step_count s;
     result_variables := None |}.

Definition execute_task (fuel : nat) (goal : string)
    (initial_context : option Context) (w : World)
  : option (TaskResult * Task * World) :=
  let '(id, w) := new_task_id env w in
  let task := {| task_id := id; goal := goal; subtasks := []; status := RUNNING |} in
  let context0 :=
    match initial_context with
    | None => {| task := task; current_subtask_id := None;
                 action_results := []; variables := ∅ |}
    | Some c => {| task := task; current_subtask_id := current_subtask_id c;
                   action_results := action_results c; variables := variables c |}
    end in
  let s := {| context := context0; loop_action_results := [];
              step_count := 0; last_decision := None |} in
  match run_loop fuel goal s w with
  | None => None
  | Some (Failed e s, w) => Some (failure e s, set_status task FAILED, w)
  | Some (Exited s, w) =>
      match reflect env task (loop_action_results s) "任务执行完成" w with
      | (inl e, w) => Some (failure e s, set_status task FAILED, w)
      | (inr reflection, w) =>
          let all_success := all_success (loop_action_results s) in
          Some ({| result_success := all_success;
                   result_error := None;
                   result_action_results := loop_action_results s;
                   result_reflection := Some reflection;
                   result_step_count := step_count s;
                   result_variables := Some (variables (context s)) |},
                set_status task (if all_success then COMPLETED else FAILED),
                w)
      end
  end.

End Executor.

Arguments mkEnv {World}.
Arguments get_tools_list {World}.
Arguments get_agent_step_prompt {World}.
Arguments generate_async {World}.
Arguments json_loads {World}.
Arguments re_search_object {World}.
Arguments strip {World}.
Arguments execute_action {World}.
Arguments reflect {World}.
Arguments new_task_id {World}.
Arguments _extract_json_from_response {World}.
Arguments parse_decision_body {World}.
Arguments _parse_decision_response {World}.
Arguments _decide_next_step {World}.
Arguments never_acts {World}.
Arguments loop_body {World}.
Arguments run_loop {World}.
Arguments execute_task {World}.

End AgentExecutor.

(** ** core/workflow_executor.py *)

Module WorkflowExecutor.

Import Types.

Section Executor.

Variable World : Type.

Record Env : Type := mkEnv {
  (** [bool(eval(condition, ...))] on the bindings of the context; a
      condition is evaluated for its value only *)
  py_eval : string -> Context -> Py.result bool;
  (** [exec(handler, ...)]: the handler may rebind entries of
      [context.variables] before it returns or raises *)
  py_exec : string -> Context -> Py.result unit * gmap string Json.t;
  (** [worker.execute_with_retry(action, max_retries, context)] *)
  execute_with_retry : Action -> Z -> Context -> World
                       -> Py.result ActionResult * World;
  (** [f"task_{uuid.uuid4().hex[:8]}"] *)
  new_task_id : World -> string * World
}.

Variable env : Env.

Record WorkflowResult : Type := mkWorkflowResult {
  result_success : bool;
  result_error : option string;
  result_action_results : list ActionResult;
  result_executed_steps : list string;
  result_variables : option (gmap string Json.t)
}.

Definition _evaluate_condition (condition : option string) (context : Context)
  : bool :=
  match condition with
  | None => true
  | Some condition =>
      if String.eqb condition "" then true
      else
        match py_eval env condition context with
        | inr b => b
        | inl _ => false
        end
  end.

Definition _execute_step (step : WorkflowStep) (context : Context) (w : World)
  : Py.result ActionResult * World :=
  let max_retries := if (0 <? retry_count step)%Z then retry_count step else 1%Z in
  execute_with_retry env (step_action step) max_retries context w.

(** [step.on_error or workflow.on_error] *)
Definition error_strategy (workflow : WorkflowDefinition) (step : WorkflowStep)
  : option string :=
  match step_on_error step with
  | Some s => if String.eqb s "" then on_error workflow else Some s
  | None => on_error workflow
  end.

Definition is_strategy (name : string) (strategy : option string) : bool :=
  match strategy with
  | Some s => String.eqb s name
  | None => false
  end.

(** The local variables of the loop of [execute_workflow]. *)
Record RunState : Type := mkRunState {
  context : Context;
  run_action_results : list ActionResult;
  executed_steps : list string
}.

Definition set_results (c : Context) (rs : list ActionResult) : Context :=
  {| task := task c; current_subtask_id := current_subtask_id c;
     action_results := rs; variables := variables c |}.

Definition set_variable (c : Context) (k : string) (v : Json.t) : Context :=
  {| task := task c; current_subtask_id := current_subtask_id c;
     action_results := action_results c; variables := <[ k := v ]> (variables c) |}.

(** The statements of the inner [try] after the step has returned
    [result]. *)
Definition record_result (step : WorkflowStep) (result : ActionResult)
    (s : RunState) : RunState :=
  let action_results := (run_action_results s ++ [result])%list in
  let context := set_results (context s) action_results in
  let context :=
    match has_payload result, data result with
    | true, Some d =>
        set_variable context ("step_" +:+ step_id step +:+ "_result") d
    | _, _ => context
    end in
  {| context := context;
     run_action_results := action_results;
     executed_steps := (executed_steps s ++ [step_id step])%list |}.

(** [for step in workflow.steps: ...].  The first component is the
    exception that leaves the loop for the outer handler, if any. *)
Fixpoint run_steps (workflow : WorkflowDefinition) (steps : list WorkflowStep)
    (s : RunState) (w : World) : option Py.Exn * RunState * World :=
  match steps with
  | [] => (None, s, w)
  | step :: rest =>
      if negb (_evaluate_condition (condition step) (context s))
      then run_steps workflow rest s w
      else
        match _execute_step step (context s) w with
        | (inr result, w') =>
            let s' := record_result step result s in
            if negb (success result) then
              let strategy := error_strategy workflow step in
              if is_strategy "abort" strategy then (None, s', w')
              else if is_strategy "skip" strategy then run_steps workflow rest s' w'
              else run_steps workflow rest s' w'
            else run_steps workflow rest s' w'
        | (inl e, w') =>
            let strategy := error_strategy workflow step in
            if is_strategy "abort" strategy then (Some e, s, w')
            else run_steps workflow rest s w'
        end
  end.

Definition set_status (t : Task) (st : TaskStatus) : Task :=
  {| task_id := task_id t; goal := goal t; subtasks := subtasks t; status := st |}.

Definition execute_workflow (workflow : WorkflowDefinition) (goal : string)
    (initial_context : option Context) (w : World)
  : WorkflowResult * Task * World :=
  let '(id, w) := new_task_id env w in
  let task := {| task_id := id; goal := goal; subtasks := []; status := RUNNING |} in
  let context0 :=
    match initial_context with
    | None => {| task := task; current_subtask_id := None;
                 action_results := [];
                 variables := workflow_variables workflow |}
    | Some c =>
        {| task := Types.task c; current_subtask_id := current_subtask_id c;
           action_results := action_results c;
           variables := workflow_variables workflow ∪ variables c |}
    end in
  let s := {| context := context0; run_action_results := []; executed_steps := [] |} in
  match run_steps workflow (steps workflow) s w with
  | (Some e, s, w) =>
      ({| result_success := false;
          result_error := Some (Py.str_of_exn e);
          result_action_results := run_action_results s;
          result_executed_steps := executed_steps s;
          result_variables := None |},
       set_status task FAILED, w)
  | (None, s, w) =>
      let variables :=
        match on_complete workflow with
        | Some handler =>
            if String.eqb handler "" then variables (context s)
            else snd (py_exec env handler (context s))
        | None => variables (context s)
        end in
      let all_success := all_success (run_action_results s) in
      ({| result_success := all_success;
          result_error := None;
          result_action_results := run_action_results s;
          result_executed_steps := executed_steps s;
          result_variables := Some variables |},
       set_status task (if all_success then COMPLETED else FAILED), w)
  end.

End Executor.

Arguments mkEnv {World}.
Arguments py_eval {World}.
Arguments py_exec {World}.
Arguments execute_with_retry {World}.
Arguments new_task_id {World}.
Arguments _evaluate_condition {World}.
Arguments _execute_step {World}.
Arguments run_steps {World}.
Arguments execute_workflow {World}.

(** *** A sample run *)

(** A world that counts the calls to the worker, a worker whose every
    action fails, and conditions that always hold. *)
Definition failing_env : Env nat :=
  {| py_eval := fun _ _ => Py.ret true;
     py_exec := fun _ c => (Py.ret tt, variables c);
     execute_with_retry := fun _ _ _ w =>
       (Py.ret {| action_id := "gui_click"; success := false; data := None;
                  error := Some "boom"; message := "boom" |}, S w);
     new_task_id := fun w => ("task_00000000", w) |}.

Definition click : Action :=
  {| action_type := GUI; tool := Json.JStr "click"; args := Json.JDict [];
     description := Json.JStr ""; dependencies := []; timeout := None |}.

Definition step_with (id : string) (policy : option string) : WorkflowStep :=
  {| step_id := id; step_name := id; step_description := "";
     step_action := click; condition := None; step_on_error := policy;
     retry_count := 0; step_timeout := None |}.

(** Two steps, the first with the given policy. *)
Definition two_steps (policy : option string) : WorkflowDefinition :=
  {| workflow_id := "workflow_1"; workflow_name := "two steps";
     workflow_description := ""; version := "1.0";
     steps := [step_with "a" policy; step_with "b" None];
     workflow_variables := ∅; on_complete := None; on_error := None |}.

Definition start_state : RunState :=
  {| context := {| task := {| task_id := "task_00000000"; goal := "go";
                              subtasks := []; status := RUNNING |};
                   current_subtask_id := None; action_results := [];
                   variables := ∅ |};
     run_action_results := []; executed_steps := [] |}.

Definition boom : ActionResult :=
  {| action_id := "gui_click"; success := false; data := None;
     error := Some "boom"; message := "boom" |}.

End WorkflowExecutor.

(** ** core/error_handler.py: classification and retry decisions *)

Module Classifier.

Import ErrorHandler.

(** [type(e).__name__] for the exception classes of [Py.Exn];
    [OtherException msg] is read as [Exception(msg)]. *)
Definition type_name (e : Py.Exn) : string :=
  match e with
  | Py.JSONDecodeError _ _ _ _ => "JSONDecodeError"
  | Py.ValueError _ => "ValueError"
  | Py.TypeError _ => "TypeError"
  | Py.AttributeError _ => "AttributeError"
  | Py.KeyError _ => "KeyError"
  | Py.RuntimeError _ => "RuntimeError"
  | Py.OverflowError _ => "OverflowError"
  | Py.OtherException _ => "Exception"
  end.

(** The class attribute [ERROR_KEYWORDS], in the order of the literal. *)
Definition ERROR_KEYWORDS : list (ErrorType * list string) :=
  [ (TIMEOUT, ["timeout"; "超时"; "timed out"; "time out"]);
    (ELEMENT_NOT_FOUND,
      ["not found"; "未找到"; "找不到"; "element not found";
       "selector not found"; "no such element"]);
    (PERMISSION_DENIED,
      ["permission"; "权限"; "denied"; "forbidden"; "access denied"]);
    (NETWORK_ERROR,
      ["network"; "网络"; "connection"; "连接"; "failed to connect";
       "connection refused"; "connection timeout"]);
    (JSON_PARSE_ERROR,
      ["json"; "parse"; "解析"; "decode"; "invalid json"; "json decode error"]);
    (TOOL_EXECUTION_ERROR,
      ["tool"; "工具"; "execution"; "执行"; "failed to execute"]);
    (VALIDATION_ERROR,
      ["validation"; "验证"; "invalid"; "无效"; "validate"]) ].

(** [any(keyword in error_msg_lower for keyword in keywords)] *)
Definition any_keyword (keywords : list string) (error_msg_lower : string) : bool :=
  existsb (fun keyword => Str.contains keyword error_msg_lower) keywords.

(** The loop over [self.ERROR_KEYWORDS.items()]: the first row one of whose
    keywords occurs in the message. *)
Fixpoint match_keywords (table : list (ErrorType * list string))
    (error_msg_lower : string) : option ErrorType :=
  match table with
  | [] => None
  | (error_type, keywords) :: rest =>
      if any_keyword keywords error_msg_lower then Some error_type
      else match_keywords rest error_msg_lower
  end.

Section Classify.

(** [str.lower] *)
Variable lower : string -> string.

(** [classify_error(error, error_message)].  Of the exception the function
    reads its class name and its text, which are the first two
    arguments. *)
Definition classify_error (error_type_name error_str : string)
    (error_message : option string) : ErrorType :=
  let error_msg :=
    match error_message with
    | Some m => if String.eqb m "" then error_str else m
    | None => error_str
    end in
  let error_msg_lower := lower error_msg in
  if Str.contains "Timeout" error_type_name || Str.contains "timeout" error_type_name
  then TIMEOUT
  else if Str.contains "JSON" error_type_name || Str.contains "json" error_type_name
  then JSON_PARSE_ERROR
  else if Str.contains "Permission" error_type_name
          || Str.contains "Forbidden" error_type_name
  then PERMISSION_DENIED
  else if Str.contains "Network" error_type_name
          || Str.contains "Connection" error_type_name
  then NETWORK_ERROR
  else
    match match_keywords ERROR_KEYWORDS error_msg_lower with
    | Some error_type => error_type
    | None => UNKNOWN_ERROR
    end.

(** [create_error_context(error, error_type=None, ...)]: the error is
    classified when the caller gives no type. *)
Definition create_error_context
    (error_history : list ErrorContext) (error : Py.Exn)
    (error_type : option ErrorType) (action_id tool_name : option string)
    (retry_count : Z) : ErrorContext * list ErrorContext :=
  let error_type :=
    match error_type with
    | Some t => t
    | None => classify_error (type_name error) (Py.str_of_exn error) None
    end in
  ErrorHandler.create_error_context error_history error error_type
    action_id tool_name retry_count.

End Classify.

(** [should_retry(error_context, max_retries)] *)
Definition should_retry (error_context : ErrorContext) (max_retries : Z) : bool :=
  if (retry_count error_context >=? max_retries)%Z then false
  else ErrorHandler.should_retry (get_recovery_strategy error_context max_retries 1).

(** A class name that carries none of the markers the classifier looks
    for. *)
Definition unmarked (error_type_name : string) : bool :=
  negb (Str.contains "Timeout" error_type_name || Str.contains "timeout" error_type_name
        || Str.contains "JSON" error_type_name || Str.contains "json" error_type_name
        || Str.contains "Permission" error_type_name
        || Str.contains "Forbidden" error_type_name
        || Str.contains "Network" error_type_name
        || Str.contains "Connection" error_type_name).

End Classifier.

(** ** mcp/client.py: sample servers *)

Module MCPServers.

Import MCPClient.

(** A server whose handshake is refused: the child process starts and the
    session opens, then [initialize] raises. *)
Definition refusing_sdk : SDK CountingWorld nat nat :=
  {| shlex_split := shlex_split counting_sdk;
     stdio_client := stdio_client counting_sdk;
     client_session := client_session counting_sdk;
     initialize := fun _ w => (Py.raise (Py.RuntimeError "handshake refused"), w);
     sdk_list_tools := sdk_list_tools counting_sdk;
     sdk_call_tool := sdk_call_tool counting_sdk;
     aclose := aclose counting_sdk |}.

(** A server that answers every call with one line of text. *)
Definition echo_sdk : SDK CountingWorld nat nat :=
  {| shlex_split := shlex_split counting_sdk;
     stdio_client := stdio_client counting_sdk;
     client_session := client_session counting_sdk;
     initialize := initialize counting_sdk;
     sdk_list_tools := fun _ w =>
       (Py.ret [ {| tool_name := "read_file"; tool_description := None;
                    inputSchema := Json.JDict [] |} ], w);
     sdk_call_tool := fun _ name _ w =>
       (Py.ret {| content := [TextContent name];
                  structuredContent := None; isError := false |}, w);
     aclose := aclose counting_sdk |}.

(** A server whose tool says no: every call is answered with an error
    response that holds a screenshot followed by two lines of text. *)
Definition erring_sdk : SDK CountingWorld nat nat :=
  {| shlex_split := shlex_split counting_sdk;
     stdio_client := stdio_client counting_sdk;
     client_session := client_session counting_sdk;
     initialize := initialize counting_sdk;
     sdk_list_tools := sdk_list_tools counting_sdk;
     sdk_call_tool := fun _ _ _ w =>
       (Py.ret {| content := [ImageContent "iVBORw0KGgo=" "image/png";
                              TextContent "element not found";
                              TextContent "retry later"];
                  structuredContent := None; isError := true |}, w);
     aclose := aclose counting_sdk |}.

End MCPServers.

(** ** tools/mcp_tool.py *)

Module MCPTool.

Import MCPClient.

Section Tool.

Context {World Stream Session : Type}.
Variable sdk : SDK World Stream Session.

(** [str(v)], as the f-strings apply it to a decoded value. *)
Variable py_str : Json.t -> string.

(** [self.tool_name], the name the server knows the tool by. *)
Variable tool_name : string.

Definition succeeded (data : Json.t) : Json.Dict :=
  [ ("success", Json.JBool true);
    ("data", data);
    ("message", Json.JStr ("MCP工具 " +:+ tool_name +:+ " 执行成功")) ].

(** [result.get(key, default)] *)
Definition get_or (key : string) (default : Json.t) (d : Json.Dict) : Json.t :=
  match Json.dict_get key d with
  | Some v => v
  | None => default
  end.

(** [content[0]] when [content and len(content) > 0] holds and the item
    is a dictionary; [None] when the test fails or the item is of another
    kind. *)
Definition first_dict (content : Json.t) : Py.result (option Json.Dict) :=
  match content with
  | Json.JList (Json.JDict first_content :: _) => Py.ret (Some first_content)
  | Json.JList _ => Py.ret None
  | Json.JStr _ => Py.ret None
  | Json.JDict [] => Py.ret None
  | Json.JDict (_ :: _) => Py.raise (Py.KeyError "0")
  | Json.JNull => Py.ret None
  | Json.JBool false => Py.ret None
  | Json.JBool true => Py.raise (Py.TypeError "object of type 'bool' has no len()")
  | Json.JNum q =>
      if Qeq_bool q 0 then Py.ret None
      else Py.raise (Py.TypeError "object of type number has no len()")
  end.

(** The statements of [execute] after [call_tool] has returned the
    dictionary [result]. *)
Definition read_result (result : Json.Dict) : Py.result Json.Dict :=
  if Json.truthy (get_or "isError" (Json.JBool false) result) then
    let error_msg := get_or "error" (Json.JStr "Unknown error") result in
    Py.ret [ ("success", Json.JBool false);
             ("error", error_msg);
             ("message",
               Json.JStr ("MCP工具 " +:+ tool_name +:+ " 执行失败: "
                            +:+ py_str error_msg)) ]
  else
    match Json.dict_get "text" result with
    | Some text => Py.ret (succeeded text)
    | None =>
        let content := get_or "content" (Json.JList []) result in
        let* first := first_dict content in
        let text :=
          match first with
          | Some first_content =>
              let text := get_or "text" (Json.JStr "") first_content in
              if Json.truthy text then Some text else None
          | None => None
          end in
        match text with
        | Some text => Py.ret (succeeded text)
        | None =>
            match Json.dict_get "structuredContent" result with
            | Some sc => Py.ret (succeeded sc)
            | None => Py.ret (succeeded (Json.JDict result))
            end
        end
    end.

Definition failed (e : Py.Exn) : Json.Dict :=
  [ ("success", Json.JBool false);
    ("error", Json.JStr (Py.str_of_exn e));
    ("message",
      Json.JStr ("MCP工具 " +:+ tool_name +:+ " 执行失败: " +:+ Py.str_of_exn e)) ].

(** [execute(args)] on the client [c]. *)
Definition execute (c : Client Stream Session) (args : Json.Dict) (w : World)
  : Json.Dict * World :=
  match call_tool sdk c tool_name (Some args) w with
  | (inl e, w') => (failed e, w')
  | (inr result, w') =>
      match read_result result with
      | inr d => (d, w')
      | inl e => (failed e, w')
      end
  end.

End Tool.

End MCPTool.

(** ** core/worker.py *)

Module Worker.

Import Types.

(** The class attribute [TOOL_NAME_MAPPING]. *)
Definition TOOL_NAME_MAPPING : list (string * string) :=
  [ ("浏览器", "navigate"); ("导航", "navigate"); ("打开", "navigate");
    ("点击", "click"); ("输入", "input"); ("滚动", "scroll");
    ("截图", "screenshot"); ("等待", "wait") ].

(** [TOOL_NAME_MAPPING.get(tool_name)]: lists and dictionaries cannot be
    hashed, the other values that are no strings are no keys. *)
Definition mapping_get (tool_name : Json.t) : Py.result (option string) :=
  match tool_name with
  | Json.JStr s => Py.ret (Json.dict_get s TOOL_NAME_MAPPING)
  | Json.JList _ => Py.raise (Py.TypeError "unhashable type: 'list'")
  | Json.JDict _ => Py.raise (Py.TypeError "unhashable type: 'dict'")
  | _ => Py.ret None
  end.

(** The constructor arguments [max_retries], [retry_delay] and
    [use_exponential_backoff]. *)
Record Config : Type := mkConfig {
  max_retries : Z;
  retry_delay : Q;
  use_exponential_backoff : bool
}.

Definition default_config : Config :=
  {| max_retries := 3; retry_delay := 1; use_exponential_backoff := true |}.

Section Worker.

(** The state of everything outside the worker: the tools and what they
    act on, the page, the clock. *)
Variable World : Type.

Record Env : Type := mkEnv {
  (** [tool_registry.has(name)] *)
  registry_has : Json.t -> World -> Py.result bool;
  (** [tool_registry.execute(name, args)] *)
  registry_execute : Json.t -> Json.t -> World
                     -> Py.result ToolRegistry.ToolResult * World;
  (** [self.element_finder], absent when the worker was built without an
      oracle client; the call stands for [GUITools()._get_page()] followed
      by [find_element(page, action_description, element_type)] *)
  element_finder :
    option (Json.t -> string -> World -> Py.result (option string) * World);
  (** [int(time.time())] *)
  time : World -> Z * World;
  (** [asyncio.sleep(delay)] *)
  sleep : Q -> World -> World;
  (** [str(v)], as the f-strings apply it to a decoded value *)
  py_str : Json.t -> string;
  (** [f"{action.type}"] *)
  format_type : ActionType -> string;
  (** [str.lower] *)
  lower : string -> string
}.

Variable env : Env.
Variable config : Config.

Definition _normalize_tool_name (tool_name : Json.t) (w : World)
  : Py.result Json.t :=
  let* present := registry_has env tool_name w in
  if present then Py.ret tool_name
  else
    let* normalized := mapping_get tool_name in
    match normalized with
    | Some normalized =>
        if String.eqb normalized "" then Py.ret tool_name
        else
          let* mapped := registry_has env (Json.JStr normalized) w in
          if mapped then Py.ret (Json.JStr normalized) else Py.ret tool_name
    | None => Py.ret tool_name
    end.

Definition set_tool (a : Action) (tool : Json.t) : Action :=
  {| action_type := action_type a; tool := tool; args := args a;
     description := description a; dependencies := dependencies a;
     timeout := timeout a |}.

Definition set_args (a : Action) (args : Json.t) : Action :=
  {| action_type := action_type a; tool := tool a; args := args;
     description := description a; dependencies := dependencies a;
     timeout := timeout a |}.

(** [action.tool in ['click', 'input']] *)
Definition needs_target (tool : Json.t) : bool :=
  match tool with
  | Json.JStr s => String.eqb s "click" || String.eqb s "input"
  | _ => false
  end.

(** [action.args.get('target')], read for its truth value. *)
Definition has_target (args : Json.t) : Py.result bool :=
  match args with
  | Json.JDict d =>
      Py.ret match Json.dict_get "target" d with
             | Some v => Json.truthy v
             | None => false
             end
  | _ => Py.raise (Py.AttributeError "object has no attribute 'get'")
  end.

(** [action.args['target'] = selector]; the arguments are a dictionary
    where this statement is reached. *)
Definition set_target (args : Json.t) (selector : string) : Json.t :=
  match args with
  | Json.JDict d => Json.JDict (Json.dict_set "target" (Json.JStr selector) d)
  | _ => args
  end.

Definition target_not_found (action : Action) : ToolRegistry.ToolResult :=
  {| ToolRegistry.success := false;
     ToolRegistry.data := None;
     ToolRegistry.error := Some "Could not find target element";
     ToolRegistry.message :=
       "无法找到目标元素: " +:+ py_str env (description action);
     ToolRegistry.available_tools := None |}.

(** [_execute_gui_action].  The action object is updated in place, so the
    action as it is afterwards is returned with the outcome. *)
Definition _execute_gui_action (action : Action) (w : World)
  : Py.result ToolRegistry.ToolResult * Action * World :=
  match _normalize_tool_name (tool action) w with
  | inl e => (inl e, action, w)
  | inr normalized_tool =>
      (* [if normalized_tool != action.tool: action.tool = normalized_tool] *)
      let action := set_tool action normalized_tool in
      let run (action : Action) (w : World) :=
        let '(r, w) := registry_execute env (tool action) (args action) w in
        (r, action, w) in
      if needs_target (tool action) then
        match has_target (args action) with
        | inl e => (inl e, action, w)
        | inr true => run action w
        | inr false =>
            match element_finder env with
            | Some find_element =>
                let element_type :=
                  match tool action with
                  | Json.JStr s => if String.eqb s "input" then "input" else "button"
                  | _ => "button"
                  end in
                match find_element (description action) element_type w with
                | (inr (Some selector), w) =>
                    if String.eqb selector "" then
                      (Py.ret (target_not_found action), action, w)
                    else run (set_args action (set_target (args action) selector)) w
                | (inr None, w) => (Py.ret (target_not_found action), action, w)
                | (inl _, w) => run action w
                end
            | None => run action w
            end
        end
      else run action w
  end.

Definition _execute_code_action : ToolRegistry.ToolResult :=
  {| ToolRegistry.success := false;
     ToolRegistry.data := None;
     ToolRegistry.error := Some "Code execution not implemented yet";
     ToolRegistry.message := "代码执行功能尚未实现";
     ToolRegistry.available_tools := None |}.

Definition _execute_mcp_action (action : Action) (w : World)
  : Py.result ToolRegistry.ToolResult * World :=
  registry_execute env (tool action) (args action) w.

(** [execute_action].  The clock is read once before and once after the
    work; the second reading only enters the execution time, which the
    result record does not keep.  The context argument is handed from
    function to function and never read, so it is left out. *)
Definition execute_action (action : Action) (w : World)
  : ActionResult * Action * World :=
  let '(start_time, w) := time env w in
  let action_id :=
    format_type env (action_type action) +:+ "_" +:+ py_str env (tool action)
      +:+ "_" +:+ pretty start_time in
  let '(outcome, action, w) :=
    match action_type action with
    | GUI => _execute_gui_action action w
    | CODE => (Py.ret _execute_code_action, action, w)
    | MCP => let '(r, w) := _execute_mcp_action action w in (r, action, w)
    end in
  let '(_, w) := time env w in
  match outcome with
  | inr result =>
      ({| action_id := action_id;
          success := ToolRegistry.success result;
          data := ToolRegistry.data result;
          error := ToolRegistry.error result;
          message := ToolRegistry.message result |}, action, w)
  | inl e =>
      ({| action_id := action_id;
          success := false;
          data := None;
          error := Some (Py.str_of_exn e);
          message := "动作执行异常: " +:+ Py.str_of_exn e |}, action, w)
  end.

(** [f"{action.type}_{action.tool}"] *)
Definition short_id (action : Action) : string :=
  format_type env (action_type action) +:+ "_" +:+ py_str env (tool action).

Definition unmet_dependencies (action : Action) : ActionResult :=
  {| action_id := short_id action;
     success := false;
     data := None;
     error := Some "Unmet dependencies";
     message := "依赖的动作未成功执行" |}.

(** [all(dep in dependency_ids for dep in action.dependencies)] with
    [dependency_ids = [r.action_id for r in results if r.success]] *)
Definition dependencies_met (action : Action) (results : list ActionResult) : bool :=
  let dependency_ids := List.map action_id (List.filter success results) in
  forallb (fun dep => existsb (String.eqb dep) dependency_ids) (dependencies action).

(** [execute_actions]: the loop, with the results so far.  The actions are
    returned as the loop leaves them. *)
Fixpoint execute_actions_from (actions : list Action) (results : list ActionResult)
    (w : World) : list ActionResult * list Action * World :=
  match actions with
  | [] => (results, [], w)
  | action :: rest =>
      let blocked :=
        match dependencies action with
        | [] => false
        | _ :: _ => negb (dependencies_met action results)
        end in
      if blocked then
        let '(results, rest, w) :=
          execute_actions_from rest (results ++ [unmet_dependencies action])%list w in
        (results, action :: rest, w)
      else
        let '(result, action, w) := execute_action action w in
        let '(results, rest, w) :=
          execute_actions_from rest (results ++ [result])%list w in
        (results, action :: rest, w)
  end.

Definition execute_actions (actions : list Action) (w : World)
  : list ActionResult * list Action * World :=
  execute_actions_from actions [] w.

(** The local variables of [execute_with_retry] together with the parts
    of the worker the loop updates: the action object and the history of
    the error handler. *)
Record RetryState : Type := mkRetryState {
  action : Action;
  last_result : option ActionResult;
  last_error : option Py.Exn;
  error_history : list ErrorHandler.ErrorContext
}.

(** How the [for] loop is left: by [return result], by running out of
    attempts or by [break], or by an exception that no handler of the
    method catches. *)
Inductive LoopExit : Type :=
| Returned (result : ActionResult) (s : RetryState)
| Fell (s : RetryState)
| Raised (e : Py.Exn) (s : RetryState).

(** [result.error or result.message or "Unknown error"] *)
Definition error_msg_of (result : ActionResult) : string :=
  match error result with
  | Some e => if String.eqb e "" then
                if String.eqb (message result) "" then "Unknown error"
                else message result
              else e
  | None => if String.eqb (message result) "" then "Unknown error"
            else message result
  end.

(** The [try] block of one pass.  [execute_action] catches every
    exception itself, so the [except] clause of the loop is never
    entered. *)
Definition attempt_once (s : RetryState) (w : World) : LoopExit * World :=
  let '(result, action, w) := execute_action (action s) w in
  if success result then
    (Returned result {| action := action; last_result := Some result;
                        last_error := None;
                        error_history := error_history s |}, w)
  else
    (Fell {| action := action; last_result := Some result;
             last_error := Some (Py.OtherException (error_msg_of result));
             error_history := error_history s |}, w).

(** [for attempt in range(max_retries): ...] over the attempts that are
    left.  The statements before the [try] block are not guarded: an
    exception of [get_retry_delay] leaves the method. *)
Fixpoint retry_loop (attempts : list Z) (max_retries : Z) (retry_delay : Q)
    (s : RetryState) (w : World) : LoopExit * World :=
  match attempts with
  | [] => (Fell s, w)
  | attempt :: rest =>
      let continue_ (s : RetryState) (w : World) :=
        match attempt_once s w with
        | (Returned result s, w) => (Returned result s, w)
        | (Fell s, w) => retry_loop rest max_retries retry_delay s w
        | (Raised e s, w) => (Raised e s, w)
        end in
      if (attempt >? 0)%Z then
        match last_error s with
        | Some e =>
            let '(error_context, history) :=
              Classifier.create_error_context (lower env) (error_history s) e None
                (Some (short_id (action s)))
                (Some (py_str env (tool (action s))))
                (attempt - 1) in
            let s := {| action := action s; last_result := last_result s;
                        last_error := last_error s; error_history := history |} in
            let recovery_action :=
              ErrorHandler.get_recovery_strategy error_context max_retries retry_delay in
            if negb (ErrorHandler.should_retry recovery_action) then (Fell s, w)
            else
              match ErrorHandler.get_retry_delay error_context retry_delay
                      (use_exponential_backoff config) with
              | inl e => (Raised e s, w)
              | inr actual_delay => continue_ s (sleep env actual_delay w)
              end
        | None => continue_ s (sleep env retry_delay w)
        end
      else continue_ s w
  end.

(** [range(n)] *)
Definition range (n : Z) : list Z :=
  List.map Z.of_nat (List.seq 0 (Z.to_nat n)).

Definition max_retries_exceeded (action : Action) : ActionResult :=
  {| action_id := short_id action;
     success := false;
     data := None;
     error := Some "Max retries exceeded";
     message := "达到最大重试次数" |}.

(** [execute_with_retry(action, max_retries, retry_delay)], from the
    history [history] of the worker's error handler. *)
Definition execute_with_retry (action : Action) (max_retries : option Z)
    (retry_delay : option Q) (history : list ErrorHandler.ErrorContext) (w : World)
  : Py.result ActionResult * RetryState * World :=
  let max_retries :=
    match max_retries with
    | Some n => if (n =? 0)%Z then Worker.max_retries config else n
    | None => Worker.max_retries config
    end in
  let retry_delay :=
    match retry_delay with
    | Some d => if Qeq_bool d 0 then Worker.retry_delay config else d
    | None => Worker.retry_delay config
    end in
  let s := {| action := action; last_result := None; last_error := None;
              error_history := history |} in
  match retry_loop (range max_retries) max_retries retry_delay s w with
  | (Returned result s, w) => (Py.ret result, s, w)
  | (Fell s, w) =>
      match last_result s with
      | Some result => (Py.ret result, s, w)
      | None => (Py.ret (max_retries_exceeded (Worker.action s)), s, w)
      end
  | (Raised e s, w) => (Py.raise e, s, w)
  end.

(** The delay before the attempt that follows [j] failed ones. *)
Definition delay_after (d : Q) (j : nat) : Q :=
  if use_exponential_backoff config then Py.min (d * 2 ^ Z.of_nat j) 60 else d.

(** The state after a failed attempt at an action of the class [flaky],
    when the handler classes the error as retryable. *)
Definition failed_retryably (flaky : Action -> Prop) (s : RetryState) : Prop :=
  flaky (action s) /\
  exists msg : string,
    last_error s = Some (Py.OtherException msg) /\
    ErrorHandler.ERROR_RECOVERY_MAP
      (Classifier.classify_error (lower env) "Exception" msg None)
      = ErrorHandler.RETRY.

End Worker.

Arguments mkEnv {World}.
Arguments failed_retryably {World}.
Arguments registry_has {World}.
Arguments registry_execute {World}.
Arguments element_finder {World}.
Arguments time {World}.
Arguments sleep {World}.
Arguments py_str {World}.
Arguments format_type {World}.
Arguments lower {World}.
Arguments _normalize_tool_name {World}.
Arguments _execute_gui_action {World}.
Arguments _execute_mcp_action {World}.
Arguments execute_action {World}.
Arguments short_id {World}.
Arguments unmet_dependencies {World}.
Arguments execute_actions_from {World}.
Arguments execute_actions {World}.
Arguments attempt_once {World}.
Arguments retry_loop {World}.
Arguments execute_with_retry {World}.
Arguments max_retries_exceeded {World}.
Arguments target_not_found {World}.

(** *** A sample worker *)

(** A world that keeps the clock, the number of calls that reached the
    registry and the delays slept so far. *)
Record Trace : Type := mkTrace {
  clock : Z;
  executed : nat;
  slept : list Q
}.

Definition trace0 : Trace := {| clock := 1700000000; executed := 0; slept := [] |}.

(** A tool that fails with the given error text. *)
Definition failing_tool (n error : string) : ToolRegistry.BaseTool :=
  {| ToolRegistry.name := n; ToolRegistry.description := "";
     ToolRegistry.validate_args := fun _ => Py.ret true;
     ToolRegistry.tool_execute := fun _ =>
       Py.ret {| ToolRegistry.success := false; ToolRegistry.data := None;
                 ToolRegistry.error := Some error; ToolRegistry.message := "";
                 ToolRegistry.available_tools := None |} |}.

(** A worker over a registry of tools that are called by a string name
    with a dictionary of arguments; it has no element finder. *)
Definition registry_env (reg : ToolRegistry.Registry) : Env Trace :=
  {| registry_has := fun name _ =>
       match name with
       | Json.JStr n => Py.ret (ToolRegistry.has reg n)
       | Json.JList _ => Py.raise (Py.TypeError "unhashable type: 'list'")
       | Json.JDict _ => Py.raise (Py.TypeError "unhashable type: 'dict'")
       | _ => Py.ret false
       end;
     registry_execute := fun name args w =>
       let w := {| clock := clock w; executed := S (executed w); slept := slept w |} in
       match name, args with
       | Json.JStr n, Json.JDict d => (ToolRegistry.execute Str.ascii_lower reg n d, w)
       | _, _ => (Py.raise (Py.TypeError "unsupported call"), w)
       end;
     element_finder := None;
     time := fun w =>
       (clock w, {| clock := clock w + 1; executed := executed w; slept := slept w |});
     sleep := fun d w =>
       {| clock := clock w; executed := executed w; slept := (slept w ++ [d])%list |};
     py_str := fun v => match v with Json.JStr s => s | _ => "" end;
     format_type := fun t => match t with GUI => "gui" | CODE => "code" | MCP => "mcp" end;
     lower := Str.ascii_lower |}.

Definition gui_action (tool : string) : Action :=
  {| action_type := GUI; tool := Json.JStr tool; args := Json.JDict [];
     description := Json.JStr ""; dependencies := []; timeout := None |}.

Definition code_action : Action :=
  {| action_type := CODE; tool := Json.JStr "python"; args := Json.JDict [];
     description := Json.JStr ""; dependencies := []; timeout := None |}.

(** A registry whose only tool always times out, and one whose only tool
    fails with a text the classifier does not know. *)
Definition timeout_registry : ToolRegistry.Registry :=
  ToolRegistry.register (failing_tool "flaky" "timeout") [].

Definition boom_registry : ToolRegistry.Registry :=
  ToolRegistry.register (failing_tool "flaky" "boom") [].

End Worker.

(** ** core/workflow_executor.py: choosing a workflow *)

Module Workflows.

Import Types.

Section Match.

(** [str.lower] *)
Variable lower : string -> string.

(** [any(keyword.lower() in goal_lower for keyword in keywords)]: the
    generator stops at the first keyword found; a keyword that is no
    string has no [lower]. *)
Fixpoint any_keyword (keywords : list Json.t) (goal_lower : string)
  : Py.result bool :=
  match keywords with
  | [] => Py.ret false
  | Json.JStr keyword :: rest =>
      if Str.contains (lower keyword) goal_lower then Py.ret true
      else any_keyword rest goal_lower
  | _ :: _ => Py.raise (Py.AttributeError "object has no attribute 'lower'")
  end.

Fixpoint match_workflow (goal : string)
    (available_workflows : list WorkflowDefinition)
  : Py.result (option WorkflowDefinition) :=
  let goal_lower := lower goal in
  match available_workflows with
  | [] => Py.ret None
  | workflow :: rest =>
      let name_lower := lower (workflow_name workflow) in
      let desc_lower := lower (workflow_description workflow) in
      if Str.contains name_lower goal_lower || Str.contains desc_lower goal_lower
      then Py.ret (Some workflow)
      else
        match workflow_variables workflow !! "keywords" with
        | Some keywords =>
            let* items := Json.iter keywords in
            let* found := any_keyword items goal_lower in
            if found then Py.ret (Some workflow) else match_workflow goal rest
        | None => match_workflow goal rest
        end
  end.

End Match.

(** A workflow that was loaded without a description. *)
Definition undescribed : WorkflowDefinition :=
  {| workflow_id := "workflow_1"; workflow_name := "Nightly export";
     workflow_description := ""; version := "1.0"; steps := [];
     workflow_variables := ∅; on_complete := None; on_error := None |}.

End Workflows.

(** ** core/agent_executor.py: a sample oracle *)

Module AgentSamples.

Import Types AgentExecutor.

(** An oracle that always asks for one click, tools that always succeed,
    and a decoder that reads the oracle's only answer. *)
Definition clicking_env : Env nat :=
  {| get_tools_list := fun _ => [("click", "")];
     get_agent_step_prompt := fun _ _ _ _ _ => "";
     generate_async := fun _ w => (Py.ret "click", w);
     json_loads := fun _ =>
       Py.ret (Json.JDict [("action", Json.JDict [("tool", Json.JStr "click")])]);
     re_search_object := fun _ => None;
     strip := fun s => s;
     execute_action := fun _ _ w =>
       (Py.ret {| action_id := "gui_click_0"; success := true; data := None;
                  error := None; message := "" |}, S w);
     reflect := fun t _ _ w =>
       (Py.ret {| reflection_task_id := task_id t; reflection_success := true;
                  analysis := ""; suggestions := []; needs_replan := false;
                  reflection_confidence := 1 |}, w);
     new_task_id := fun w => ("task_00000000", w) |}.

(** The same tools with an oracle that asks for one click and words its
    confidence instead of giving a number. *)
Definition overconfident_env : Env nat :=
  {| get_tools_list := get_tools_list clicking_env;
     get_agent_step_prompt := get_agent_step_prompt clicking_env;
     generate_async := generate_async clicking_env;
     json_loads := fun _ =>
       Py.ret (Json.JDict [("action", Json.JDict [("tool", Json.JStr "click")]);
                           ("confidence", Json.JStr "high")]);
     re_search_object := re_search_object clicking_env;
     strip := strip clicking_env;
     execute_action := execute_action clicking_env;
     reflect := reflect clicking_env;
     new_task_id := new_task_id clicking_env |}.

(** The same tools with an oracle whose first decision is to stop. *)
Definition stopping_env : Env nat :=
  {| get_tools_list := get_tools_list clicking_env;
     get_agent_step_prompt := get_agent_step_prompt clicking_env;
     generate_async := generate_async clicking_env;
     json_loads := fun _ =>
       Py.ret (Json.JDict [("should_continue", Json.JBool false)]);
     re_search_object := re_search_object clicking_env;
     strip := strip clicking_env;
     execute_action := execute_action clicking_env;
     reflect := reflect clicking_env;
     new_task_id := new_task_id clicking_env |}.

End AgentSamples.

(** ** core/workflow_executor.py: a worker that raises *)

Module WorkflowSamples.

Import Types WorkflowExecutor.

(** Conditions that always hold and a worker every call to which raises. *)
Definition raising_env : Env nat :=
  {| py_eval := py_eval failing_env;
     py_exec := py_exec failing_env;
     execute_with_retry := fun _ _ _ w =>
       (Py.raise (Py.RuntimeError "browser has been closed"), S w);
     new_task_id := new_task_id failing_env |}.

End WorkflowSamples.

(** ** core/planner.py: the shape of a validated plan *)

Module PlanShape.

(** An action dictionary with the three keys the task builder reads. *)
Definition complete_action (action : Json.t) : bool :=
  match action with
  | Json.JDict a =>
      Json.dict_has "tool" a && Json.dict_has "args" a && Json.dict_has "type" a
  | _ => false
  end.

(** A subtask dictionary with an id, a description and a list of complete
    actions. *)
Definition complete_subtask (subtask : Json.t) : bool :=
  match subtask with
  | Json.JDict st =>
      Json.dict_has "id" st && Json.dict_has "description" st &&
      match Json.dict_get "actions" st with
      | Some (Json.JList actions) => forallb complete_action actions
      | _ => false
      end
  | _ => false
  end.

(** A plan dictionary whose [subtasks] is a list of complete subtasks. *)
Definition complete_plan (plan : Json.t) : bool :=
  match plan with
  | Json.JDict d =>
      match Json.dict_get "subtasks" d with
      | Some (Json.JList subtasks) => forallb complete_subtask subtasks
      | _ => false
      end
  | _ => false
  end.

(** A plan as an oracle may send it: a subtask without an id, an action
    without arguments, an action without a tool and a stray number. *)
Definition ragged_plan : Json.t :=
  Json.JDict
    [ ("goal", Json.JStr "open the page");
      ("subtasks",
        Json.JList
          [ Json.JDict
              [ ("description", Json.JStr "open");
                ("actions",
                  Json.JList
                    [ Json.JDict [("tool", Json.JStr "navigate")];
                      Json.JDict [("args", Json.JDict [])];
                      Json.JNum 7 ]) ];
            Json.JStr "not a subtask" ]) ].

End PlanShape.

(** ** core/planner.py: a sample decoder *)

Module PlannerSamples.

(** A decoder that knows the empty object and rejects every other text;
    none of the patterns matches. *)
Definition braces_lib : Planner.Lib :=
  {| Planner.json_loads := fun text =>
       if String.eqb text "{}" then Py.ret (Json.JDict [])
       else Py.raise (Py.JSONDecodeError "Expecting value" 1 1 0);
     Planner.re_sub := fun _ _ _ subject => subject;
     Planner.re_sub_fn := fun _ _ subject => subject;
     Planner.re_search_group1 := fun _ _ _ => None;
     Planner.re_findall := fun _ _ => [];
     Planner.strip := Str.ascii_strip;
     Planner.generate_async := fun _ => Py.ret "{}" |}.

End PlannerSamples.

(** ** llm/self_consistency.py: where a winner comes from *)

Module Votes.

Import SelfConsistency.

(** Some sample of the list carries the data [data]. *)
Definition carried_by (samples : list SampleResult) (data : Json.t) : Prop :=
  exists sample : SampleResult, In sample samples /\ data_of sample = Some data.

(** Two parsed samples of different quality and one that failed to
    parse. *)
Definition three_samples : list SampleResult :=
  [ {| content := empty_plan_text; parsed_data := Some empty_plan;
       is_valid := true; quality_score := 5 # 10; parse_error := None |};
    {| content := "oops"; parsed_data := None; is_valid := false;
       quality_score := 0; parse_error := Some "Expecting value" |};
    {| content := navigate_plan_text; parsed_data := Some navigate_plan;
       is_valid := true; quality_score := 1; parse_error := None |} ].

End Votes.

(** ** core/orchestrator.py: the tool usage records *)

Module Orchestrator.

Import Types.

(** [s.split(sep)] for a separator of one character. *)
Fixpoint split_on (sep : ascii) (s : string) : list string :=
  match s with
  | EmptyString => [EmptyString]
  | String c rest =>
      if Ascii.eqb c sep then EmptyString :: split_on sep rest
      else
        match split_on sep rest with
        | segment :: segments => String c segment :: segments
        | [] => [String c EmptyString]
        end
  end.

(** [r.action_id.split("_")[-1] if "_" in r.action_id else "unknown"] *)
Definition tool_name_of (action_id : string) : string :=
  if Str.contains "_" action_id
  then List.last (split_on "_"%char action_id) EmptyString
  else "unknown".

(** The fields of [ToolUsage] that come from the action result. *)
Record ToolUsage : Type := mkToolUsage {
  tool_name : string;
  usage_success : bool;
  usage_error : option string
}.

(** The comprehension that both execution modes run over the action
    results before storing them. *)
Definition tool_usages (action_results : list ActionResult) : list ToolUsage :=
  List.map
    (fun r => {| tool_name := tool_name_of (action_id r);
                 usage_success := success r;
                 usage_error := error r |})
    action_results.

(** The character [c] occurs in [s]. *)
Fixpoint has_char (c : ascii) (s : string) : bool :=
  match s with
  | EmptyString => false
  | String a rest => Ascii.eqb a c || has_char c rest
  end.

End Orchestrator.

(** ** core/workflow_executor.py over core/worker.py *)

Module WorkflowWiring.

Import Types.

(** [WorkflowExecutor(worker)]: the steps go to [worker.execute_with_retry]
    with the step's bound and no delay of their own.  The world of the
    executor is the world of the worker together with the history of the
    worker's error handler. *)
Definition worker_backed {World : Type} (worker : Worker.Env World)
    (config : Worker.Config)
    (py_eval : string -> Context -> Py.result bool)
    (py_exec : string -> Context -> Py.result unit * gmap string Json.t)
    (new_task_id : World -> string * World)
  : WorkflowExecutor.Env (World * list ErrorHandler.ErrorContext) :=
  {| WorkflowExecutor.py_eval := py_eval;
     WorkflowExecutor.py_exec := py_exec;
     WorkflowExecutor.execute_with_retry := fun action max_retries _ wh =>
       let '(result, s, w) :=
         Worker.execute_with_retry worker config action (Some max_retries) None
           (snd wh) (fst wh) in
       (result, (w, Worker.error_history s));
     WorkflowExecutor.new_task_id := fun wh =>
       let '(id, w) := new_task_id (fst wh) in (id, (w, snd wh)) |}.

End WorkflowWiring.


(** * Properties *)

(** ** Dictionaries *)

Lemma dict_get_set_eq {V : Type} (k : string) (v : V) (d : list (string * V)) :
  Json.dict_get k (Json.dict_set k v d) = Some v.
Proof.
  induction d as [| [k' v'] d IH]; cbn.
  - now rewrite String.eqb_refl.
  - destruct (String.eqb k k') eqn:E; cbn.
    + now rewrite String.eqb_refl.
    + now rewrite E.
Qed.

Lemma dict_get_set_ne {V : Type} (k k' : string) (v : V) (d : list (string * V)) :
  k <> k' -> Json.dict_get k (Json.dict_set k' v d) = Json.dict_get k d.
Proof.
  intros Hne. induction d as [| [k2 v2] d IH]; cbn.
  - destruct (String.eqb k k') eqn:E; [| reflexivity].
    apply String.eqb_eq in E. contradiction.
  - destruct (String.eqb k' k2) eqn:E; cbn.
    + apply String.eqb_eq in E. subst k2.
      destruct (String.eqb k k') eqn:E2; [| reflexivity].
      apply String.eqb_eq in E2. contradiction.
    + destruct (String.eqb k k2); [reflexivity | exact IH].
Qed.

(** ** Error handler *)

Section ErrorHandlerFacts.

Import ErrorHandler.

Lemma py_min_Qmin (a b : Q) : (Py.min a b == Qmin a b)%Q.
Proof.
  unfold Py.min. destruct (Qle_bool a b) eqn:E.
  - apply Qle_bool_iff in E. symmetry. now apply Q.min_l.
  - symmetry. apply Q.min_r. apply Qlt_le_weak, Qnot_le_lt.
    intros H. apply Qle_bool_iff in H. congruence.
Qed.

Lemma clamp_unit_interval (q : Q) :
  (0 <= q)%Q -> (q <= 1)%Q -> (Py.min 1 (Py.max 0 q) == q)%Q.
Proof.
  intros H0 H1. unfold Py.min, Py.max.
  destruct (Qle_bool q 0) eqn:E0.
  - apply Qle_bool_iff in E0.
    assert (Hq : (q == 0)%Q) by now apply Qle_antisym.
    destruct (Qle_bool 1 0) eqn:E1; [discriminate E1 |]. now symmetry.
  - destruct (Qle_bool 1 q) eqn:E1; [| reflexivity].
    apply Qle_bool_iff in E1. now apply Qle_antisym.
Qed.

Lemma adjusted_base_rate_bounds t s :
  (0 <= adjusted_base_rate t s)%Q /\ (adjusted_base_rate t s <= 1)%Q.
Proof. destruct t, s; cbn; split; unfold Qle; cbn; lia. Qed.

(** What [_calculate_confidence] computes before clamping. *)
Lemma calculate_confidence_unclamped ctx s :
  (_calculate_confidence ctx s ==
   adjusted_base_rate (error_type ctx) s
   * (if (retry_count ctx >? 0)%Z then 9 # 10 else 1))%Q.
Proof.
  unfold _calculate_confidence.
  assert (Hadj :
    (if is_timeout_or_network (error_type ctx)
     then if strategy_eqb s RETRY then 8 # 10 else base_confidence_table s
     else if is_permission_denied (error_type ctx)
          then if strategy_eqb s ABORT then 95 # 100 else base_confidence_table s
          else base_confidence_table s)
    = adjusted_base_rate (error_type ctx) s)
    by (destruct (error_type ctx), s; reflexivity).
  rewrite Hadj.
  destruct (adjusted_base_rate_bounds (error_type ctx) s) as [H0 H1].
  destruct (retry_count ctx >? 0)%Z.
  - apply clamp_unit_interval.
    + apply Qmult_le_0_compat; [exact H0 | unfold Qle; cbn; lia].
    + apply Qle_trans with (1 * (9 # 10))%Q.
      * apply Qmult_le_compat_r; [exact H1 | unfold Qle; cbn; lia].
      * unfold Qle; cbn; lia.
  - rewrite Qmult_1_r. now apply clamp_unit_interval.
Qed.

(** C3, as stated, fails: after two prior retries of a timeout the handler
    reports 0.8 * 0.9 = 0.72, while a decay of 10% per prior retry would
    give 0.8 * 0.9 * 0.9 = 0.648. *)
Lemma confidence_not_decayed_per_retry :
  let ra := get_recovery_strategy twice_retried_timeout 3 1 in
  strategy ra = RETRY /\
  (confidence ra == 72 # 100)%Q /\
  (confidence_decayed_per_retry twice_retried_timeout (strategy ra) == 648 # 1000)%Q /\
  ~ (confidence ra == confidence_decayed_per_retry twice_retried_timeout (strategy ra))%Q.
Proof.
  cbv zeta. split; [| split; [| split]].
  - reflexivity.
  - reflexivity.
  - reflexivity.
  - intros H. vm_compute in H. discriminate H.
Qed.

(** C3 (amended): the confidence reported by [get_recovery_strategy] is the
    strategy's base rate after the category adjustments, multiplied by 0.9
    exactly once when the error context records at least one prior retry,
    and left as it is when it records none. *)
Theorem confidence_decays_once (ctx : ErrorContext) (max_retries : Z) (delay : Q) :
  let ra := get_recovery_strategy ctx max_retries delay in
  (confidence ra ==
   adjusted_base_rate (error_type ctx) (strategy ra)
   * (if (retry_count ctx >? 0)%Z then 9 # 10 else 1))%Q.
Proof. cbv zeta. unfold get_recovery_strategy. cbn [confidence strategy]. apply calculate_confidence_unclamped. Qed.

(** For at most one prior retry the two decay rules agree. *)
Lemma confidence_per_retry_agrees_up_to_one (ctx : ErrorContext) (max_retries : Z) (delay : Q) :
  (0 <= retry_count ctx <= 1)%Z ->
  let ra := get_recovery_strategy ctx max_retries delay in
  (confidence ra == confidence_decayed_per_retry ctx (strategy ra))%Q.
Proof.
  intros Hn. cbv zeta. unfold get_recovery_strategy. cbn [confidence strategy].
  rewrite calculate_confidence_unclamped.
  unfold confidence_decayed_per_retry.
  assert (Hc : retry_count ctx = 0%Z \/ retry_count ctx = 1%Z) by lia.
  destruct Hc as [-> | ->]; cbn; reflexivity.
Qed.


(** From [2 ** 1024] on the power cannot be converted. *)
Lemma float_pow2_overflow (n : Z) :
  (1024 <= n)%Z ->
  Py.float_pow2 n = inl (Py.OverflowError "int too large to convert to float").
Proof.
  intros Hn. unfold Py.float_pow2.
  destruct (Z.ltb_spec n 0); [lia |].
  destruct (Z.leb_spec 1024 n); [reflexivity | lia].
Qed.



(** The exponential delay, when there is one, never exceeds the cap. *)
Lemma get_retry_delay_capped (ctx : ErrorContext) (base_delay delay : Q) :
  get_retry_delay ctx base_delay true = inr delay -> (delay <= 60)%Q.
Proof.
  unfold get_retry_delay. cbn [negb].
  destruct (Py.float_pow2 (retry_count ctx)) as [e | power]; [discriminate |].
  cbn [Py.bind Py.ret]. intros [= <-].
  rewrite py_min_Qmin. apply Q.le_min_r.
Qed.

End ErrorHandlerFacts.


(** ** Tool registry *)

Section ToolRegistryFacts.

Import ToolRegistry.

Lemma string_app_assoc (a b c : string) : (a +:+ b) +:+ c = a +:+ (b +:+ c).
Proof.
  induction a as [| ch a IH]; [reflexivity |].
  change (String ch ((a +:+ b) +:+ c) = String ch (a +:+ (b +:+ c))).
  now rewrite IH.
Qed.

Lemma string_app_nil_r (a : string) : a +:+ "" = a.
Proof.
  induction a as [| ch a IH]; [reflexivity |].
  change (String ch (a +:+ "") = String ch a). now rewrite IH.
Qed.

Lemma occurs_in_refl (t : string) : Str.occurs_in t t.
Proof. exists "", "". cbn. now rewrite string_app_nil_r. Qed.

Lemma occurs_in_app_l (t s pre : string) :
  Str.occurs_in t s -> Str.occurs_in t (pre +:+ s).
Proof.
  intros (a & b & ->). exists (pre +:+ a), b. now rewrite string_app_assoc.
Qed.

Lemma occurs_in_app_r (t s post : string) :
  Str.occurs_in t s -> Str.occurs_in t (s +:+ post).
Proof.
  intros (a & b & ->). exists a, (b +:+ post).
  now rewrite !string_app_assoc.
Qed.

Lemma occurs_in_join (sep t : string) (xs : list string) :
  In t xs -> Str.occurs_in t (Py.join sep xs).
Proof.
  induction xs as [| x xs IH]; [intros [] |].
  intros [-> | Hin].
  - destruct xs as [| y ys]; cbn.
    + apply occurs_in_refl.
    + apply occurs_in_app_r, occurs_in_refl.
  - destruct xs as [| y ys]; [destruct Hin |].
    change (Py.join sep (x :: y :: ys)) with (x +:+ sep +:+ Py.join sep (y :: ys)).
    apply occurs_in_app_l, occurs_in_app_l, IH, Hin.
Qed.

(** C6: for a name the registry does not hold, [execute] returns (it does
    not raise) a result with [success = false]; when some registered names
    resemble the requested one the message lists exactly those, and
    otherwise it lists every registered name. *)
Theorem execute_unregistered
    (lower : string -> string) (reg : Registry) (n : string) (args : Json.Dict) :
  has reg n = false ->
  exists r : ToolResult,
    execute lower reg n args = inr r /\
    success r = false /\
    error r = Some ("Tool '" +:+ n +:+ "' not found") /\
    (similar_tools lower reg n <> [] ->
       message r =
         "工具 '" +:+ n +:+ "' 不存在" +:+ " 您是否想使用: "
           +:+ Py.join ", " (similar_tools lower reg n) +:+ "?" /\
       forall t, In t (similar_tools lower reg n) -> Str.occurs_in t (message r)) /\
    (similar_tools lower reg n = [] ->
       message r =
         "工具 '" +:+ n +:+ "' 不存在"
           +:+ match Json.dict_keys reg with
               | [] => ""
               | _ :: _ => " 可用工具: " +:+ Py.join ", " (Json.dict_keys reg)
               end /\
       forall t, In t (Json.dict_keys reg) -> Str.occurs_in t (message r)).
Proof.
  intros Hhas. unfold has, Json.dict_has in Hhas. unfold execute, get.
  destruct (Json.dict_get n reg) as [tool |] eqn:Hget; [discriminate Hhas |].
  eexists. split; [reflexivity |]. cbn [success error message].
  split; [reflexivity |]. split; [reflexivity |].
  unfold not_found_message. split.
  - intros Hsim. destruct (similar_tools lower reg n) as [| s0 ss] eqn:Es;
      [now destruct Hsim |].
    split.
    + now rewrite !string_app_assoc.
    + intros t Hin. apply occurs_in_app_l, occurs_in_app_l, occurs_in_app_r.
      now apply occurs_in_join.
  - intros Hsim. rewrite Hsim.
    destruct (Json.dict_keys reg) as [| k ks] eqn:Ek.
    + split; [now rewrite !string_app_assoc | intros t []].
    + split; [now rewrite !string_app_assoc |].
      intros t Hin. apply occurs_in_app_l, occurs_in_app_l.
      now apply occurs_in_join.
Qed.

Lemma execute_unregistered_witness :
  has sample_registry "nav" = false /\
  exists r : ToolResult,
    execute Str.ascii_lower sample_registry "nav" [] = inr r /\
    success r = false /\
    message r = "工具 'nav' 不存在 您是否想使用: navigate?".
Proof.
  split; [reflexivity |].
  destruct (execute_unregistered Str.ascii_lower sample_registry "nav" [] eq_refl)
    as (r & Hr & Hs & _ & Hsim & _).
  exists r. split; [exact Hr |]. split; [exact Hs |].
  destruct Hsim as [Hm _]; [discriminate |]. exact Hm.
Defined.

End ToolRegistryFacts.

(** ** Protocol client *)

Section MCPClientFacts.

Import MCPClient.

(** C4, as stated, fails: a second [connect] on a connected client spawns
    a second child process, runs the handshake and the discovery again and
    replaces the session. *)
Lemma connect_twice_is_not_a_noop :
  connected (snd (fst connected_once)) = true /\
  spawned (snd connected_once) = 1 /\
  spawned (snd connected_twice) = 2 /\
  handshakes (snd connected_twice) = 2 /\
  discoveries (snd connected_twice) = 2 /\
  _session (snd (fst connected_once)) = Some 1 /\
  _session (snd (fst connected_twice)) = Some 2 /\
  snd (fst connected_twice) <> snd (fst connected_once) /\
  snd connected_twice <> snd connected_once.
Proof.
  repeat match goal with |- _ /\ _ => split end; try reflexivity.
  - intros H. apply (f_equal _session) in H. vm_compute in H. discriminate H.
  - intros H. apply (f_equal spawned) in H. vm_compute in H. discriminate H.
Qed.

Section AnySDK.

Context {World Stream Session : Type}.
Variable sdk : SDK World Stream Session.

(** C4 (amended): [connect] has no guard on the connected flag.  Called on
    a client that is already connected it parses the command, spawns a
    child process and runs the handshake and the discovery as a first call
    does; when these succeed it returns true, the client is connected, its
    session is the new one, and the new transport and session lie on the
    exit stack above the earlier ones. *)
Theorem connect_again_reconnects
    (c : Client Stream Session) (w w1 w2 w3 : World) (cmd : string)
    (params : StdioServerParameters) (r wr : Stream) (session : Session) :
  connected c = true ->
  server_command c = Some cmd ->
  cmd <> "" ->
  transport c = "stdio" ->
  _parse_server_command sdk cmd = inr params ->
  stdio_client sdk params w = (inr (r, wr), w1) ->
  client_session sdk r wr w1 = (inr session, w2) ->
  initialize sdk session w2 = (inr tt, w3) ->
  exists c' : Client Stream Session,
    connect sdk c w = (true, c', snd (sdk_list_tools sdk session w3)) /\
    connected c' = true /\
    _session c' = Some session /\
    _stdio_params c' = Some params /\
    _exit_stack c' = RSession session :: RStdio r wr :: _exit_stack c.
Proof.
  intros _ Hcmd Hne Htr Hparse Hspawn Hsess Hinit.
  unfold connect. rewrite Hcmd.
  destruct (String.eqb cmd "") eqn:E; [apply String.eqb_eq in E; contradiction |].
  rewrite Htr, String.eqb_refl. cbn [negb]. rewrite Hparse, Hspawn.
  rewrite Hsess, Hinit.
  unfold list_tools, set_connected, set_session, set_streams, set_stdio_params.
  cbn [_session connected].
  destruct (sdk_list_tools sdk session w3) as [[e | tools] w4]; cbn [snd];
    eexists; (split; [reflexivity |]); cbn; repeat split; reflexivity.
Qed.

(** When the spawn fails on a connected client, the cleanup closes the
    whole exit stack and the client is left disconnected. *)
Lemma connect_again_spawn_failure
    (c : Client Stream Session) (w w1 : World) (cmd : string)
    (params : StdioServerParameters) (e : Py.Exn) :
  connected c = true ->
  server_command c = Some cmd ->
  cmd <> "" ->
  transport c = "stdio" ->
  _parse_server_command sdk cmd = inr params ->
  stdio_client sdk params w = (inl e, w1) ->
  exists c' : Client Stream Session,
    connect sdk c w = (false, c', snd (aclose sdk (_exit_stack c) w1)) /\
    connected c' = false /\ _session c' = None /\ _exit_stack c' = [].
Proof.
  intros Hconn Hcmd Hne Htr Hparse Hspawn.
  unfold connect. rewrite Hcmd.
  destruct (String.eqb cmd "") eqn:E; [apply String.eqb_eq in E; contradiction |].
  rewrite Htr, String.eqb_refl. cbn [negb]. rewrite Hparse, Hspawn.
  unfold _cleanup, set_connected, set_stdio_params. cbn [connected].
  rewrite Hconn. cbn [negb _exit_stack].
  destruct (aclose sdk (_exit_stack c) w1) as [res w2]; cbn [snd].
  eexists. split; [reflexivity |]. cbn. repeat split; reflexivity.
Qed.

(** The first stage of [convert_result] returns when the items are typed
    as the SDK types them, and binds neither [isError] nor [error]. *)
Lemma convert_content_typed (items : list ContentItem) :
  forallb sdk_typed items = true ->
  exists d : Json.Dict,
    convert_content items = inr d /\
    Json.dict_get "isError" d = None /\ Json.dict_get "error" d = None.
Proof.
  intros Htyped. unfold convert_content.
  destruct items as [| item rest]; [exists []; now repeat split |].
  cbn [List.map].
  destruct (is_text_label (Json.dict_get "type" (content_dict item))) eqn:Elabel.
  - destruct item as [text | data mime | kind dump].
    + eexists. split; [reflexivity |]. now split.
    + discriminate Elabel.
    + cbn [forallb sdk_typed] in Htyped. rewrite Elabel in Htyped.
      discriminate Htyped.
  - eexists. split; [reflexivity |]. now split.
Qed.

(** The loop over the items stops at the first text item, whatever comes
    before it and after it. *)
Lemma first_text_app (before rest : list ContentItem) (text : string) :
  (forall t : string, ~ In (TextContent t) before) ->
  first_text (before ++ TextContent text :: rest) = Some text.
Proof.
  induction before as [| item before IH]; intros Hnone; [reflexivity |].
  cbn [app first_text].
  destruct item as [t | data mime | kind dump].
  - exfalso. apply (Hnone t). now left.
  - apply IH. intros t Ht. apply (Hnone t). now right.
  - apply IH. intros t Ht. apply (Hnone t). now right.
Qed.

(** Without a text item the loop runs to its end. *)
Lemma first_text_none (items : list ContentItem) :
  (forall t : string, ~ In (TextContent t) items) ->
  first_text items = None.
Proof.
  induction items as [| item items IH]; intros Hnone; [reflexivity |].
  cbn [first_text].
  destruct item as [t | data mime | kind dump].
  - exfalso. apply (Hnone t). now left.
  - apply IH. intros t Ht. apply (Hnone t). now right.
  - apply IH. intros t Ht. apply (Hnone t). now right.
Qed.

(** An error response is converted into a dictionary with [isError] set;
    [error] is bound exactly when the response holds a text item, to the
    text of the first one. *)
Lemma convert_result_error (result : CallToolResult) :
  isError result = true ->
  forallb sdk_typed (content result) = true ->
  exists d : Json.Dict,
    convert_result result = inr d /\
    Json.dict_get "isError" d = Some (Json.JBool true) /\
    (forall (before : list ContentItem) (text : string) (rest : list ContentItem),
       content result = (before ++ TextContent text :: rest)%list ->
       (forall t : string, ~ In (TextContent t) before) ->
       Json.dict_get "error" d = Some (Json.JStr text)) /\
    ((forall t : string, ~ In (TextContent t) (content result)) ->
       Json.dict_get "error" d = None).
Proof.
  intros Herr Htyped. unfold convert_result.
  destruct (convert_content_typed _ Htyped) as (d & -> & Hd1 & Hd2).
  cbn [Py.bind]. rewrite Herr.
  set (d1 := match structuredContent result with
             | Some sc => if Json.truthy sc
                          then Json.dict_set "structuredContent" sc d else d
             | None => d
             end).
  assert (H1 : Json.dict_get "error" d1 = None).
  { subst d1. destruct (structuredContent result) as [sc |]; [| exact Hd2].
    destruct (Json.truthy sc); [| exact Hd2].
    rewrite dict_get_set_ne; [exact Hd2 | discriminate]. }
  eexists. split; [reflexivity |]. split; [| split].
  - destruct (first_text (content result)) as [text |].
    + rewrite dict_get_set_ne by discriminate. apply dict_get_set_eq.
    + apply dict_get_set_eq.
  - intros before text rest Hcontent Hnone.
    rewrite Hcontent, (first_text_app before rest text Hnone).
    apply dict_get_set_eq.
  - intros Hnone. rewrite (first_text_none _ Hnone).
    rewrite dict_get_set_ne by discriminate. exact H1.
Qed.

(** C8: [call_tool] raises when the client is not connected; on a
    connected client a failure of the transport during the call is raised
    to the caller, while an error response of the tool is returned as a
    dictionary with [isError] set.  The dictionary carries under [error]
    the text of the first text item of the response, whatever items stand
    before that one and after it, and it has no [error] entry when the
    response holds no text item. *)
Theorem call_tool_error_handling
    (c : Client Stream Session) (name : string) (arguments : option Json.Dict)
    (w : World) :
  ((_session c = None \/ connected c = false) ->
     call_tool sdk c name arguments w
       = (inl (Py.RuntimeError "MCP client not connected"), w)) /\
  (forall session : Session,
     _session c = Some session -> connected c = true ->
     let sent := match arguments with
                 | Some ((_ :: _) as a) => a
                 | _ => []
                 end in
     (forall (e : Py.Exn) (w' : World),
        sdk_call_tool sdk session name sent w = (inl e, w') ->
        call_tool sdk c name arguments w = (inl e, w')) /\
     (forall (result : CallToolResult) (w' : World),
        sdk_call_tool sdk session name sent w = (inr result, w') ->
        isError result = true ->
        forallb sdk_typed (content result) = true ->
        exists d : Json.Dict,
          call_tool sdk c name arguments w = (inr d, w') /\
          Json.dict_get "isError" d = Some (Json.JBool true) /\
          (forall (before : list ContentItem) (text : string)
                  (rest : list ContentItem),
             content result = (before ++ TextContent text :: rest)%list ->
             (forall t : string, ~ In (TextContent t) before) ->
             Json.dict_get "error" d = Some (Json.JStr text)) /\
          ((forall t : string, ~ In (TextContent t) (content result)) ->
             Json.dict_get "error" d = None))).
Proof.
  split.
  - intros [Hs | Hc]; unfold call_tool.
    + now rewrite Hs.
    + rewrite Hc. now destruct (_session c).
  - intros session Hs Hc sent. subst sent. split.
    + intros e w' Hcall. unfold call_tool. now rewrite Hs, Hc, Hcall.
    + intros result w' Hcall Herr Htyped. unfold call_tool.
      rewrite Hs, Hc, Hcall.
      destruct (convert_result_error result Herr Htyped) as (d & Hd & H1 & H2 & H3).
      exists d. rewrite Hd. repeat split; assumption.
Qed.

End AnySDK.

Lemma connect_again_reconnects_witness :
  exists c' : Client nat nat,
    connect counting_sdk (snd (fst connected_once)) (snd connected_once)
      = (true, c',
         snd (sdk_list_tools counting_sdk 2
                {| spawned := 2; handshakes := 2; discoveries := 1; closed := 0 |})) /\
    connected c' = true /\
    _session c' = Some 2 /\
    _stdio_params c' = Some {| command := "server"; sp_args := [] |} /\
    _exit_stack c' = [RSession 2; RStdio 2 2; RSession 1; RStdio 1 1].
Proof.
  apply (connect_again_reconnects counting_sdk
           (snd (fst connected_once)) (snd connected_once)
           {| spawned := 2; handshakes := 1; discoveries := 1; closed := 0 |}
           {| spawned := 2; handshakes := 1; discoveries := 1; closed := 0 |}
           {| spawned := 2; handshakes := 2; discoveries := 1; closed := 0 |}
           "server" {| command := "server"; sp_args := [] |} 2 2 2);
    first [reflexivity | discriminate].
Defined.

(** On the connected client an error response comes back as a dictionary;
    on the fresh client the call raises. *)
Example call_tool_examples :
  call_tool counting_sdk (snd (fst connected_once)) "click" None (snd connected_once)
    = (inr [("content",
             Json.JList [Json.JDict [("type", Json.JStr "text");
                                     ("text", Json.JStr "boom")]]);
            ("text", Json.JStr "boom");
            ("isError", Json.JBool true);
            ("error", Json.JStr "boom")],
       snd connected_once) /\
  call_tool counting_sdk fresh_client "click" None world0
    = (inl (Py.RuntimeError "MCP client not connected"), world0).
Proof. split; reflexivity. Qed.

Lemma call_tool_error_handling_witness :
  exists d : Json.Dict,
    call_tool MCPServers.erring_sdk (snd (fst connected_once)) "click" None
      (snd connected_once) = (inr d, snd connected_once) /\
    Json.dict_get "isError" d = Some (Json.JBool true) /\
    Json.dict_get "error" d = Some (Json.JStr "element not found").
Proof.
  destruct (call_tool_error_handling MCPServers.erring_sdk
              (snd (fst connected_once)) "click" None (snd connected_once))
    as [_ Hconnected].
  destruct (Hconnected 1 eq_refl eq_refl) as [_ Hresponse].
  destruct (Hresponse _ _ eq_refl eq_refl eq_refl) as (d & Hd & Hflag & Htext & _).
  exists d. split; [exact Hd |]. split; [exact Hflag |].
  apply (Htext [ImageContent "iVBORw0KGgo=" "image/png"] "element not found"
           [TextContent "retry later"]); [reflexivity |].
  intros t [Ht | []]. discriminate Ht.
Defined.

End MCPClientFacts.

(** ** Agent loop *)

Section AgentExecutorFacts.

Import Types AgentExecutor.

Context {World : Type}.
Variable env : Env World.
Variable max_steps : Z.

Ltac case_complete :=
  match goal with
  | |- context [AgentExecutor._check_task_complete ?rs] =>
      destruct (AgentExecutor._check_task_complete rs) eqn:?
  end.

(** Every pass through the loop body advances the step counter by one,
    however the pass ends. *)
Lemma loop_body_step_count (goal : string) (s : LoopState) (w : World) :
  match fst (loop_body env goal s w) with
  | Next s' | Break s' | Raised _ s' => step_count s' = (step_count s + 1)%Z
  end.
Proof.
  unfold loop_body, Py.ret, Py.raise.
  destruct (_decide_next_step env goal _ _ _ w) as [decision w1]. cbn [context last_decision].
  destruct (should_continue decision); cbn [negb fst]; [| reflexivity].
  destruct (should_skip decision); cbn [fst]; [reflexivity |].
  destruct (decision_action decision) as [action |].
  - destruct (format_confidence (decision_confidence decision)) as [e | []];
      [reflexivity |].
    destruct (execute_action env action _ w1) as [[e | result] w2]; [reflexivity |].
    cbn [loop_action_results]. case_complete; reflexivity.
  - cbn [loop_action_results]. case_complete; reflexivity.
Qed.

(** The loop is left after at most [max_steps - step_count] passes, with
    the counter no higher than the cap (or where it started). *)
Lemma run_loop_terminates (goal : string) (fuel : nat) :
  forall (s : LoopState) (w : World),
    (Z.to_nat (max_steps - step_count s) <= fuel)%nat ->
    exists (exit : LoopExit) (w' : World),
      run_loop env max_steps fuel goal s w = Some (exit, w') /\
      (match exit with Exited s' | Failed _ s' => step_count s' end
         <= Z.max (step_count s) max_steps)%Z.
Proof.
  induction fuel as [| fuel IH]; intros s w Hfuel.
  - cbn [run_loop]. destruct (step_count s <? max_steps)%Z eqn:E; cbn [negb].
    + apply Z.ltb_lt in E. lia.
    + exists (Exited s), w. split; [reflexivity | lia].
  - cbn [run_loop]. destruct (step_count s <? max_steps)%Z eqn:E; cbn [negb].
    + apply Z.ltb_lt in E.
      pose proof (loop_body_step_count goal s w) as Hstep.
      destruct (loop_body env goal s w) as [[s' | s' | e s'] w1]; cbn [fst] in Hstep.
      * destruct (IH s' w1) as (exit & w' & Hrun & Hle); [lia |].
        exists exit, w'. split; [exact Hrun | lia].
      * exists (Exited s'), w1. split; [reflexivity | lia].
      * exists (Failed e s'), w1. split; [reflexivity | lia].
    + exists (Exited s), w. split; [reflexivity | lia].
Qed.

(** More passes than needed change nothing. *)
Lemma run_loop_fuel_mono (goal : string) (fuel : nat) :
  forall (s : LoopState) (w : World) (r : LoopExit * World) (fuel' : nat),
    run_loop env max_steps fuel goal s w = Some r ->
    (fuel <= fuel')%nat ->
    run_loop env max_steps fuel' goal s w = Some r.
Proof.
  induction fuel as [| fuel IH]; intros s w r fuel' Hrun Hle.
  - cbn [run_loop] in Hrun. destruct fuel'; cbn [run_loop];
      destruct (negb (step_count s <? max_steps)%Z); congruence.
  - destruct fuel' as [| fuel']; [lia |]. cbn [run_loop] in Hrun |- *.
    destruct (negb (step_count s <? max_steps)%Z); [exact Hrun |].
    destruct (loop_body env goal s w) as [[s' | s' | e s'] w1]; try exact Hrun.
    apply IH; [exact Hrun | lia].
Qed.

(** C2: whatever the oracle decides, [execute_task] returns after at most
    [max_steps] passes through its loop: [max_steps] passes always suffice
    to produce the result, and the step count it reports does not exceed
    [max_steps]. *)
Theorem execute_task_terminates
    (goal : string) (initial_context : option Context) (w : World) :
  exists (res : TaskResult) (task : Task) (w' : World),
    execute_task env max_steps (Z.to_nat max_steps) goal initial_context w
      = Some (res, task, w') /\
    (result_step_count res <= Z.max 0 max_steps)%Z /\
    forall fuel : nat,
      (Z.to_nat max_steps <= fuel)%nat ->
      execute_task env max_steps fuel goal initial_context w = Some (res, task, w').
Proof.
  unfold execute_task.
  destruct (new_task_id env w) as [id w0].
  set (s0 := {| context := _; loop_action_results := []; step_count := 0;
                last_decision := None |}).
  destruct (run_loop_terminates goal (Z.to_nat max_steps) s0 w0)
    as (exit & w1 & Hrun & Hle).
  { subst s0. cbn [step_count]. rewrite Z.sub_0_r. lia. }
  assert (Hmono : forall fuel, (Z.to_nat max_steps <= fuel)%nat ->
            run_loop env max_steps fuel goal s0 w0 = Some (exit, w1))
    by (intros fuel Hf; now apply (run_loop_fuel_mono goal (Z.to_nat max_steps))).
  rewrite Hrun. cbn [step_count] in Hle.
  destruct exit as [s1 | e s1].
  - destruct (reflect env _ (loop_action_results s1) _ w1) as [[e | r] w2] eqn:Er.
    + do 3 eexists. split; [reflexivity |]. split; [exact Hle |].
      intros fuel Hf. rewrite (Hmono fuel Hf), Er. reflexivity.
    + do 3 eexists. split; [reflexivity |]. split; [exact Hle |].
      intros fuel Hf. rewrite (Hmono fuel Hf), Er. reflexivity.
  - do 3 eexists. split; [reflexivity |]. split; [exact Hle |].
    intros fuel Hf. rewrite (Hmono fuel Hf). reflexivity.
Qed.

Lemma loop_body_idle (goal : string) (s : LoopState) (w : World) :
  never_acts env ->
  loop_action_results s = [] ->
  exists (s' : LoopState) (w' : World),
    loop_body env goal s w = (Next s', w') /\
    step_count s' = (step_count s + 1)%Z /\ loop_action_results s' = [].
Proof.
  intros Hidle Hnil. unfold loop_body, Py.ret, Py.raise. cbn [context last_decision].
  specialize (Hidle goal (context s) (get_tools_list env w) (last_decision s) w).
  destruct (_decide_next_step env goal _ _ _ w) as [decision w1].
  cbn [fst] in Hidle. destruct Hidle as [Hc Hd]. rewrite Hc. cbn [negb].
  destruct (should_skip decision) eqn:Hs.
  - do 2 eexists. split; [reflexivity |]. now split.
  - destruct Hd as [Hd | Hd]; [discriminate Hd |]. rewrite Hd.
    cbn [loop_action_results]. rewrite Hnil. cbn [_check_task_complete].
    do 2 eexists. split; [reflexivity |]. now split.
Qed.

(** With such an oracle the loop runs until the cap and leaves no result. *)
Lemma run_loop_idle (goal : string) (fuel : nat) :
  never_acts env ->
  forall (s : LoopState) (w : World),
    loop_action_results s = [] ->
    (Z.to_nat (max_steps - step_count s) <= fuel)%nat ->
    exists (s' : LoopState) (w' : World),
      run_loop env max_steps fuel goal s w = Some (Exited s', w') /\
      step_count s' = Z.max (step_count s) max_steps /\
      loop_action_results s' = [].
Proof.
  intros Hidle. induction fuel as [| fuel IH]; intros s w Hnil Hfuel;
    cbn [run_loop]; destruct (step_count s <? max_steps)%Z eqn:E; cbn [negb].
  - apply Z.ltb_lt in E. lia.
  - apply Z.ltb_ge in E. exists s, w. split; [reflexivity |]. split; [lia | exact Hnil].
  - apply Z.ltb_lt in E.
    destruct (loop_body_idle goal s w Hidle Hnil) as (s1 & w1 & -> & Hcount & Hnil1).
    destruct (IH s1 w1 Hnil1) as (s' & w' & Hrun & Hc & Hn); [lia |].
    exists s', w'. split; [exact Hrun |]. split; [lia | exact Hn].
  - apply Z.ltb_ge in E. exists s, w. split; [reflexivity |]. split; [lia | exact Hnil].
Qed.

(** An oracle that always continues without acting is cut off at the cap:
    the task ends after exactly [max_steps] passes with no result. *)
Lemma execute_task_idle_oracle
    (goal : string) (initial_context : option Context) (w : World) :
  never_acts env ->
  exists (res : TaskResult) (task : Task) (w' : World),
    execute_task env max_steps (Z.to_nat max_steps) goal initial_context w
      = Some (res, task, w') /\
    result_step_count res = Z.max 0 max_steps /\
    result_action_results res = [].
Proof.
  intros Hidle. unfold execute_task.
  destruct (new_task_id env w) as [id w0].
  set (s0 := {| context := _; loop_action_results := []; step_count := 0;
                last_decision := None |}).
  destruct (run_loop_idle goal (Z.to_nat max_steps) Hidle s0 w0 eq_refl)
    as (s1 & w1 & -> & Hc & Hn).
  { subst s0. cbn [step_count]. rewrite Z.sub_0_r. lia. }
  cbn [step_count] in Hc.
  destruct (reflect env _ (loop_action_results s1) _ w1) as [[e | r] w2];
    do 3 eexists; (split; [reflexivity |]); now split.
Qed.

End AgentExecutorFacts.

(** ** Workflow runner *)

Section WorkflowExecutorFacts.

Import Types WorkflowExecutor.

Context {World : Type}.
Variable env : Env World.

Lemma is_strategy_spec (name : string) (strategy : option string) :
  is_strategy name strategy = true <-> strategy = Some name.
Proof.
  unfold is_strategy. destruct strategy as [s |]; [| split; discriminate].
  rewrite String.eqb_eq. split; [intros -> | intros [= ->]]; reflexivity.
Qed.

(** C7: when an executed step fails, the policy in force is the step's own
    [on_error], or the workflow's when the step has none; under [abort] the
    loop ends with this step and nothing of the remaining steps is run,
    under [skip] and under every other value, absent included, the loop
    goes on with the next step. *)
Theorem failed_step_policy
    (workflow : WorkflowDefinition) (step : WorkflowStep)
    (rest : list WorkflowStep) (s : RunState) (w w' : World)
    (result : ActionResult) :
  _evaluate_condition env (condition step) (context s) = true ->
  _execute_step env step (context s) w = (inr result, w') ->
  success result = false ->
  (step_on_error step = None -> error_strategy workflow step = on_error workflow) /\
  (forall p : string,
     step_on_error step = Some p -> p <> "" ->
     error_strategy workflow step = Some p) /\
  (error_strategy workflow step = Some "abort" ->
     run_steps env workflow (step :: rest) s w
       = (None, record_result step result s, w') /\
     executed_steps (record_result step result s)
       = (executed_steps s ++ [step_id step])%list) /\
  (error_strategy workflow step = Some "skip" ->
     run_steps env workflow (step :: rest) s w
       = run_steps env workflow rest (record_result step result s) w') /\
  (error_strategy workflow step <> Some "abort" ->
     run_steps env workflow (step :: rest) s w
       = run_steps env workflow rest (record_result step result s) w').
Proof.
  intros Hcond Hexec Hfail.
  assert (Hgo : error_strategy workflow step <> Some "abort" ->
            run_steps env workflow (step :: rest) s w
            = run_steps env workflow rest (record_result step result s) w').
  { intros Hna. cbn [run_steps]. rewrite Hcond, Hexec, Hfail. cbn [negb].
    destruct (is_strategy "abort" (error_strategy workflow step)) eqn:Ea.
    - apply is_strategy_spec in Ea. contradiction.
    - now destruct (is_strategy "skip" (error_strategy workflow step)). }
  split; [| split; [| split; [| split]]].
  - intros Hnone. unfold error_strategy. now rewrite Hnone.
  - intros p Hsome Hne. unfold error_strategy. rewrite Hsome.
    destruct (String.eqb p "") eqn:E; [| reflexivity].
    apply String.eqb_eq in E. contradiction.
  - intros Habort. split; [| reflexivity].
    cbn [run_steps]. rewrite Hcond, Hexec, Hfail, Habort. reflexivity.
  - intros Hskip. apply Hgo. rewrite Hskip. discriminate.
  - exact Hgo.
Qed.

(** Steps whose condition does not hold leave the loop state as it is. *)
Lemma run_steps_all_skipped
    (workflow : WorkflowDefinition) (steps : list WorkflowStep)
    (s : RunState) (w : World) :
  Forall (fun step => _evaluate_condition env (condition step) (context s) = false)
    steps ->
  run_steps env workflow steps s w = (None, s, w).
Proof.
  induction 1 as [| step rest Hstep _ IH]; [reflexivity |].
  cbn [run_steps]. now rewrite Hstep.
Qed.

End WorkflowExecutorFacts.

Lemma failed_step_policy_witness :
  WorkflowExecutor.run_steps WorkflowExecutor.failing_env
    (WorkflowExecutor.two_steps (Some "abort"))
    [WorkflowExecutor.step_with "a" (Some "abort");
     WorkflowExecutor.step_with "b" None]
    WorkflowExecutor.start_state 0
  = (None,
     WorkflowExecutor.record_result (WorkflowExecutor.step_with "a" (Some "abort"))
       WorkflowExecutor.boom WorkflowExecutor.start_state,
     1) /\
  WorkflowExecutor.executed_steps
    (WorkflowExecutor.record_result (WorkflowExecutor.step_with "a" (Some "abort"))
       WorkflowExecutor.boom WorkflowExecutor.start_state)
  = ["a"].
Proof.
  exact (proj1 (proj2 (proj2
           (failed_step_policy WorkflowExecutor.failing_env
              (WorkflowExecutor.two_steps (Some "abort"))
              (WorkflowExecutor.step_with "a" (Some "abort"))
              [WorkflowExecutor.step_with "b" None]
              WorkflowExecutor.start_state 0 1 WorkflowExecutor.boom
              eq_refl eq_refl eq_refl))) eq_refl).
Defined.

(** The same two failing steps under the three kinds of policy: with
    [abort] only the first step runs, with [skip] and with no policy both
    run; no run succeeds. *)
Example two_failing_steps :
  let run policy :=
    fst (fst (WorkflowExecutor.execute_workflow WorkflowExecutor.failing_env
                (WorkflowExecutor.two_steps policy) "go" None 0)) in
  WorkflowExecutor.result_executed_steps (run (Some "abort")) = ["a"] /\
  WorkflowExecutor.result_executed_steps (run (Some "skip")) = ["a"; "b"] /\
  WorkflowExecutor.result_executed_steps (run (Some "retry")) = ["a"; "b"] /\
  WorkflowExecutor.result_executed_steps (run None) = ["a"; "b"] /\
  WorkflowExecutor.result_success (run (Some "abort")) = false /\
  WorkflowExecutor.result_success (run None) = false.
Proof. cbv zeta. repeat split; reflexivity. Qed.

(** ** Runs without results *)

Section EmptyRuns.

Import Types.

(** C10: a run that reaches its final check with no action result reports
    success and marks the task completed, in the agent loop and in the
    workflow runner alike: the check is [all] over an empty list.  This is
    what happens when the oracle's first decision is to stop, and when no
    workflow step has its condition satisfied. *)
Theorem empty_run_succeeds :
  (forall (World : Type) (env : AgentExecutor.Env World) (max_steps : Z)
          (fuel : nat) (goal : string) (initial_context : option Context)
          (w w' : World) (res : AgentExecutor.TaskResult) (task : Task),
     AgentExecutor.execute_task env max_steps fuel goal initial_context w
       = Some (res, task, w') ->
     AgentExecutor.result_error res = None ->
     AgentExecutor.result_action_results res = [] ->
     AgentExecutor.result_success res = true /\ status task = COMPLETED) /\
  (forall (World : Type) (env : WorkflowExecutor.Env World)
          (workflow : WorkflowDefinition) (goal : string)
          (initial_context : option Context) (w w' : World)
          (res : WorkflowExecutor.WorkflowResult) (task : Task),
     WorkflowExecutor.execute_workflow env workflow goal initial_context w
       = (res, task, w') ->
     WorkflowExecutor.result_error res = None ->
     WorkflowExecutor.result_action_results res = [] ->
     WorkflowExecutor.result_success res = true /\ status task = COMPLETED) /\
  (forall (World : Type) (env : AgentExecutor.Env World) (max_steps : Z)
          (goal : string) (initial_context : option Context) (w : World),
     (0 < max_steps)%Z ->
     (forall context tools last w0,
        should_continue
          (fst (AgentExecutor._decide_next_step env goal context tools last w0))
          = false) ->
     (forall task rs state w0, exists r w1,
        AgentExecutor.reflect env task rs state w0 = (inr r, w1)) ->
     exists res task w',
       AgentExecutor.execute_task env max_steps (Z.to_nat max_steps) goal
         initial_context w = Some (res, task, w') /\
       AgentExecutor.result_action_results res = [] /\
       AgentExecutor.result_step_count res = 1%Z /\
       AgentExecutor.result_success res = true /\ status task = COMPLETED) /\
  (forall (World : Type) (env : WorkflowExecutor.Env World)
          (workflow : WorkflowDefinition) (goal : string) (w : World),
     (forall step context, In step (steps workflow) ->
        WorkflowExecutor._evaluate_condition env (condition step) context = false) ->
     exists res task w',
       WorkflowExecutor.execute_workflow env workflow goal None w = (res, task, w') /\
       WorkflowExecutor.result_action_results res = [] /\
       WorkflowExecutor.result_executed_steps res = [] /\
       WorkflowExecutor.result_success res = true /\ status task = COMPLETED).
Proof.
  split; [| split; [| split]].
  - intros World env max_steps fuel goal ic w w' res task Hrun Herr Hnil.
    unfold AgentExecutor.execute_task in Hrun.
    destruct (AgentExecutor.new_task_id env w) as [id w0].
    destruct (AgentExecutor.run_loop env max_steps fuel goal _ w0)
      as [[[s1 | e s1] w1] |]; [| | discriminate Hrun].
    + destruct (AgentExecutor.reflect env _ _ _ w1) as [[e | r] w2].
      * injection Hrun as <- _ _. discriminate Herr.
      * injection Hrun as <- <- _. cbn in Hnil |- *. rewrite Hnil. now split.
    + injection Hrun as <- _ _. discriminate Herr.
  - intros World env workflow goal ic w w' res task Hrun Herr Hnil.
    unfold WorkflowExecutor.execute_workflow in Hrun.
    destruct (WorkflowExecutor.new_task_id env w) as [id w0].
    destruct (WorkflowExecutor.run_steps env workflow _ _ w0) as [[[e |] s1] w1].
    + injection Hrun as <- _ _. discriminate Herr.
    + injection Hrun as <- <- _. cbn in Hnil |- *. rewrite Hnil. now split.
  - intros World env max_steps goal ic w Hpos Hstop Hreflect.
    unfold AgentExecutor.execute_task.
    destruct (AgentExecutor.new_task_id env w) as [id w0].
    destruct (Z.to_nat max_steps) as [| fuel] eqn:Ef; [lia |].
    cbn [AgentExecutor.run_loop AgentExecutor.step_count].
    destruct (0 <? max_steps)%Z eqn:E; [| apply Z.ltb_ge in E; lia].
    cbn [negb]. unfold AgentExecutor.loop_body.
    cbn [AgentExecutor.context AgentExecutor.last_decision].
    match goal with
    | |- context [AgentExecutor._decide_next_step env goal ?c ?t ?l ?w1] =>
        specialize (Hstop c t l w1);
        destruct (AgentExecutor._decide_next_step env goal c t l w1) as [d w1']
    end.
    cbn [fst] in Hstop. rewrite Hstop. cbn [negb AgentExecutor.loop_action_results].
    match goal with
    | |- context [AgentExecutor.reflect env ?t ?rs ?st ?w1] =>
        destruct (Hreflect t rs st w1) as (r & w2 & ->)
    end.
    do 3 eexists. split; [reflexivity |]. cbn. now repeat split.
  - intros World env workflow goal w Hconds.
    unfold WorkflowExecutor.execute_workflow.
    destruct (WorkflowExecutor.new_task_id env w) as [id w0].
    rewrite run_steps_all_skipped.
    + do 3 eexists. split; [reflexivity |]. cbn. now repeat split.
    + apply List.Forall_forall. intros step Hin. now apply Hconds.
Qed.

(** C10, as stated, fails: a run can also end in the exception handler
    before any action has a result, and it then reports failure with
    status FAILED.  In the agent loop this happens
    when the first decision names an action and words its confidence: the
    message that announces the action cannot format it.  In the workflow
    runner it happens when the first step raises under the policy
    [abort]. *)
Theorem empty_run_can_fail :
  (exists (res : AgentExecutor.TaskResult) (task : Task) (w' : nat),
     AgentExecutor.execute_task AgentSamples.overconfident_env 50 50 "go" None 0
       = Some (res, task, w') /\
     AgentExecutor.result_action_results res = [] /\
     AgentExecutor.result_step_count res = 1%Z /\
     AgentExecutor.result_error res
       = Some "Unknown format code 'f' for object of type 'str'" /\
     AgentExecutor.result_success res = false /\ status task = FAILED) /\
  (exists (res : WorkflowExecutor.WorkflowResult) (task : Task) (w' : nat),
     WorkflowExecutor.execute_workflow WorkflowSamples.raising_env
       (WorkflowExecutor.two_steps (Some "abort")) "go" None 0 = (res, task, w') /\
     WorkflowExecutor.result_action_results res = [] /\
     WorkflowExecutor.result_executed_steps res = [] /\
     WorkflowExecutor.result_error res = Some "browser has been closed" /\
     WorkflowExecutor.result_success res = false /\ status task = FAILED).
Proof.
  split; do 3 eexists; (split; [vm_compute; reflexivity |]); now repeat split.
Qed.

End EmptyRuns.

Lemma empty_run_succeeds_witness :
  exists (res : AgentExecutor.TaskResult) (task : Types.Task) (w' : nat),
    AgentExecutor.execute_task AgentSamples.stopping_env 50 (Z.to_nat 50) "go" None 0
      = Some (res, task, w') /\
    AgentExecutor.result_action_results res = [] /\
    AgentExecutor.result_step_count res = 1%Z /\
    AgentExecutor.result_success res = true /\
    Types.status task = Types.COMPLETED.
Proof.
  apply (proj1 (proj2 (proj2 empty_run_succeeds)) nat AgentSamples.stopping_env
           50%Z "go" None 0).
  - lia.
  - intros context tools last w0. reflexivity.
  - intros task rs state w0. do 2 eexists. reflexivity.
Defined.

(** ** Plan parsing *)

Section PlannerFacts.

Import Planner.

Lemma bind_inr {A B : Type} (m : Py.result A) (k : A -> Py.result B) (b : B) :
  Py.bind m k = inr b -> exists a : A, m = inr a /\ k a = inr b.
Proof. destruct m as [e | a]; [discriminate | intros H; now exists a]. Qed.

Lemma validate_plan_data_is_plan (v p : Json.t) :
  _validate_plan_data v = inr p -> is_plan p.
Proof.
  unfold _validate_plan_data. destruct v as [| b | n | s | l | d]; try discriminate.
  intros H. apply bind_inr in H as (subtasks & _ & H).
  apply bind_inr in H as (validated & _ & H). injection H as <-.
  eexists _, validated. split; [reflexivity | apply dict_get_set_eq].
Qed.

Lemma fallback_plan_is_plan (description : string) :
  is_plan (fallback_plan description).
Proof. do 2 eexists. split; reflexivity. Qed.

Section AnyLib.

Variable lib : Lib.

Lemma extract_partial_json_is_plan (response : string) (p : Json.t) :
  _extract_partial_json lib response = Some p -> is_plan p.
Proof.
  unfold _extract_partial_json.
  destruct (re_search_group1 lib _ _ response) as [content |]; [| discriminate].
  destruct (parse_candidates lib _) as [| c cs]; [discriminate |].
  intros [= <-]. do 2 eexists. split; reflexivity.
Qed.

Lemma enhanced_regex_repair_is_plan (response : string) (p : Json.t) :
  enhanced_regex_repair lib response = inr p -> is_plan p.
Proof.
  unfold enhanced_regex_repair. intros H.
  apply bind_inr in H as (? & _ & H). apply bind_inr in H as (? & _ & H).
  apply bind_inr in H as (? & _ & H). exact (validate_plan_data_is_plan _ _ H).
Qed.

Lemma on_decode_error_is_plan (response msg : string) (lineno colno pos : nat) :
  exists p : Json.t,
    on_decode_error lib response msg lineno colno pos = inr p /\ is_plan p.
Proof.
  unfold on_decode_error.
  match goal with
  | |- context [match ?s1 with Some plan_data => Py.ret plan_data | None => _ end] =>
      assert (H1 : forall p, s1 = Some p -> is_plan p);
      [| destruct s1 as [p1 |]; [exists p1; split; [reflexivity | now apply H1] |]]
  end.
  { intros p. destruct (enhanced_regex_repair lib response) as [e | plan] eqn:E;
      [discriminate |].
    destruct (py_in "subtasks" plan) as [e | []]; try discriminate.
    intros [= <-]. exact (enhanced_regex_repair_is_plan _ _ E). }
  clear H1.
  match goal with
  | |- context [match ?s2 with Some partial_data => Py.ret partial_data | None => _ end] =>
      assert (H2 : forall p, s2 = Some p -> is_plan p);
      [| destruct s2 as [p2 |]; [exists p2; split; [reflexivity | now apply H2] |]]
  end.
  { intros p. destruct (_extract_partial_json lib response) as [partial |] eqn:E;
      [| discriminate].
    destruct (Json.truthy partial); [| discriminate].
    destruct (py_in "subtasks" partial) as [e | []]; try discriminate.
    intros [= <-]. exact (extract_partial_json_is_plan _ _ E). }
  clear H2.
  match goal with
  | |- context [match ?s3 with Some fixed_data => Py.ret fixed_data | None => _ end] =>
      assert (H3 : forall p, s3 = Some p -> is_plan p);
      [| destruct s3 as [p3 |]; [exists p3; split; [reflexivity | now apply H3] |]]
  end.
  { intros p.
    destruct (_fix_json_with_llm lib response msg lineno colno pos) as [fixed |];
      [| discriminate].
    destruct (Json.truthy fixed); [| discriminate].
    destruct (_validate_plan_data fixed) as [e | fixed'] eqn:E; [discriminate |].
    intros [= <-]. exact (validate_plan_data_is_plan _ _ E). }
  exists (fallback_plan default_notice). split; [reflexivity | apply fallback_plan_is_plan].
Qed.

(** C1 (amended): for every response of the oracle, and whatever the
    libraries and the repair oracle do, [_parse_plan_response] returns (it
    does not raise) a dictionary that binds [subtasks] to a list.  When the
    text does not decode and regex repair, partial extraction and the
    repair by the oracle all fail, the plan is the single-subtask fallback
    whose description is the fixed notice; the text of the error is part of
    the description only when the decoded document is rejected with a
    [ValueError]. *)
Theorem parse_plan_response_total (h : history) (response : string) :
  (exists p : Json.t,
     fst (_parse_plan_response lib h response) = inr p /\ is_plan p) /\
  (forall (msg : string) (lineno colno pos : nat),
     parse_body lib response = inl (Py.JSONDecodeError msg lineno colno pos) ->
     repairs_fail lib response msg lineno colno pos ->
     fst (_parse_plan_response lib h response) = inr (fallback_plan default_notice)) /\
  (forall msg : string,
     parse_body lib response = inl (Py.ValueError msg) ->
     fst (_parse_plan_response lib h response)
       = inr (fallback_plan ("解析规划失败: " +:+ msg))).
Proof.
  split; [| split].
  - unfold _parse_plan_response.
    destruct (parse_body lib response) as [e | plan] eqn:E.
    + destruct e; cbn [fst];
        try (eexists; split; [reflexivity | apply fallback_plan_is_plan]).
      apply on_decode_error_is_plan.
    + exists plan. split; [reflexivity |].
      unfold parse_body in E.
      apply bind_inr in E as (? & _ & E). apply bind_inr in E as (? & _ & E).
      apply bind_inr in E as (? & _ & E).
      exact (validate_plan_data_is_plan _ _ E).
  - intros msg lineno colno pos Hbody (Hr1 & Hr2 & Hr3).
    unfold _parse_plan_response. rewrite Hbody. cbn [fst].
    unfold on_decode_error. destruct Hr1 as [e ->]. rewrite Hr2.
    destruct Hr3 as [-> | (fixed & e' & -> & Hv)]; [reflexivity |].
    rewrite Hv. now destruct (Json.truthy fixed).
  - intros msg Hbody. unfold _parse_plan_response. now rewrite Hbody.
Qed.

End AnyLib.

(** C1, as stated, fails in its last part: on the text [oops], every
    repair failing, the description of the fallback plan is the fixed
    notice and the text of the decode error does not occur in it. *)
Lemma fallback_description_omits_error_text :
  parse_body plain_text_lib "oops"
    = inl (Py.JSONDecodeError "Expecting value" 1 1 0) /\
  repairs_fail plain_text_lib "oops" "Expecting value" 1 1 0 /\
  fst (_parse_plan_response plain_text_lib [] "oops")
    = inr (Json.JDict
             [("subtasks",
               Json.JList
                 [Json.JDict [("id", Json.JStr "subtask_1");
                              ("description", Json.JStr "解析规划失败，使用默认任务");
                              ("actions", Json.JList [])]])]) /\
  Str.contains "Expecting value" default_notice = false /\
  Str.contains
    (Py.str_of_exn (Py.JSONDecodeError "Expecting value" 1 1 0)) default_notice
    = false.
Proof.
  split; [reflexivity |]. split.
  - split; [eexists; reflexivity |]. split; [reflexivity |]. left. reflexivity.
  - split; [reflexivity |]. split; reflexivity.
Qed.

End PlannerFacts.

(** ** Self-consistency voting *)

Section SelfConsistencyFacts.

Import SelfConsistency.

Lemma iter_items (v : Json.t) : iterable v = true -> Json.iter v = inr (items v).
Proof. unfold items. destruct v; cbn; try discriminate; reflexivity. Qed.

Section FoldTools.

Context {A : Type} (f : A -> Json.t -> Py.result A) (R : A -> A -> Prop).
Hypothesis R_refl : forall a, R a a.
Hypothesis R_trans : forall a b c, R a b -> R b c -> R a c.
Hypothesis f_step :
  forall acc tool, hashable tool = true -> exists acc', f acc tool = inr acc' /\ R acc acc'.

Lemma fold_actions_ok (actions : list Json.t) :
  forall acc : A,
    forallb action_ok actions = true ->
    exists acc', fold_actions f acc actions = inr acc' /\ R acc acc'.
Proof.
  induction actions as [| action rest IH]; intros acc Hok.
  - exists acc. split; [reflexivity | apply R_refl].
  - cbn [forallb] in Hok. apply andb_true_iff in Hok as [Ha Hrest].
    destruct action as [| b | n | s | l | a]; cbn [fold_actions]; try (now apply IH).
    cbn [action_ok] in Ha.
    destruct (Json.dict_get "tool" a) as [tool |]; [| now apply IH].
    destruct (f_step acc tool Ha) as (acc1 & -> & H1). cbn [Py.bind].
    destruct (IH acc1 Hrest) as (acc2 & -> & H2).
    exists acc2. split; [reflexivity | eapply R_trans; eassumption].
Qed.

Lemma fold_subtasks_ok (subtasks : list Json.t) :
  forall acc : A,
    forallb subtask_ok subtasks = true ->
    exists acc', fold_subtasks f acc subtasks = inr acc' /\ R acc acc'.
Proof.
  induction subtasks as [| subtask rest IH]; intros acc Hok.
  - exists acc. split; [reflexivity | apply R_refl].
  - cbn [forallb] in Hok. apply andb_true_iff in Hok as [Hs Hrest].
    destruct subtask as [| b | n | s | l | sd]; try discriminate Hs.
    cbn [fold_subtasks]. cbn [subtask_ok] in Hs.
    destruct (Json.dict_get "actions" sd) as [actions |]; [| now apply IH].
    apply andb_true_iff in Hs as [Hiter Hacts].
    rewrite (iter_items _ Hiter). cbn [Py.bind].
    destruct (fold_actions_ok _ acc Hacts) as (acc1 & -> & H1). cbn [Py.bind].
    destruct (IH acc1 Hrest) as (acc2 & -> & H2).
    exists acc2. split; [reflexivity | eapply R_trans; eassumption].
Qed.

End FoldTools.

Lemma hash_key_hashable (tool : Json.t) :
  hashable tool = true -> exists k, hash_key tool = inr k.
Proof. destruct tool; cbn; try discriminate; eauto. Qed.

Lemma add_tool_step (acc : gset Key) (tool : Json.t) :
  hashable tool = true ->
  exists acc', add_tool acc tool = inr acc' /\ acc' <> ∅.
Proof.
  intros H. destruct (hash_key_hashable tool H) as [k Hk].
  unfold add_tool. rewrite Hk. cbn [Py.bind]. eexists. split; [reflexivity |].
  set_solver.
Qed.

Lemma fold_actions_add_tool (actions : list Json.t) :
  forall acc : gset Key,
    forallb action_ok actions = true ->
    exists acc',
      fold_actions add_tool acc actions = inr acc' /\
      (acc <> ∅ \/ existsb action_names_tool actions = true -> acc' <> ∅).
Proof.
  induction actions as [| action rest IH]; intros acc Hok.
  - exists acc. split; [reflexivity |]. intros [H | H]; [exact H | discriminate H].
  - cbn [forallb] in Hok. apply andb_true_iff in Hok as [Ha Hrest].
    assert (Hskip : action_names_tool action = false ->
              fold_actions add_tool acc (action :: rest) = fold_actions add_tool acc rest ->
              exists acc', fold_actions add_tool acc (action :: rest) = inr acc' /\
                (acc <> ∅ \/ existsb action_names_tool (action :: rest) = true -> acc' <> ∅)).
    { intros Hn Heq. rewrite Heq. destruct (IH acc Hrest) as (acc' & -> & H).
      exists acc'. split; [reflexivity |]. cbn [existsb]. rewrite Hn. exact H. }
    destruct action as [| b | n | s | l | a]; try (now apply Hskip).
    cbn [action_ok] in Ha. cbn [fold_actions].
    destruct (Json.dict_get "tool" a) as [tool |] eqn:Et.
    + destruct (add_tool_step acc tool Ha) as (acc1 & -> & H1). cbn [Py.bind].
      destruct (IH acc1 Hrest) as (acc2 & -> & H2).
      exists acc2. split; [reflexivity |]. intros _. apply H2. now left.
    + destruct (IH acc Hrest) as (acc' & -> & H).
      exists acc'. split; [reflexivity |].
      cbn [existsb action_names_tool]. unfold Json.dict_has. rewrite Et. exact H.
Qed.

Lemma fold_subtasks_add_tool (subtasks : list Json.t) :
  forall acc : gset Key,
    forallb subtask_ok subtasks = true ->
    exists acc',
      fold_subtasks add_tool acc subtasks = inr acc' /\
      (acc <> ∅ \/ existsb subtask_names_tool subtasks = true -> acc' <> ∅).
Proof.
  induction subtasks as [| subtask rest IH]; intros acc Hok.
  - exists acc. split; [reflexivity |]. intros [H | H]; [exact H | discriminate H].
  - cbn [forallb] in Hok. apply andb_true_iff in Hok as [Hs Hrest].
    destruct subtask as [| b | n | s | l | sd]; try discriminate Hs.
    cbn [fold_subtasks existsb subtask_names_tool]. cbn [subtask_ok] in Hs.
    destruct (Json.dict_get "actions" sd) as [actions |].
    + apply andb_true_iff in Hs as [Hiter Hacts].
      rewrite (iter_items _ Hiter). cbn [Py.bind].
      destruct (fold_actions_add_tool _ acc Hacts) as (acc1 & -> & H1). cbn [Py.bind].
      destruct (IH acc1 Hrest) as (acc2 & -> & H2).
      exists acc2. split; [reflexivity |]. intros H. apply H2.
      destruct H as [H | H]; [left; apply H1; now left |].
      apply orb_true_iff in H as [H | H]; [left; apply H1; now right | now right].
    + destruct (IH acc Hrest) as (acc' & -> & H).
      exists acc'. split; [reflexivity |]. cbn [orb]. exact H.
Qed.

(** The shape of a well-formed plan. *)
Lemma well_formed_plan_shape (data : Json.t) :
  well_formed_plan data = true ->
  exists d subtasks,
    data = Json.JDict d /\
    Json.dict_get "subtasks" d = Some (Json.JList subtasks) /\
    forallb subtask_ok subtasks = true.
Proof.
  unfold well_formed_plan. destruct data as [| | | | | d]; try discriminate.
  destruct (Json.dict_get "subtasks" d) as [[| | | | subtasks |] |] eqn:E;
    try discriminate.
  intros H. now exists d, subtasks.
Qed.

Lemma dict_get_some_nonempty {V} (k : string) (d : list (string * V)) (v : V) :
  Json.dict_get k d = Some v -> d <> [].
Proof. destruct d; [discriminate | discriminate]. Qed.

Lemma Qlen_pos (n : nat) : (0 < n)%nat -> (0 < Qlen n)%Q.
Proof. intros H. unfold Qlen, Qlt. cbn. lia. Qed.

Lemma similarity_self (data : Json.t) :
  well_formed_plan data = true ->
  names_a_tool data = true ->
  exists sim : Q, _calculate_similarity data data = inr sim /\ (sim == 1)%Q.
Proof.
  intros Hwf Hnames.
  destruct (well_formed_plan_shape data Hwf) as (d & subtasks & -> & Hget & Hok).
  unfold names_a_tool in Hnames. rewrite Hget in Hnames. cbn [items Json.iter Py.ret] in Hnames.
  unfold _calculate_similarity.
  assert (Htruthy : Json.truthy (Json.JDict d) = true).
  { cbn. destruct d; [discriminate Hget | reflexivity]. }
  rewrite Htruthy. cbn [negb orb get_subtasks]. rewrite Hget.
  cbn [Py.ret Py.bind len]. rewrite Nat.eqb_refl.
  unfold fold_tools. cbn [Json.iter Py.ret Py.bind].
  destruct (fold_subtasks_add_tool subtasks ∅ Hok) as (tools & -> & Hne).
  cbn [Py.bind].
  assert (Hnonempty : tools <> ∅) by (apply Hne; now right).
  rewrite (bool_decide_eq_false_2 _ Hnonempty). cbn [negb andb].
  assert (Hi : tools ∩ tools = tools) by apply (idemp_L (∩)).
  assert (Hu : tools ∪ tools = tools) by apply (idemp_L (∪)).
  rewrite Hi, Hu.
  assert (Hsize : (0 < size tools)%nat).
  { destruct (size tools) eqn:E; [| lia]. apply size_empty_iff in E.
    apply leibniz_equiv in E. contradiction. }
  destruct (0 <? size tools)%nat eqn:E; [| apply Nat.ltb_ge in E; lia].
  eexists. split; [reflexivity |].
  pose proof (Qlen_pos _ Hsize) as Hpos.
  assert (Hq : ~ (Qlen (size tools) == 0)%Q) by (intros Hz; rewrite Hz in Hpos; now apply Qlt_irrefl in Hpos).
  cbn [Qle_bool]. 
  match goal with |- ((if ?b then _ else _) == _)%Q => replace b with false by reflexivity end.
  field. exact Hq.
Qed.

Lemma data_of_well_formed (sr : SampleResult) (data : Json.t) :
  parsed_data sr = Some data -> well_formed_plan data = true ->
  data_of sr = Some data.
Proof.
  intros Hd Hwf. unfold data_of. rewrite Hd.
  destruct (well_formed_plan_shape data Hwf) as (d & subtasks & -> & Hget & _).
  cbn. destruct d; [discriminate Hget | reflexivity].
Qed.

Lemma quality_loop_ok (subtasks : list Json.t) :
  forall score : Q,
    forallb subtask_ok subtasks = true ->
    exists q, quality_loop score subtasks = inr q.
Proof.
  induction subtasks as [| subtask rest IH]; intros score Hok; [now eexists |].
  cbn [forallb] in Hok. apply andb_true_iff in Hok as [Hs Hrest].
  destruct subtask as [| b | n | s | l | sd]; try discriminate Hs.
  cbn [quality_loop py_in Py.ret Py.bind Json.is_dict]. now apply IH.
Qed.

Lemma quality_score_ok (sr : SampleResult) (data : Json.t) :
  parsed_data sr = Some data -> well_formed_plan data = true ->
  exists q, _calculate_quality_score sr = inr q.
Proof.
  intros Hd Hwf. unfold _calculate_quality_score.
  destruct (is_valid sr); cbn [negb]; [| now eexists].
  rewrite (data_of_well_formed sr data Hd Hwf).
  destruct (well_formed_plan_shape data Hwf) as (d & subtasks & -> & Hget & Hok).
  cbn [py_in Py.ret Py.bind getitem]. unfold Json.dict_has. rewrite Hget.
  cbn [Py.ret Py.bind]. destruct (Json.truthy (Json.JList subtasks)); cbn [negb];
    [| now eexists].
  cbn [Json.iter Py.ret Py.bind]. now apply quality_loop_ok.
Qed.

Section Identical.

Variable lib : Lib.
Variable cfg : Config.
Variable parse_fn : option (string -> Py.result Json.t).
Variable validate_fn : option (option Json.t -> Py.result bool).
Variable c : string.
Variable data : Json.t.

Hypothesis Hparse : parse_with lib parse_fn c = inr data.
Hypothesis Hwf : well_formed_plan data = true.
Hypothesis Hnames : names_a_tool data = true.

Lemma parse_all_repeat (valid : bool) (n : nat) :
  match validate_fn with
  | Some vf => vf (Some data) = inr valid
  | None => valid = true
  end ->
  parse_all lib (repeat c n) parse_fn validate_fn = inr (repeat (sample_of c data valid 0) n).
Proof.
  intros Hv. induction n as [| n IH]; [reflexivity |].
  cbn [repeat parse_all]. unfold _parse_sample. rewrite Hparse. cbn [is_valid].
  destruct validate_fn as [vf |].
  - cbn [parsed_data]. rewrite Hv. cbn [Py.bind Py.ret content parse_error quality_score].
    rewrite IH. cbn [Py.bind Py.ret]. unfold sample_of. now destruct valid.
  - cbn [Py.bind Py.ret]. rewrite IH. cbn [Py.bind Py.ret]. now subst valid.
Qed.

Lemma score_all_repeat (valid : bool) (n : nat) :
  exists q : Q,
    score_all (repeat (sample_of c data valid 0) n) = inr (repeat (sample_of c data valid q) n).
Proof.
  destruct (quality_score_ok (sample_of c data valid 0) data eq_refl Hwf) as [q Hq].
  exists q. induction n as [| n IH]; [reflexivity |].
  cbn [repeat score_all]. rewrite Hq. cbn [Py.bind]. rewrite IH. reflexivity.
Qed.

Lemma data_of_sample (valid : bool) (q : Q) : data_of (sample_of c data valid q) = Some data.
Proof. now apply data_of_well_formed. Qed.


Lemma max_by_repeat {A K : Type} (lt : K -> K -> bool) (key : A -> K) (x : A) (n : nat) :
  lt (key x) (key x) = false -> max_by lt key x (repeat x n) = x.
Proof.
  intros Hlt. induction n as [| n IH]; [reflexivity |].
  cbn [repeat max_by]. now rewrite Hlt.
Qed.

Lemma Qltb_irrefl (q : Q) : Qltb q q = false.
Proof.
  unfold Qltb. apply negb_false_iff, Qle_bool_iff, Qle_refl.
Qed.

(** *** Weighted vote *)

Lemma weighted_samples_repeat (valid : bool) (q : Q) (n : nat) :
  weighted_samples (repeat (sample_of c data valid q) n) = repeat (data, q) n.
Proof.
  induction n as [| n IH]; [reflexivity |].
  cbn [repeat weighted_samples]. rewrite data_of_sample, IH. reflexivity.
Qed.

Lemma weighted_vote_repeat (valid : bool) (q : Q) (n : nat) :
  exists details,
    _weighted_vote (repeat (sample_of c data valid q) (S n)) = inr (data, details).
Proof.
  unfold _weighted_vote. rewrite weighted_samples_repeat. cbn [repeat].
  rewrite (max_by_repeat Qltb snd (data, q) n (Qltb_irrefl q)).
  now eexists.
Qed.

(** *** Vote by quality and frequency *)

Lemma group_samples_repeat (valid : bool) (q : Q) (key : string) (n : nat) :
  json_dumps lib data = inr key ->
  forall group : list SampleResult,
    group_samples lib [(key, group)] (repeat (sample_of c data valid q) n)
      = inr [(key, (group ++ repeat (sample_of c data valid q) n)%list)].
Proof.
  intros Hkey. induction n as [| n IH]; intros group.
  - cbn [repeat group_samples Py.ret]. now rewrite app_nil_r.
  - cbn [repeat group_samples]. rewrite data_of_sample, Hkey. cbn [Py.bind].
    cbn [Json.dict_get Json.dict_set]. rewrite String.eqb_refl.
    rewrite IH. now rewrite <- app_assoc.
Qed.

Lemma quality_based_vote_repeat (valid : bool) (q : Q) (key : string) (n : nat) :
  json_dumps lib data = inr key ->
  exists details,
    _quality_based_vote lib (repeat (sample_of c data valid q) (S n)) = inr (data, details).
Proof.
  intros Hkey. unfold _quality_based_vote.
  change (repeat (sample_of c data valid q) (S n))
    with (sample_of c data valid q :: repeat (sample_of c data valid q) n) at 1.
  cbn [group_samples]. rewrite data_of_sample, Hkey. cbn [Py.bind].
  cbn [Json.dict_get Json.dict_set app].
  rewrite (group_samples_repeat valid q key n Hkey). cbn [Py.bind].
  cbn [omap list_omap snd app score_group]. rewrite data_of_sample.
  cbn [max_by]. now eexists.
Qed.

(** *** Majority vote *)

Lemma bump_positive {K : Type} `{EqDecision K} (k : K) (votes : list (K * Z)) :
  votes_positive votes -> votes_positive (bump k votes).
Proof.
  unfold votes_positive. induction 1 as [| [k' v] rest Hv Hrest IH]; cbn [bump].
  - constructor; [cbn; lia | constructor].
  - destruct (bool_decide (k = k')).
    + constructor; [cbn in *; lia | exact Hrest].
    + constructor; [exact Hv | exact IH].
Qed.

Lemma votes_get_positive {K : Type} `{EqDecision K} (k : K) (votes : list (K * Z)) (v : Z) :
  votes_positive votes -> votes_get k votes = Some v -> (0 < v)%Z.
Proof.
  unfold votes_positive. induction 1 as [| [k' v'] rest Hv _ IH]; cbn [votes_get];
    [discriminate |].
  destruct (bool_decide (k = k')); [intros [= <-]; exact Hv | exact IH].
Qed.

Lemma count_tool_step (votes : list (Key * Z)) (tool : Json.t) :
  hashable tool = true ->
  exists votes',
    count_tool votes tool = inr votes' /\
    (votes_positive votes -> votes_positive votes').
Proof.
  intros H. destruct (hash_key_hashable tool H) as [k Hk].
  unfold count_tool. rewrite Hk. cbn [Py.bind]. eexists. split; [reflexivity |].
  apply bump_positive.
Qed.

Lemma add_votes_step (votes : list (Key * Z)) (score : Z) (tool : Json.t) :
  votes_positive votes ->
  hashable tool = true ->
  exists score', add_votes votes score tool = inr score' /\ (score <= score')%Z.
Proof.
  intros Hpos H. destruct (hash_key_hashable tool H) as [k Hk].
  unfold add_votes. rewrite Hk. cbn [Py.bind].
  destruct (votes_get k votes) as [v |] eqn:E; eexists; (split; [reflexivity |]);
    [| lia].
  pose proof (votes_get_positive k votes v Hpos E). lia.
Qed.

Section Majority.

Variable d : Json.Dict.
Variable subtasks : list Json.t.
Hypothesis Hdata : data = Json.JDict d.
Hypothesis Hget : Json.dict_get "subtasks" d = Some (Json.JList subtasks).
Hypothesis Hok : forallb subtask_ok subtasks = true.

Lemma data_has_subtasks : py_in "subtasks" data = inr true.
Proof. rewrite Hdata. cbn [py_in]. unfold Json.dict_has. now rewrite Hget. Qed.

Lemma data_subtasks_item : getitem "subtasks" data = inr (Json.JList subtasks).
Proof. rewrite Hdata. cbn [getitem]. now rewrite Hget. Qed.

Lemma data_get_subtasks : get_subtasks data = inr (Json.JList subtasks).
Proof. rewrite Hdata. cbn [get_subtasks]. now rewrite Hget. Qed.

Lemma tally_repeat (valid : bool) (q : Q) (n : nat) :
  forall (votes : list (Key * Z)) (count : Z),
    votes_positive votes ->
    exists votes',
      tally votes [(length subtasks, count)] (repeat (sample_of c data valid q) n)
        = inr (votes', [(length subtasks, (count + Z.of_nat n)%Z)]) /\
      votes_positive votes'.
Proof.
  induction n as [| n IH]; intros votes count Hpos.
  - exists votes. split; [| exact Hpos]. cbn [repeat tally Py.ret].
    now rewrite Z.add_0_r.
  - cbn [repeat tally].
    rewrite data_of_sample, data_has_subtasks, data_subtasks_item, data_get_subtasks
      by assumption.
    cbn [Py.ret Py.bind]. unfold fold_tools. cbn [Json.iter Py.ret Py.bind].
    destruct (fold_subtasks_ok count_tool
                (fun v v' => votes_positive v -> votes_positive v')
                (fun _ H => H) (fun _ _ _ H1 H2 H => H2 (H1 H))
                count_tool_step subtasks votes Hok) as (votes1 & -> & H1).
    cbn [Py.bind len Py.ret bump]. rewrite bool_decide_eq_true_2 by reflexivity.
    destruct (IH votes1 (count + 1)%Z (H1 Hpos)) as (votes' & Ht & Hp).
    rewrite Ht. exists votes'. split; [| exact Hp].
    replace (count + Z.of_nat (S n))%Z with (count + 1 + Z.of_nat n)%Z by lia.
    reflexivity.
Qed.

Lemma tally_from_scratch (valid : bool) (q : Q) (n : nat) :
  exists votes',
    tally [] [] (repeat (sample_of c data valid q) (S n))
      = inr (votes', [(length subtasks, Z.of_nat (S n))]) /\
    votes_positive votes'.
Proof.
  cbn [repeat tally].
  rewrite data_of_sample, data_has_subtasks, data_subtasks_item, data_get_subtasks
    by assumption.
  cbn [Py.ret Py.bind]. unfold fold_tools. cbn [Json.iter Py.ret Py.bind].
  destruct (fold_subtasks_ok count_tool
              (fun v v' => votes_positive v -> votes_positive v')
              (fun _ H => H) (fun _ _ _ H1 H2 H => H2 (H1 H))
              count_tool_step subtasks [] Hok) as (votes1 & -> & H1).
  cbn [Py.bind len Py.ret bump].
  destruct (tally_repeat valid q n votes1 1%Z (H1 (List.Forall_nil _))) as (votes' & Ht & Hp).
  rewrite Ht. exists votes'. split; [| exact Hp].
  replace (Z.of_nat (S n)) with (1 + Z.of_nat n)%Z by lia.
  reflexivity.
Qed.

(** The score of the common sample in the second loop. *)
Lemma sample_score (votes : list (Key * Z)) :
  votes_positive votes ->
  exists score : Z,
    fold_tools (add_votes votes) 2%Z (Json.JList subtasks) = inr score /\
    (2 <= score)%Z.
Proof.
  intros Hpos. unfold fold_tools. cbn [Json.iter Py.ret Py.bind].
  apply (fold_subtasks_ok (add_votes votes) Z.le); [apply Z.le_refl | | | exact Hok].
  - intros a b c0. apply Z.le_trans.
  - intros acc tool. now apply add_votes_step.
Qed.

Lemma pick_best_step (valid : bool) (q : Q) (votes : list (Key * Z)) (score : Z)
    (best : option SampleResult) (best_score : Z) (rest : list SampleResult) :
  fold_tools (add_votes votes) 2%Z (Json.JList subtasks) = inr score ->
  pick_best votes (length subtasks) best best_score (sample_of c data valid q :: rest)
  = if (best_score <? score)%Z
    then pick_best votes (length subtasks) (Some (sample_of c data valid q)) score rest
    else pick_best votes (length subtasks) best best_score rest.
Proof.
  intros Hscore. cbn [pick_best].
  rewrite data_of_sample, data_has_subtasks, data_subtasks_item by assumption.
  cbn [negb Py.ret Py.bind len]. rewrite Nat.eqb_refl, Hscore. cbn [Py.bind].
  reflexivity.
Qed.

Lemma pick_best_settled (valid : bool) (q : Q) (votes : list (Key * Z)) (score : Z)
    (best : option SampleResult) (best_score : Z) (n : nat) :
  fold_tools (add_votes votes) 2%Z (Json.JList subtasks) = inr score ->
  (score <= best_score)%Z ->
  pick_best votes (length subtasks) best best_score (repeat (sample_of c data valid q) n)
  = inr (best, best_score).
Proof.
  intros Hscore Hle. induction n as [| n IH]; [reflexivity |].
  cbn [repeat]. rewrite (pick_best_step valid q votes score _ _ _ Hscore).
  destruct (best_score <? score)%Z eqn:E; [apply Z.ltb_lt in E; lia | exact IH].
Qed.

Lemma majority_vote_repeat (valid : bool) (q : Q) (n : nat) :
  exists details,
    _majority_vote (repeat (sample_of c data valid q) (S n)) = inr (data, details).
Proof.
  unfold _majority_vote.
  destruct (tally_from_scratch valid q n) as (votes & -> & Hpos). cbn [Py.bind].
  cbn [max_by fst].
  destruct (sample_score votes Hpos) as (score & Hscore & Hle).
  cbn [repeat]. rewrite (pick_best_step valid q votes score _ _ _ Hscore).
  destruct (0 <? score)%Z eqn:E; [| apply Z.ltb_ge in E; lia].
  rewrite (pick_best_settled valid q votes score _ _ n Hscore (Z.le_refl _)).
  cbn [Py.bind]. rewrite data_of_sample. now eexists.
Qed.

End Majority.

(** *** Clustering vote *)

Lemma Qltb_seven_tenths (sim : Q) : (sim == 1)%Q -> Qltb (7 # 10) sim = true.
Proof.
  intros H. unfold Qltb. apply negb_true_iff.
  destruct (Qle_bool sim (7 # 10)) eqn:E; [| reflexivity].
  apply Qle_bool_iff in E. rewrite H in E. unfold Qle in E. cbn in E. lia.
Qed.

Lemma gather_cluster_repeat (valid : bool) (q : Q) (n : nat) :
  forall (j : nat) (cluster : list SampleResult) (used : list nat),
    Forall (fun i => (i < j)%nat) used ->
    exists used' : list nat,
      gather_cluster data j (repeat (sample_of c data valid q) n) cluster used
        = inr ((cluster ++ repeat (sample_of c data valid q) n)%list, used') /\
      (forall i, i ∈ used -> i ∈ used') /\
      (forall i, (j <= i < j + n)%nat -> i ∈ used').
Proof.
  destruct (similarity_self data Hwf Hnames) as (sim & Hsim & Hone).
  induction n as [| n IH]; intros j cluster used Hbelow.
  - exists used. split; [cbn; now rewrite app_nil_r |].
    split; [now intros | intros i Hi; lia].
  - cbn [repeat gather_cluster].
    assert (Hnot : j ∉ used).
    { intros Hin. rewrite List.Forall_forall in Hbelow.
      apply list_elem_of_In in Hin. specialize (Hbelow j Hin). lia. }
    rewrite (bool_decide_eq_false_2 _ Hnot), data_of_sample, Hsim. cbn [Py.bind].
    rewrite (Qltb_seven_tenths sim Hone).
    destruct (IH (S j) (cluster ++ [sample_of c data valid q])%list (j :: used))
      as (used' & Hg & Hsub & Hin).
    { constructor; [lia |]. eapply List.Forall_impl; [| exact Hbelow]. cbn. intros; lia. }
    exists used'. split; [rewrite Hg; now rewrite <- app_assoc |]. split.
    + intros i Hi. apply Hsub. now apply list_elem_of_further.
    + intros i Hi. destruct (Nat.eq_dec i j) as [-> | Hne].
      * apply Hsub. apply list_elem_of_here.
      * apply Hin. lia.
Qed.

(** Samples whose indices are all used start no cluster. *)
Lemma build_clusters_used (rest : list SampleResult) :
  forall (i : nat) (used : list nat),
    (forall k, (i <= k < i + length rest)%nat -> k ∈ used) ->
    build_clusters i rest used = inr [].
Proof.
  induction rest as [| sample rest IH]; intros i used Hused; [reflexivity |].
  cbn [build_clusters].
  rewrite bool_decide_eq_true_2 by (apply Hused; cbn [length]; lia).
  apply IH. intros k Hk. apply Hused. cbn [length]. lia.
Qed.

Lemma clustering_vote_repeat (valid : bool) (q : Q) (n : nat) :
  exists details,
    _clustering_vote (repeat (sample_of c data valid q) (S n)) = inr (data, details).
Proof.
  unfold _clustering_vote. cbn [repeat build_clusters].
  rewrite bool_decide_eq_false_2 by (apply not_elem_of_nil).
  rewrite data_of_sample.
  destruct (gather_cluster_repeat valid q n 1 [sample_of c data valid q] [0])
    as (used' & -> & _ & Hin).
  { constructor; [lia | constructor]. }
  cbn [Py.bind].
  rewrite build_clusters_used
    by (intros k Hk; apply Hin; rewrite repeat_length in Hk; lia).
  cbn [Py.bind Py.ret max_by app].
  rewrite (max_by_repeat Qltb quality_score (sample_of c data valid q) n (Qltb_irrefl _)).
  cbn [parsed_data sample_of]. now eexists.
Qed.

(** *** Consistency of the winner with the samples *)

Lemma similarities_to_repeat (valid : bool) (q : Q) (sim : Q) (n : nat) :
  _calculate_similarity data data = inr sim ->
  similarities_to data (repeat (sample_of c data valid q) n) = inr (repeat sim n).
Proof.
  intros Hsim. induction n as [| n IH]; [reflexivity |].
  cbn [repeat similarities_to]. pose proof (data_of_sample valid q) as Hd.
  unfold data_of in Hd. cbn [parsed_data sample_of] in Hd |- *.
  destruct (Json.truthy data); [| discriminate Hd].
  rewrite Hsim. cbn [Py.bind]. rewrite IH. reflexivity.
Qed.

Lemma sum_repeat (x : Q) (n : nat) :
  forall a : Q, (fold_left Qplus (repeat x n) a == a + Qlen n * x)%Q.
Proof.
  induction n as [| n IH]; intros a.
  - cbn [repeat fold_left]. unfold Qlen. cbn. ring.
  - cbn [repeat fold_left]. rewrite IH. unfold Qlen.
    rewrite Nat2Z.inj_succ, <- Z.add_1_r, inject_Z_plus. ring.
Qed.

Lemma mean_repeat_one (x : Q) (n : nat) :
  (x == 1)%Q -> (mean (repeat x (S n)) == 1)%Q.
Proof.
  intros Hx. unfold mean. rewrite sum_repeat, repeat_length, Hx.
  assert (Hpos : (0 < Qlen (S n))%Q) by (apply Qlen_pos; lia).
  field. intros Hz. rewrite Hz in Hpos. now apply Qlt_irrefl in Hpos.
Qed.

Lemma consistency_repeat (valid : bool) (q : Q) (n : nat) :
  exists score : Q,
    _calculate_consistency_score (repeat (sample_of c data valid q) (S n)) data = inr score /\
    (score == 1)%Q.
Proof.
  destruct (similarity_self data Hwf Hnames) as (sim & Hsim & Hone).
  unfold _calculate_consistency_score.
  pose proof (data_of_sample valid q) as Hd. unfold data_of in Hd.
  cbn [parsed_data sample_of] in Hd.
  change (repeat (sample_of c data valid q) (S n))
    with (sample_of c data valid q :: repeat (sample_of c data valid q) n) at 1.
  cbv iota beta.
  destruct (Json.truthy data) eqn:Et; [| discriminate Hd]. cbn [negb].
  rewrite (similarities_to_repeat valid q sim (S n) Hsim). cbn [Py.bind repeat].
  eexists. split; [reflexivity |]. exact (mean_repeat_one sim n Hone).
Qed.

Lemma vote_repeat (valid : bool) (q : Q) (n : nat) :
  (voting_strategy cfg = QUALITY_BASED -> exists key, json_dumps lib data = inr key) ->
  exists details,
    _vote lib (voting_strategy cfg) (repeat (sample_of c data valid q) (S n))
      = inr (data, details).
Proof.
  intros Hdumps.
  destruct (well_formed_plan_shape data Hwf) as (d & subtasks & Hdata & Hget & Hok).
  destruct (voting_strategy cfg) eqn:Es; cbn [_vote].
  - exact (majority_vote_repeat d subtasks Hdata Hget Hok valid q n).
  - apply weighted_vote_repeat.
  - apply clustering_vote_repeat.
  - destruct (Hdumps eq_refl) as [key Hkey]. now apply (quality_based_vote_repeat valid q key).
Qed.

End Identical.

Lemma parse_all_all_fail (lib : Lib) (samples : list string)
    (parse_fn : option (string -> Py.result Json.t))
    (validate_fn : option (option Json.t -> Py.result bool)) :
  (forall s, In s samples -> exists e, parse_with lib parse_fn s = inl e) ->
  parse_all lib samples parse_fn validate_fn = inr [].
Proof.
  induction samples as [| s rest IH]; intros Hfail; [reflexivity |].
  cbn [parse_all]. unfold _parse_sample.
  destruct (Hfail s (or_introl eq_refl)) as [e ->]. cbn [is_valid].
  apply IH. intros s' Hin. apply Hfail. now right.
Qed.

(** C5 (amended): voting over identical samples, five in particular, that
    decode to one plan in the planner's shape naming at least one tool
    returns that plan with a consistency score equal to 1.0, under each of
    the four strategies; voting over samples that all fail to decode
    returns the empty plan with a consistency score of 0.0 and no valid
    sample. *)
Theorem voting_on_identical_samples
    (lib : Lib) (cfg : Config)
    (parse_fn : option (string -> Py.result Json.t))
    (validate_fn : option (option Json.t -> Py.result bool)) :
  (forall (c : string) (data : Json.t) (n : nat),
     (0 < n)%nat ->
     parse_with lib parse_fn c = inr data ->
     well_formed_plan data = true ->
     names_a_tool data = true ->
     match validate_fn with
     | Some vf => exists valid : bool, vf (Some data) = inr valid
     | None => True
     end ->
     (voting_strategy cfg = QUALITY_BASED ->
      exists key, json_dumps lib data = inr key) ->
     exists r : ConsistencyResult,
       vote_on_samples lib cfg (repeat c n) parse_fn validate_fn = inr r /\
       (consistency_score r == 1)%Q /\
       best_result r = data /\
       sample_count r = n /\
       valid_sample_count r = n) /\
  (forall samples : list string,
     (forall s, In s samples -> exists e, parse_with lib parse_fn s = inl e) ->
     vote_on_samples lib cfg samples parse_fn validate_fn
       = inr {| best_result := Json.JDict [];
                consistency_score := 0;
                sample_count := length samples;
                valid_sample_count := 0;
                voting_details := AllFailed |}).
Proof.
  split.
  - intros c data n Hn Hparse Hwf Hnames Hvalid Hdumps.
    destruct n as [| n]; [lia |].
    assert (Hv : exists valid : bool,
               match validate_fn with
               | Some vf => vf (Some data) = inr valid
               | None => valid = true
               end).
    { destruct validate_fn as [vf |]; [exact Hvalid | now exists true]. }
    destruct Hv as [valid Hv].
    unfold vote_on_samples.
    rewrite (parse_all_repeat lib parse_fn validate_fn c data Hparse valid (S n) Hv).
    cbn [Py.bind]. change (repeat (sample_of c data valid 0) (S n))
      with (sample_of c data valid 0 :: repeat (sample_of c data valid 0) n) at 1.
    cbv iota beta.
    destruct (score_all_repeat c data Hwf valid (S n)) as [q ->]. cbn [Py.bind].
    destruct (vote_repeat lib cfg c data Hwf Hnames valid q n Hdumps) as [details ->].
    cbn [Py.bind].
    destruct (consistency_repeat c data Hwf Hnames valid q n) as (score & -> & Hone).
    cbn [Py.bind Py.ret]. eexists. split; [reflexivity |].
    cbn [consistency_score best_result sample_count valid_sample_count].
    rewrite !repeat_length. now repeat split.
  - intros samples Hfail. unfold vote_on_samples.
    now rewrite (parse_all_all_fail lib samples parse_fn validate_fn Hfail).
Qed.

Lemma voting_on_identical_samples_witness :
  (exists r : ConsistencyResult,
     vote_on_samples sample_lib default_config (repeat navigate_plan_text 5) None None
       = inr r /\
     (consistency_score r == 1)%Q /\
     best_result r = navigate_plan /\
     sample_count r = 5 /\
     valid_sample_count r = 5) /\
  vote_on_samples sample_lib default_config (repeat "oops" 5) None None
    = inr {| best_result := Json.JDict [];
             consistency_score := 0;
             sample_count := 5;
             valid_sample_count := 0;
             voting_details := AllFailed |}.
Proof.
  destruct (voting_on_identical_samples sample_lib default_config None None)
    as [Hsame Hfail].
  split.
  - apply (Hsame navigate_plan_text navigate_plan 5);
      first [reflexivity | lia | exact I | discriminate].
  - apply (Hfail (repeat "oops" 5)).
    intros s Hin. apply repeat_spec in Hin. subst s. eexists. reflexivity.
Defined.

(** C5, as stated, fails in its first part: five identical samples that
    all decode to [{"subtasks": []}] are all valid and the winner is their
    common plan, yet the consistency score is 0.3, not 1.0. *)
Lemma identical_samples_without_tools_score_low :
  exists r : ConsistencyResult,
    vote_on_samples sample_lib default_config
      [empty_plan_text; empty_plan_text; empty_plan_text; empty_plan_text;
       empty_plan_text] None None = inr r /\
    best_result r = empty_plan /\
    sample_count r = 5 /\
    valid_sample_count r = 5 /\
    (consistency_score r == 3 # 10)%Q /\
    ~ (consistency_score r == 1)%Q.
Proof.
  eexists. split; [vm_compute; reflexivity |]. cbn.
  split; [reflexivity |]. split; [reflexivity |]. split; [reflexivity |].
  split; [reflexivity |]. intros H. vm_compute in H. discriminate H.
Qed.

End SelfConsistencyFacts.

(** ** Substrings *)

Section SubstringFacts.

Lemma index_empty (s : string) : String.index 0 "" s = Some 0.
Proof. destruct s; reflexivity. Qed.

Lemma contains_spec (needle hay : string) :
  Str.contains needle hay = true <->
  exists m, String.substring m (String.length needle) hay = needle.
Proof.
  unfold Str.contains. split.
  - destruct (String.index 0 needle hay) as [m |] eqn:E; [| discriminate].
    intros _. exists m. now apply String.index_correct1 in E.
  - intros [m Hm].
    destruct (String.index 0 needle hay) as [k |] eqn:E; [reflexivity |].
    destruct needle as [| c needle'].
    + now rewrite index_empty in E.
    + exfalso.
      apply (String.index_correct3 0 m _ _ E); [discriminate | lia | exact Hm].
Qed.

Lemma substring_app_tail (a b s : string) (m : nat) :
  String.substring m (String.length (a +:+ b)) s = a +:+ b ->
  String.substring (m + String.length a) (String.length b) s = b.
Proof.
  revert s. induction m as [| m IH]; intros s H.
  - cbn [Nat.add]. revert s H. induction a as [| c a IHa]; intros s H.
    + exact H.
    + destruct s as [| c' s]; cbn in H; [discriminate |].
      injection H as _ H. cbn [String.length]. cbn. apply IHa. exact H.
  - destruct s as [| c' s].
    + destruct a, b; cbn in H; try discriminate. reflexivity.
    + cbn in H |- *. apply IH. exact H.
Qed.

Lemma contains_app_tail (a b s : string) :
  Str.contains (a +:+ b) s = true -> Str.contains b s = true.
Proof.
  rewrite !contains_spec. intros [m Hm].
  exists (m + String.length a). now apply substring_app_tail.
Qed.

End SubstringFacts.

(** ** Error handler: classification and retry decisions *)

Section ClassifierFacts.

Import ErrorHandler Classifier.

Variable lower : string -> string.

(** X1.  The keyword [connection timeout], listed for network errors,
    never decides a classification: for an exception whose class name
    carries no marker, a message in which it occurs is classified as a
    timeout, because the table is searched in order and [timeout] is
    found first. *)
Theorem connection_timeout_is_timeout
    (error_type_name error_str : string) :
  unmarked error_type_name = true ->
  Str.contains "connection timeout" (lower error_str) = true ->
  classify_error lower error_type_name error_str None = TIMEOUT.
Proof.
  intros Hname Hmsg.
  unfold unmarked in Hname. apply negb_true_iff in Hname.
  repeat (apply orb_false_iff in Hname; destruct Hname as [Hname ?]).
  unfold classify_error.
  repeat match goal with H : Str.contains _ _ = false |- _ => rewrite H; clear H end.
  cbn [orb].
  assert (Ht : Str.contains "timeout" (lower error_str) = true).
  { apply (contains_app_tail "connection " "timeout"). exact Hmsg. }
  cbn [ERROR_KEYWORDS match_keywords any_keyword existsb].
  now rewrite Ht.
Qed.

(** X2.  [should_retry] answers yes exactly when the error type is one of
    the four retryable ones (timeout, element not found, network, tool
    execution) and the context records fewer retries than the budget. *)
Theorem should_retry_iff (ctx : ErrorContext) (max_retries : Z) :
  should_retry ctx max_retries = true <->
  ERROR_RECOVERY_MAP (error_type ctx) = RETRY /\ (retry_count ctx < max_retries)%Z.
Proof.
  unfold should_retry, get_recovery_strategy. cbn [ErrorHandler.should_retry].
  destruct (retry_count ctx >=? max_retries)%Z eqn:E.
  - split; [discriminate | intros [_ H]; lia].
  - assert (Hlt : (retry_count ctx <? max_retries)%Z = true) by lia.
    rewrite Hlt, andb_true_r.
    destruct (error_type ctx); cbn; split; intros H;
      try discriminate; try (destruct H; discriminate); try (split; [reflexivity | lia]);
      reflexivity.
Qed.

(** X3.  The action returned by [get_recovery_strategy] retries exactly
    when its strategy is RETRY; below the budget the strategy is the one
    the table gives for the error type; once the budget is used up a
    retryable error is skipped when it is a timeout or a network error and
    aborts the task otherwise, and nothing is retried. *)
Theorem recovery_strategy_budget (ctx : ErrorContext) (max_retries : Z) (delay : Q) :
  let ra := get_recovery_strategy ctx max_retries delay in
  (ErrorHandler.should_retry ra = true <-> strategy ra = RETRY) /\
  ((retry_count ctx < max_retries)%Z ->
     strategy ra = ERROR_RECOVERY_MAP (error_type ctx)) /\
  ((retry_count ctx >= max_retries)%Z ->
     ErrorHandler.should_retry ra = false /\
     strategy ra =
       match ERROR_RECOVERY_MAP (error_type ctx) with
       | RETRY => if is_timeout_or_network (error_type ctx) then SKIP else ABORT
       | s => s
       end).
Proof.
  cbv zeta. unfold get_recovery_strategy. cbn [ErrorHandler.should_retry strategy].
  destruct (retry_count ctx >=? max_retries)%Z eqn:E.
  - assert (Hlt : (retry_count ctx <? max_retries)%Z = false) by lia.
    rewrite Hlt, andb_false_r.
    split; [| split].
    + split; [discriminate |]. destruct (error_type ctx); cbn; discriminate.
    + intros H. lia.
    + intros _. split; [reflexivity |]. destruct (error_type ctx); reflexivity.
  - assert (Hlt : (retry_count ctx <? max_retries)%Z = true) by lia.
    rewrite Hlt, andb_true_r.
    split; [| split].
    + destruct (error_type ctx); cbn; split; intros H; try discriminate; reflexivity.
    + reflexivity.
    + intros H. lia.
Qed.

End ClassifierFacts.

Lemma connection_timeout_is_timeout_witness :
  Classifier.classify_error Str.ascii_lower "RuntimeError"
    "Connection timeout after 30s" None = ErrorHandler.TIMEOUT.
Proof. apply connection_timeout_is_timeout; reflexivity. Defined.

(** ** Tool registry: registration and execution *)

Section RegistryFacts.

Import ToolRegistry.

Lemma dict_has_get {V : Type} (k : string) (d : list (string * V)) :
  Json.dict_has k d = true <-> Json.dict_get k d <> None.
Proof.
  unfold Json.dict_has. destruct (Json.dict_get k d); split; congruence.
Qed.

Lemma dict_has_keys {V : Type} (k : string) (d : list (string * V)) :
  Json.dict_has k d = true <-> In k (Json.dict_keys d).
Proof.
  unfold Json.dict_has, Json.dict_keys.
  induction d as [| [k' v] d IH]; cbn.
  - split; [discriminate | tauto].
  - destruct (String.eqb k k') eqn:E.
    + apply String.eqb_eq in E. subst. tauto.
    + apply String.eqb_neq in E. rewrite IH. split; [tauto |].
      intros [H | H]; [congruence | exact H].
Qed.

Lemma dict_keys_set {V : Type} (k : string) (v : V) (d : list (string * V)) :
  Json.dict_keys (Json.dict_set k v d) =
  if Json.dict_has k d then Json.dict_keys d else (Json.dict_keys d ++ [k])%list.
Proof.
  unfold Json.dict_has, Json.dict_keys.
  induction d as [| [k' v'] d IH]; cbn; [reflexivity |].
  destruct (String.eqb k k') eqn:E; cbn.
  - apply String.eqb_eq in E. now subst.
  - rewrite IH. now destruct (Json.dict_get k d).
Qed.

Lemma register_multiple_snoc (tools : list BaseTool) (tool : BaseTool) (reg : Registry) :
  register_multiple (tools ++ [tool]) reg = register tool (register_multiple tools reg).
Proof. unfold register_multiple. now rewrite fold_left_app. Qed.

Lemma get_register (tool : BaseTool) (reg : Registry) (n : string) :
  get (register tool reg) n = if String.eqb (name tool) n then Some tool else get reg n.
Proof.
  unfold get, register. destruct (String.eqb (name tool) n) eqn:E.
  - apply String.eqb_eq in E. subst. apply dict_get_set_eq.
  - apply String.eqb_neq in E. apply dict_get_set_ne. congruence.
Qed.

(** X4.  Lookup after registration: [get] returns the tool registered last
    under the name, and what the registry held before when none of the
    new tools carries the name. *)
Theorem get_register_multiple (tools : list BaseTool) (reg : Registry) (n : string) :
  get (register_multiple tools reg) n =
  match List.find (fun tool => String.eqb (name tool) n) (rev tools) with
  | Some tool => Some tool
  | None => get reg n
  end.
Proof.
  induction tools as [| tool tools IH] using rev_ind; [reflexivity |].
  rewrite register_multiple_snoc, get_register, rev_app_distr. cbn [rev app List.find].
  destruct (String.eqb (name tool) n); [reflexivity | exact IH].
Qed.

Lemma NoDup_snoc {A : Type} (l : list A) (a : A) :
  List.NoDup l -> ~ In a l -> List.NoDup (l ++ [a]).
Proof.
  induction 1 as [| x l Hx Hl IH]; cbn; intros Ha.
  - constructor; [intros [] | constructor].
  - constructor.
    + rewrite in_app_iff. cbn. intros [H | [H | []]]; [now apply Hx |].
      subst. apply Ha. now left.
    + apply IH. intros H. apply Ha. now right.
Qed.

(** The registry invariant: names are unique and every tool sits under its
    own name. *)
Lemma register_invariant (tool : BaseTool) (reg : Registry) :
  List.NoDup (Json.dict_keys reg) /\ List.Forall (fun kv => fst kv = name (snd kv)) reg ->
  List.NoDup (Json.dict_keys (register tool reg)) /\
  List.Forall (fun kv => fst kv = name (snd kv)) (register tool reg).
Proof.
  intros [Hnd Hall]. unfold register. split.
  - rewrite dict_keys_set. destruct (Json.dict_has (name tool) reg) eqn:E; [exact Hnd |].
    apply NoDup_snoc; [exact Hnd |].
    intros Hk. apply dict_has_keys in Hk. congruence.
  - clear Hnd. induction reg as [| [k v] reg IH]; cbn.
    + constructor; [reflexivity | constructor].
    + inversion Hall as [| ? ? Hkv Hrest]; subst.
      destruct (String.eqb (name tool) k); constructor; auto.
Qed.

Lemma register_multiple_invariant (tools : list BaseTool) :
  List.NoDup (Json.dict_keys (register_multiple tools [])) /\
  List.Forall (fun kv => fst kv = name (snd kv)) (register_multiple tools []).
Proof.
  induction tools as [| tool tools IH] using rev_ind.
  - split; constructor.
  - rewrite register_multiple_snoc. now apply register_invariant.
Qed.

(** X5.  Whatever is registered, and in whatever order, the listing handed
    to the oracle names no tool twice, and it names exactly the tools that
    [has] reports. *)
Theorem tools_list_names_unique (tools : list BaseTool) :
  let reg := register_multiple tools [] in
  List.NoDup (List.map fst (get_tools_list reg)) /\
  forall n : string, In n (List.map fst (get_tools_list reg)) <-> has reg n = true.
Proof.
  cbv zeta. destruct (register_multiple_invariant tools) as [Hnd Hall].
  set (reg := register_multiple tools []) in *.
  assert (Hnames : List.map fst (get_tools_list reg) = Json.dict_keys reg).
  { unfold get_tools_list, Json.dict_values, Json.dict_keys.
    rewrite !List.map_map. cbn [fst].
    clearbody reg. clear Hnd.
    induction Hall as [| kv rest Hkv _ IH]; cbn; [reflexivity |].
    now rewrite IH, Hkv. }
  rewrite Hnames. split; [exact Hnd |].
  intros n. unfold has. symmetry. apply dict_has_keys.
Qed.

(** X6.  [execute] never raises, whatever the tool does.  For a registered
    tool: an exception of the validation or of the tool itself comes back
    as a failure carrying its text; arguments the tool rejects come back as
    [Invalid arguments]; otherwise the tool's own result is handed on
    untouched. *)
Theorem execute_never_raises
    (lower : string -> string) (reg : Registry) (n : string) (args : Json.Dict) :
  exists r : ToolResult,
    execute lower reg n args = inr r /\
    forall tool : BaseTool, get reg n = Some tool ->
      match validate_args tool args with
      | inl e => success r = false /\ error r = Some (Py.str_of_exn e)
      | inr false => success r = false /\ error r = Some "Invalid arguments"
      | inr true =>
          match tool_execute tool args with
          | inl e => success r = false /\ error r = Some (Py.str_of_exn e)
          | inr r' => r = r'
          end
      end.
Proof.
  unfold execute. destruct (get reg n) as [tool |] eqn:E.
  - destruct (validate_args tool args) as [e | ok] eqn:Ev; cbn [Py.bind].
    + eexists. split; [reflexivity |]. intros ? [= <-]. rewrite Ev. now split.
    + destruct ok; cbn [negb].
      * destruct (tool_execute tool args) as [e | r'] eqn:Et;
          eexists; (split; [reflexivity |]); intros ? [= <-]; rewrite Ev, Et;
          [now split | reflexivity].
      * eexists. split; [reflexivity |]. intros ? [= <-]. rewrite Ev. now split.
  - eexists. split; [reflexivity |]. intros ? [=].
Qed.

End RegistryFacts.

(** ** Protocol client: failed handshakes and disconnecting *)

Section ClientLifecycle.

Import MCPClient.

Context {World Stream Session : Type}.
Variable sdk : SDK World Stream Session.

(** X7.  When the handshake fails on a client that was not connected
    before, [connect] returns false but releases nothing: the cleanup sees
    the connected flag unset and returns at once, so the exit stack is
    never closed, the transport and the session stay on it, the session
    field stays set, and a later [disconnect] does nothing either. *)
Theorem failed_handshake_releases_nothing
    (c : Client Stream Session) (w w1 w2 w3 : World) (cmd : string)
    (params : StdioServerParameters) (r wr : Stream) (session : Session)
    (e : Py.Exn) :
  connected c = false ->
  server_command c = Some cmd ->
  cmd <> "" ->
  transport c = "stdio" ->
  _parse_server_command sdk cmd = inr params ->
  stdio_client sdk params w = (inr (r, wr), w1) ->
  client_session sdk r wr w1 = (inr session, w2) ->
  initialize sdk session w2 = (inl e, w3) ->
  exists c' : Client Stream Session,
    connect sdk c w = (false, c', w3) /\
    connected c' = false /\
    _session c' = Some session /\
    _exit_stack c' = RSession session :: RStdio r wr :: _exit_stack c /\
    disconnect sdk c' w3 = (c', w3).
Proof.
  intros Hconn Hcmd Hne Htr Hparse Hspawn Hsess Hinit.
  unfold connect. rewrite Hcmd.
  destruct (String.eqb cmd "") eqn:E; [apply String.eqb_eq in E; contradiction |].
  rewrite Htr, String.eqb_refl. cbn [negb]. rewrite Hparse, Hspawn, Hsess, Hinit.
  unfold _cleanup, set_session, set_streams, set_stdio_params. cbn [connected].
  rewrite Hconn. cbn [negb].
  eexists. split; [reflexivity |]. cbn [connected _session _exit_stack].
  repeat split; assumption.
Qed.

(** X8.  [disconnect] on a connected client closes the exit stack once,
    with the resources entered so far, and resets the client whether or
    not the closing raises; the discovered tools stay cached.  After it
    the client refuses calls, lists no tools and a second [disconnect]
    does nothing. *)
Theorem disconnect_resets
    (c : Client Stream Session) (w : World) (name : string)
    (arguments : option Json.Dict) :
  connected c = true ->
  exists c' : Client Stream Session,
    let w' := snd (aclose sdk (_exit_stack c) w) in
    disconnect sdk c w = (c', w') /\
    connected c' = false /\ _session c' = None /\
    _read_stream c' = None /\ _write_stream c' = None /\
    _exit_stack c' = [] /\
    _tools c' = _tools c /\
    disconnect sdk c' w' = (c', w') /\
    list_tools sdk c' w' = ([], c', w') /\
    call_tool sdk c' name arguments w'
      = (inl (Py.RuntimeError "MCP client not connected"), w').
Proof.
  intros Hconn. unfold disconnect, _cleanup. rewrite Hconn. cbn [negb].
  unfold set_connected. cbn [_exit_stack].
  destruct (aclose sdk (_exit_stack c) w) as [res w'] eqn:Ea. cbn [snd].
  eexists. split; [reflexivity |].
  cbn. repeat split; reflexivity.
Qed.

End ClientLifecycle.

Lemma failed_handshake_releases_nothing_witness :
  exists c' : MCPClient.Client nat nat,
    MCPClient.connect MCPServers.refusing_sdk MCPClient.fresh_client MCPClient.world0
      = (false, c',
         {| MCPClient.spawned := 1; MCPClient.handshakes := 0;
            MCPClient.discoveries := 0; MCPClient.closed := 0 |}) /\
    MCPClient.connected c' = false /\
    MCPClient._session c' = Some 1 /\
    MCPClient._exit_stack c' = [MCPClient.RSession 1; MCPClient.RStdio 1 1] /\
    MCPClient.disconnect MCPServers.refusing_sdk c'
      {| MCPClient.spawned := 1; MCPClient.handshakes := 0;
         MCPClient.discoveries := 0; MCPClient.closed := 0 |}
      = (c', {| MCPClient.spawned := 1; MCPClient.handshakes := 0;
                MCPClient.discoveries := 0; MCPClient.closed := 0 |}).
Proof.
  apply (failed_handshake_releases_nothing MCPServers.refusing_sdk
           MCPClient.fresh_client MCPClient.world0
           {| MCPClient.spawned := 1; MCPClient.handshakes := 0;
              MCPClient.discoveries := 0; MCPClient.closed := 0 |}
           {| MCPClient.spawned := 1; MCPClient.handshakes := 0;
              MCPClient.discoveries := 0; MCPClient.closed := 0 |}
           {| MCPClient.spawned := 1; MCPClient.handshakes := 0;
              MCPClient.discoveries := 0; MCPClient.closed := 0 |}
           "server" {| MCPClient.command := "server"; MCPClient.sp_args := [] |}
           1 1 1 (Py.RuntimeError "handshake refused"));
    first [reflexivity | discriminate].
Defined.

Lemma disconnect_resets_witness :
  exists c' : MCPClient.Client nat nat,
    let w' := snd (MCPClient.aclose MCPClient.counting_sdk
                     (MCPClient._exit_stack (snd (fst MCPClient.connected_once)))
                     (snd MCPClient.connected_once)) in
    MCPClient.disconnect MCPClient.counting_sdk
      (snd (fst MCPClient.connected_once)) (snd MCPClient.connected_once) = (c', w') /\
    MCPClient.connected c' = false /\ MCPClient._session c' = None /\
    MCPClient._read_stream c' = None /\ MCPClient._write_stream c' = None /\
    MCPClient._exit_stack c' = [] /\
    MCPClient._tools c' = MCPClient._tools (snd (fst MCPClient.connected_once)) /\
    MCPClient.disconnect MCPClient.counting_sdk c' w' = (c', w') /\
    MCPClient.list_tools MCPClient.counting_sdk c' w' = ([], c', w') /\
    MCPClient.call_tool MCPClient.counting_sdk c' "click" None w'
      = (inl (Py.RuntimeError "MCP client not connected"), w').
Proof.
  apply (disconnect_resets MCPClient.counting_sdk
           (snd (fst MCPClient.connected_once)) (snd MCPClient.connected_once)
           "click" None).
  reflexivity.
Defined.

(** ** The tool wrapper around the protocol client *)

Section MCPToolFacts.

Import MCPClient MCPTool.

Context {World Stream Session : Type}.
Variable sdk : SDK World Stream Session.
Variable py_str : Json.t -> string.
Variable tool_name : string.

(** On a connected client the arguments go to the server as given. *)
Lemma call_tool_sends
    (c : Client Stream Session) (session : Session) (args : Json.Dict) (w : World) :
  _session c = Some session -> connected c = true ->
  call_tool sdk c tool_name (Some args) w =
  match sdk_call_tool sdk session tool_name args w with
  | (inl e, w') => (Py.raise e, w')
  | (inr result, w') => (convert_result result, w')
  end.
Proof.
  intros Hs Hc. unfold call_tool. rewrite Hs, Hc. now destruct args.
Qed.

(** X9.  The wrapper reports every failure as a result with
    [success = False] instead of raising: a client that is not connected
    gives the error [MCP client not connected], a transport failure gives
    the text of its exception, and an error response of the tool gives the
    text of its first text item, whatever stands before and after that
    item, or [Unknown error] when it holds no text item. *)
Theorem mcp_tool_failures
    (c : Client Stream Session) (args : Json.Dict) (w : World) :
  ((_session c = None \/ connected c = false) ->
     execute sdk py_str tool_name c args w
       = (failed tool_name (Py.RuntimeError "MCP client not connected"), w)) /\
  (forall session : Session,
     _session c = Some session -> connected c = true ->
     (forall (e : Py.Exn) (w' : World),
        sdk_call_tool sdk session tool_name args w = (inl e, w') ->
        execute sdk py_str tool_name c args w = (failed tool_name e, w')) /\
     (forall (result : CallToolResult) (w' : World),
        sdk_call_tool sdk session tool_name args w = (inr result, w') ->
        isError result = true ->
        forallb sdk_typed (content result) = true ->
        (forall (before : list ContentItem) (text : string)
                (rest : list ContentItem),
           content result = (before ++ TextContent text :: rest)%list ->
           (forall t : string, ~ In (TextContent t) before) ->
           execute sdk py_str tool_name c args w
             = ([ ("success", Json.JBool false);
                  ("error", Json.JStr text);
                  ("message",
                    Json.JStr ("MCP工具 " +:+ tool_name +:+ " 执行失败: "
                                 +:+ py_str (Json.JStr text))) ], w')) /\
        ((forall t : string, ~ In (TextContent t) (content result)) ->
           execute sdk py_str tool_name c args w
             = ([ ("success", Json.JBool false);
                  ("error", Json.JStr "Unknown error");
                  ("message",
                    Json.JStr ("MCP工具 " +:+ tool_name +:+ " 执行失败: "
                                 +:+ py_str (Json.JStr "Unknown error"))) ], w')))).
Proof.
  split.
  - intros H. unfold execute.
    assert (Hc : call_tool sdk c tool_name (Some args) w
                 = (inl (Py.RuntimeError "MCP client not connected"), w)).
    { unfold call_tool. destruct H as [-> | ->]; [reflexivity |].
      now destruct (_session c). }
    now rewrite Hc.
  - intros session Hs Hc. split.
    + intros e w' Hcall. unfold execute. rewrite (call_tool_sends _ _ _ _ Hs Hc).
      now rewrite Hcall.
    + intros result w' Hcall Herr Htyped.
      unfold execute. rewrite (call_tool_sends _ _ _ _ Hs Hc), Hcall.
      destruct (convert_result_error result Herr Htyped) as (d & -> & H1 & H2 & H3).
      unfold read_result, get_or. rewrite H1. cbn [Json.truthy]. split.
      * intros before text rest Hcontent Hnone.
        now rewrite (H2 before text rest Hcontent Hnone).
      * intros Hnone. now rewrite (H3 Hnone).
Qed.

(** X10.  A response that is no error and whose first item is text comes
    back as a success whose data is that text, whatever else the response
    holds. *)
Theorem mcp_tool_text_result
    (c : Client Stream Session) (args : Json.Dict) (w w' : World)
    (session : Session) (text : string) (rest : list ContentItem)
    (structured : option Json.t) :
  _session c = Some session ->
  connected c = true ->
  sdk_call_tool sdk session tool_name args w
    = (inr {| content := TextContent text :: rest;
              structuredContent := structured; isError := false |}, w') ->
  execute sdk py_str tool_name c args w
    = (succeeded tool_name (Json.JStr text), w').
Proof.
  intros Hs Hc Hcall. unfold execute.
  rewrite (call_tool_sends _ _ _ _ Hs Hc), Hcall.
  unfold convert_result; cbn.
  destruct structured as [sc |]; [destruct (Json.truthy sc) |]; reflexivity.
Qed.

End MCPToolFacts.

Lemma mcp_tool_failures_witness :
  MCPTool.execute MCPServers.erring_sdk
    (fun v => match v with Json.JStr text => text | _ => "" end) "click"
    (snd (fst MCPClient.connected_once)) [] (snd MCPClient.connected_once)
  = ([ ("success", Json.JBool false);
       ("error", Json.JStr "element not found");
       ("message", Json.JStr "MCP工具 click 执行失败: element not found") ],
     snd MCPClient.connected_once).
Proof.
  destruct (mcp_tool_failures MCPServers.erring_sdk
              (fun v => match v with Json.JStr text => text | _ => "" end)
              "click" (snd (fst MCPClient.connected_once)) []
              (snd MCPClient.connected_once)) as [_ Hconnected].
  destruct (Hconnected 1 eq_refl eq_refl) as [_ Hresponse].
  destruct (Hresponse _ _ eq_refl eq_refl eq_refl) as [Htext _].
  apply (Htext [MCPClient.ImageContent "iVBORw0KGgo=" "image/png"]
           "element not found" [MCPClient.TextContent "retry later"]);
    [reflexivity |].
  intros t [Ht | []]. discriminate Ht.
Defined.

Lemma mcp_tool_text_result_witness :
  MCPTool.execute MCPServers.echo_sdk (fun _ => "") "read_file"
    (snd (fst (MCPClient.connect MCPServers.echo_sdk MCPClient.fresh_client
                 MCPClient.world0)))
    [] (snd (MCPClient.connect MCPServers.echo_sdk MCPClient.fresh_client
               MCPClient.world0))
  = (MCPTool.succeeded "read_file" (Json.JStr "read_file"),
     snd (MCPClient.connect MCPServers.echo_sdk MCPClient.fresh_client
            MCPClient.world0)).
Proof.
  apply (mcp_tool_text_result MCPServers.echo_sdk (fun _ => "") "read_file"
           _ [] _ _ 1 "read_file" [] None); reflexivity.
Defined.

(** ** Worker *)

Section WorkerFacts.

Import Types Worker.

Context {World : Type}.
Variable env : Env World.
Variable config : Config.

(** X11.  Normalising a tool name twice is the same as normalising it
    once, and the name that comes back is either the one given or a name
    the registry has. *)
Theorem normalize_tool_name_idempotent (tool_name normalized : Json.t) (w : World) :
  _normalize_tool_name env tool_name w = inr normalized ->
  _normalize_tool_name env normalized w = inr normalized /\
  (normalized = tool_name \/ registry_has env normalized w = inr true).
Proof.
  intros H. pose proof H as H0. unfold _normalize_tool_name in H.
  destruct (registry_has env tool_name w) as [e | present] eqn:Ehas;
    cbn [Py.bind] in H; [discriminate |].
  destruct present.
  - injection H as <-. split; [exact H0 | now left].
  - destruct (mapping_get tool_name) as [e | [mapped |]] eqn:Emap;
      cbn [Py.bind] in H; [discriminate | |].
    + destruct (String.eqb mapped "").
      * injection H as <-. split; [exact H0 | now left].
      * destruct (registry_has env (Json.JStr mapped) w) as [e | ok] eqn:Ehas2;
          cbn [Py.bind] in H; [discriminate |].
        destruct ok; injection H as <-.
        -- split; [| now right].
           unfold _normalize_tool_name. now rewrite Ehas2.
        -- split; [exact H0 | now left].
    + injection H as <-. split; [exact H0 | now left].
Qed.

(** X12.  An action of type CODE always fails with the error
    [Code execution not implemented yet]: the registry is not asked, the
    action is left as it was, and the world only sees the two readings of
    the clock. *)
Theorem code_actions_always_fail (action : Action) (w : World) :
  action_type action = CODE ->
  exists result : ActionResult,
    execute_action env action w
      = (result, action, snd (time env (snd (time env w)))) /\
    success result = false /\
    error result = Some "Code execution not implemented yet".
Proof.
  intros Htype. unfold execute_action. rewrite Htype.
  destruct (time env w) as [start_time w1]. cbn [snd].
  destruct (time env w1) as [end_time w2]. cbn [snd].
  eexists. split; [reflexivity |]. now split.
Qed.

Lemma execute_actions_from_length (actions : list Action) :
  forall (results : list ActionResult) (w : World),
    length (fst (fst (execute_actions_from env actions results w)))
      = length results + length actions /\
    length (snd (fst (execute_actions_from env actions results w)))
      = length actions.
Proof.
  induction actions as [| action rest IH]; intros results w; cbn.
  - split; [lia | reflexivity].
  - destruct (match dependencies action with
              | [] => false
              | _ :: _ => negb (dependencies_met action results)
              end).
    + specialize (IH (results ++ [unmet_dependencies env action])%list w).
      destruct (execute_actions_from env rest _ w) as [[rs as_] w'].
      cbn in *. rewrite length_app in IH. cbn in IH. lia.
    + destruct (execute_action env action w) as [[result action'] w1].
      specialize (IH (results ++ [result])%list w1).
      destruct (execute_actions_from env rest _ w1) as [[rs as_] w'].
      cbn in *. rewrite length_app in IH. cbn in IH. lia.
Qed.

Lemma execute_actions_from_prefix (actions : list Action) :
  forall (results : list ActionResult) (w : World),
    exists more : list ActionResult,
      fst (fst (execute_actions_from env actions results w)) = (results ++ more)%list.
Proof.
  induction actions as [| action rest IH]; intros results w; cbn.
  - exists []. now rewrite app_nil_r.
  - destruct (match dependencies action with
              | [] => false
              | _ :: _ => negb (dependencies_met action results)
              end).
    + destruct (IH (results ++ [unmet_dependencies env action])%list w) as [more Hm].
      destruct (execute_actions_from env rest _ w) as [[rs as_] w'].
      cbn in *. exists (unmet_dependencies env action :: more).
      now rewrite Hm, <- app_assoc.
    + destruct (execute_action env action w) as [[result action'] w1].
      destruct (IH (results ++ [result])%list w1) as [more Hm].
      destruct (execute_actions_from env rest _ w1) as [[rs as_] w'].
      cbn in *. exists (result :: more). now rewrite Hm, <- app_assoc.
Qed.

(** X13.  [execute_actions] returns exactly one result for every action,
    also for the actions it does not run; and an action that names
    dependencies while no earlier action has succeeded is not run: its
    result is the failure [Unmet dependencies]. *)
Theorem execute_actions_one_result_each (actions : list Action) (w : World) :
  length (fst (fst (execute_actions env actions w))) = length actions /\
  (forall (action : Action) (rest : list Action),
     actions = action :: rest ->
     dependencies action <> [] ->
     exists more : list ActionResult,
       fst (fst (execute_actions env actions w))
         = unmet_dependencies env action :: more).
Proof.
  split.
  - unfold execute_actions.
    now destruct (execute_actions_from_length actions [] w) as [-> _].
  - intros action rest -> Hdeps. unfold execute_actions. cbn.
    destruct (dependencies action) as [| dep deps] eqn:Ed; [contradiction |].
    unfold dependencies_met. rewrite Ed. cbn.
    destruct (execute_actions_from_prefix rest [unmet_dependencies env action] w)
      as [more Hm].
    destruct (execute_actions_from env rest _ w) as [[rs as_] w'].
    cbn in *. now exists more.
Qed.

(** One attempt, spelled out. *)
Lemma attempt_once_eq (s : RetryState) (w : World) :
  attempt_once env s w =
  let '(result, action', w') := execute_action env (action s) w in
  if success result then
    (Returned result {| action := action'; last_result := Some result;
                        last_error := None;
                        error_history := error_history s |}, w')
  else
    (Fell {| action := action'; last_result := Some result;
             last_error := Some (Py.OtherException (error_msg_of result));
             error_history := error_history s |}, w').
Proof. reflexivity. Qed.

Lemma range_pos (n : Z) :
  (1 <= n)%Z -> range n = 0%Z :: List.map Z.of_nat (List.seq 1 (Z.to_nat n - 1)).
Proof.
  intros Hn. unfold range.
  destruct (Z.to_nat n) as [| m] eqn:E; [lia |].
  cbn. now rewrite Nat.sub_0_r.
Qed.

Section Observed.

(** An observation of the world that only a call to the registry may
    change, and then only along [step]. *)
Context {A : Type}.
Variable obs : World -> A.
Variable step : A -> A -> Prop.
Hypothesis obs_execute :
  forall name args w,
    obs (snd (registry_execute env name args w)) = obs w \/
    step (obs w) (obs (snd (registry_execute env name args w))).
Hypothesis obs_time : forall w, obs (snd (time env w)) = obs w.
Hypothesis obs_find :
  forall find_element description element_type w,
    element_finder env = Some find_element ->
    obs (snd (find_element description element_type w)) = obs w.

Lemma execute_gui_action_observed (a : Action) (w : World) :
  obs (snd (_execute_gui_action env a w)) = obs w \/
  step (obs w) (obs (snd (_execute_gui_action env a w))).
Proof.
  unfold _execute_gui_action.
  destruct (_normalize_tool_name env (tool a) w) as [e | normalized]; cbn [snd];
    [now left |].
  assert (Hrun : forall a' w', obs w' = obs w ->
            let out := (let '(r, w0) := registry_execute env (tool a') (args a') w' in
                        (r, a', w0)) in
            obs (snd out) = obs w \/ step (obs w) (obs (snd out))).
  { intros a' w' Hw'. cbv zeta.
    pose proof (obs_execute (tool a') (args a') w') as H.
    destruct (registry_execute env (tool a') (args a') w') as [r w0]. cbn [snd] in *.
    rewrite Hw' in H. exact H. }
  cbv zeta in Hrun.
  destruct (needs_target (tool (set_tool a normalized))); [| now apply Hrun].
  destruct (has_target (args (set_tool a normalized))) as [e | []];
    cbn [snd]; [now left | now apply Hrun |].
  destruct (element_finder env) as [find_element |] eqn:Ef; [| now apply Hrun].
  match goal with
  | |- context [find_element ?d ?t w] =>
      pose proof (obs_find find_element d t w eq_refl) as Hfind;
      destruct (find_element d t w) as [[e | [selector |]] w1]
  end; cbn [snd] in *.
  - now apply Hrun.
  - destruct (String.eqb selector ""); cbn [snd]; [now left | now apply Hrun].
  - now left.
Qed.

Lemma execute_action_observed (a : Action) (w : World) :
  obs (snd (execute_action env a w)) = obs w \/
  step (obs w) (obs (snd (execute_action env a w))).
Proof.
  unfold execute_action.
  pose proof (obs_time w) as H1.
  destruct (time env w) as [start_time w1]. cbn [snd] in H1.
  destruct (action_type a).
  - pose proof (execute_gui_action_observed a w1) as H.
    destruct (_execute_gui_action env a w1) as [[outcome a'] w0]. cbn [snd] in H.
    pose proof (obs_time w0) as H2.
    destruct (time env w0) as [t w2]. cbn [snd] in H2.
    destruct outcome; cbn [snd]; rewrite H2, <- H1; exact H.
  - pose proof (obs_time w1) as H2.
    destruct (time env w1) as [t w2]. cbn [snd] in *. left.
    unfold Py.ret. cbn [snd]. now rewrite H2, H1.
  - unfold _execute_mcp_action.
    pose proof (obs_execute (tool a) (args a) w1) as H.
    destruct (registry_execute env (tool a) (args a) w1) as [outcome w0].
    cbn [snd] in H.
    pose proof (obs_time w0) as H2.
    destruct (time env w0) as [t w2]. cbn [snd] in H2.
    destruct outcome; cbn [snd]; rewrite H2, <- H1; exact H.
Qed.

End Observed.

Section Calls.

(** A count of the calls that have reached the registry, which the other
    operations of the environment leave alone. *)
Variable calls : World -> nat.
Hypothesis calls_execute :
  forall name args w, calls (snd (registry_execute env name args w)) <= S (calls w).
Hypothesis calls_time : forall w, calls (snd (time env w)) = calls w.
Hypothesis calls_sleep : forall d w, calls (sleep env d w) = calls w.
Hypothesis calls_find :
  forall find_element description element_type w,
    element_finder env = Some find_element ->
    calls (snd (find_element description element_type w)) = calls w.

Lemma execute_action_calls (a : Action) (w : World) :
  calls (snd (execute_action env a w)) <= S (calls w).
Proof.
  destruct (execute_action_observed calls (fun x y => y <= S x)
              (fun name args w => or_intror (calls_execute name args w))
              calls_time calls_find a w) as [H | H]; lia.
Qed.

Lemma attempt_once_calls (s : RetryState) (w : World) :
  calls (snd (attempt_once env s w)) <= S (calls w).
Proof.
  rewrite attempt_once_eq.
  pose proof (execute_action_calls (action s) w) as H.
  destruct (execute_action env (action s) w) as [[result a'] w'].
  cbn [snd] in H. now destruct (success result).
Qed.

Lemma retry_loop_calls (attempts : list Z) (n : Z) (d : Q) :
  forall (s : RetryState) (w : World),
    calls (snd (retry_loop env config attempts n d s w)) <= calls w + length attempts.
Proof.
  induction attempts as [| attempt rest IH]; intros s w; cbn [retry_loop length snd].
  - lia.
  - assert (Hcont : forall s' w', calls w' = calls w ->
              calls (snd match attempt_once env s' w' with
                         | (Returned result s0, w0) => (Returned result s0, w0)
                         | (Fell s0, w0) => retry_loop env config rest n d s0 w0
                         | (Raised e s0, w0) => (Raised e s0, w0)
                         end) <= calls w + S (length rest)).
    { intros s' w' Hw'. pose proof (attempt_once_calls s' w') as H.
      destruct (attempt_once env s' w') as [[result s0 | s0 | e s0] w0];
        cbn [snd] in *.
      - lia.
      - specialize (IH s0 w0). lia.
      - lia. }
    destruct (attempt >? 0)%Z; [| now apply Hcont].
    destruct (last_error s) as [e |]; [| apply Hcont, calls_sleep].
    destruct (Classifier.create_error_context _ _ _ _ _ _ _) as [error_context history].
    destruct (negb _); cbn [snd]; [lia |].
    destruct (ErrorHandler.get_retry_delay _ _ _) as [e' | actual_delay];
      cbn [snd]; [lia |].
    apply Hcont, calls_sleep.
Qed.

(** X14.  [execute_with_retry] sends at most [max_retries] calls to the
    registry, where a bound of [None] or 0 stands for the worker's own
    bound; with a bound that is negative it sends none. *)
Theorem execute_with_retry_bounded
    (a : Action) (max_retries : option Z) (retry_delay : option Q)
    (history : list ErrorHandler.ErrorContext) (w : World) :
  let bound :=
    match max_retries with
    | Some n => if (n =? 0)%Z then Worker.max_retries config else n
    | None => Worker.max_retries config
    end in
  calls (snd (execute_with_retry env config a max_retries retry_delay history w))
    <= calls w + Z.to_nat bound.
Proof.
  cbv zeta. unfold execute_with_retry.
  match goal with
  | |- context [retry_loop env config (range ?n) ?n ?d ?s w] =>
      pose proof (retry_loop_calls (range n) n d s w) as H;
      destruct (retry_loop env config (range n) n d s w)
        as [[result s' | s' | e s'] w'];
      unfold range in H; rewrite length_map, length_seq in H
  end; cbn [snd] in *.
  - exact H.
  - now destruct (last_result s').
  - exact H.
Qed.

End Calls.

Section Backoff.

(** The delays slept so far, which only [sleep] extends, and a class of
    actions every attempt at which fails with an error the handler
    classes as retryable. *)
Variable slept_of : World -> list Q.
Hypothesis slept_execute :
  forall name args w, slept_of (snd (registry_execute env name args w)) = slept_of w.
Hypothesis slept_time : forall w, slept_of (snd (time env w)) = slept_of w.
Hypothesis slept_sleep : forall d w, slept_of (sleep env d w) = (slept_of w ++ [d])%list.
Hypothesis slept_find :
  forall find_element description element_type w,
    element_finder env = Some find_element ->
    slept_of (snd (find_element description element_type w)) = slept_of w.

Variable flaky : Action -> Prop.
Hypothesis flaky_fails :
  forall a w, flaky a ->
    let '(result, a', _) := execute_action env a w in
    success result = false /\
    ErrorHandler.ERROR_RECOVERY_MAP
      (Classifier.classify_error (lower env) "Exception" (error_msg_of result) None)
      = ErrorHandler.RETRY /\
    flaky a'.

Lemma execute_action_slept (a : Action) (w : World) :
  slept_of (snd (execute_action env a w)) = slept_of w.
Proof.
  destruct (execute_action_observed slept_of (fun _ _ => False)
              (fun name args w => or_introl (slept_execute name args w))
              slept_time slept_find a w) as [H | []].
  exact H.
Qed.

Lemma attempt_once_flaky (s : RetryState) (w : World) :
  flaky (action s) ->
  exists s' w',
    attempt_once env s w = (Fell s', w') /\
    failed_retryably env flaky s' /\
    slept_of w' = slept_of w.
Proof.
  intros Hflaky. rewrite attempt_once_eq.
  pose proof (flaky_fails (action s) w Hflaky) as H.
  pose proof (execute_action_slept (action s) w) as Hs.
  destruct (execute_action env (action s) w) as [[result a'] w'].
  destruct H as (Hfail & Hclass & Hflaky'). rewrite Hfail.
  eexists _, _. split; [reflexivity |]. cbn [snd] in Hs.
  split; [| exact Hs]. split; [exact Hflaky' |].
  now exists (error_msg_of result).
Qed.

(** The delay computed before the attempt that follows [j] failed ones,
    while [2 ** j] still converts to a float. *)
Lemma get_retry_delay_after
    (error_context : ErrorHandler.ErrorContext) (d : Q) (j : nat) :
  ErrorHandler.retry_count error_context = Z.of_nat j ->
  (use_exponential_backoff config = true -> j < 1024) ->
  ErrorHandler.get_retry_delay error_context d (use_exponential_backoff config)
    = inr (delay_after config d j).
Proof.
  intros Hcount Hj. unfold ErrorHandler.get_retry_delay, delay_after.
  destruct (use_exponential_backoff config); cbn [negb]; [| reflexivity].
  rewrite Hcount. unfold Py.float_pow2.
  destruct (Z.ltb_spec (Z.of_nat j) 0); [lia |].
  specialize (Hj eq_refl).
  destruct (Z.leb_spec 1024 (Z.of_nat j)); [lia | reflexivity].
Qed.

(** [retry_delay or self.retry_delay] keeps a delay that is positive. *)
Lemma positive_delay_kept (d : Q) : (0 < d)%Q -> Qeq_bool d 0 = false.
Proof.
  intros Hd. destruct (Qeq_bool d 0) eqn:E; [| reflexivity].
  apply Qeq_bool_iff in E. rewrite E in Hd. now apply Qlt_irrefl in Hd.
Qed.

(** The passes number [k], ..., [k + m - 1] of the loop, all of which
    fail: each sleeps once and then tries again, and the loop goes on with
    the passes that are left. *)
Lemma retry_loop_sleeps (n : Z) (d : Q) (rest : list Z) (m : nat) :
  forall (k : nat) (s : RetryState) (w : World),
    1 <= k -> (Z.of_nat (k + m) <= n)%Z ->
    (use_exponential_backoff config = true -> k + m <= 1025) ->
    failed_retryably env flaky s ->
    exists (s' : RetryState) (w' : World),
      retry_loop env config (List.map Z.of_nat (List.seq k m) ++ rest)%list n d s w
        = retry_loop env config rest n d s' w' /\
      failed_retryably env flaky s' /\
      slept_of w'
        = (slept_of w ++ List.map (delay_after config d) (List.seq (k - 1) m))%list.
Proof.
  induction m as [| m IH]; intros k s w Hk Hn Hcap Hs;
    cbn [List.seq List.map app].
  - exists s, w. rewrite app_nil_r. split; [reflexivity |]. split; [exact Hs | reflexivity].
  - cbn [retry_loop].
    assert (Hgt : (Z.of_nat k >? 0)%Z = true) by lia. rewrite Hgt.
    pose proof Hs as (Hflaky & msg & Herr & Hclass). rewrite Herr.
    unfold Classifier.create_error_context, ErrorHandler.create_error_context.
    cbn [Classifier.type_name Py.str_of_exn].
    unfold ErrorHandler.get_recovery_strategy.
    cbn [ErrorHandler.error_type ErrorHandler.retry_count ErrorHandler.should_retry].
    rewrite Hclass.
    assert (Hge : (Z.of_nat k - 1 >=? n)%Z = false) by lia.
    assert (Hlt : (Z.of_nat k - 1 <? n)%Z = true) by lia.
    rewrite Hge, Hlt. cbn [ErrorHandler.strategy_eqb andb negb].
    rewrite (get_retry_delay_after _ d (k - 1));
      [| cbn [ErrorHandler.retry_count]; lia
       | intros Hb; specialize (Hcap Hb); lia].
    match goal with
    | |- context [attempt_once env ?s1 ?w1] =>
        destruct (attempt_once_flaky s1 w1 Hflaky) as (s1' & w1' & -> & Hs1 & Hw1)
    end.
    destruct (IH (S k) s1' w1') as (s' & w' & Hloop & Hs' & Hw');
      [lia | lia | intros Hb; specialize (Hcap Hb); lia | exact Hs1 |].
    exists s', w'. split; [exact Hloop |]. split; [exact Hs' |].
    rewrite Hw', Hw1, slept_sleep, <- app_assoc. cbn [app].
    now replace (S k - 1) with (S (k - 1)) by lia.
Qed.

(** X16.  When every attempt fails with an error the handler classes as
    retryable, the worker returns after having slept [max_retries - 1]
    times, once before each attempt but the first: with exponential
    backoff for [d], [2 d], [4 d], ..., each capped at 60, and for [d]
    every time without it, for a delay [d] above 0.  With exponential
    backoff this holds for up to 1025 attempts, as long as the power of
    two converts to a float. *)
Theorem persistent_failures_back_off
    (a : Action) (n : Z) (d : Q)
    (history : list ErrorHandler.ErrorContext) (w : World) :
  flaky a ->
  (1 <= n)%Z ->
  (0 < d)%Q ->
  (use_exponential_backoff config = true -> (n <= 1025)%Z) ->
  (exists result : ActionResult,
     fst (fst (execute_with_retry env config a (Some n) (Some d) history w))
       = inr result) /\
  slept_of (snd (execute_with_retry env config a (Some n) (Some d) history w))
    = (slept_of w ++ List.map (delay_after config d) (List.seq 0 (Z.to_nat n - 1)))%list.
Proof.
  intros Hflaky Hn Hd Hcap. unfold execute_with_retry.
  assert (Hz : (n =? 0)%Z = false) by lia.
  rewrite Hz, (positive_delay_kept d Hd).
  rewrite (range_pos n Hn). cbn [retry_loop]. cbn [Z.gtb Z.compare].
  match goal with
  | |- context [attempt_once env ?s1 ?w1] =>
      destruct (attempt_once_flaky s1 w1 Hflaky) as (s1' & w1' & -> & Hs1 & Hw1)
  end.
  destruct (retry_loop_sleeps n d [] (Z.to_nat n - 1) 1 s1' w1' (le_n 1))
    as (s' & w' & Hloop & _ & Hw');
    [lia | intros Hb; specialize (Hcap Hb); lia | exact Hs1 |].
  rewrite app_nil_r in Hloop. rewrite Hloop. cbn [retry_loop].
  cbn [Nat.sub] in Hw'. rewrite Hw1 in Hw'.
  destruct (last_result s'); cbn [fst snd]; (split; [eauto | exact Hw']).
Qed.

(** X30.  With exponential backoff and a delay above 0, a worker asked
    for 1026 attempts or more, every one of which fails with an error the
    handler classes as retryable, does not return a result: after 1025 attempts and 1024
    sleeps the delay before the next attempt cannot be computed, and the
    [OverflowError] of [get_retry_delay] leaves [execute_with_retry]. *)
Theorem long_backoff_overflows
    (a : Action) (n : Z) (d : Q)
    (history : list ErrorHandler.ErrorContext) (w : World) :
  flaky a ->
  (1026 <= n)%Z ->
  (0 < d)%Q ->
  use_exponential_backoff config = true ->
  fst (fst (execute_with_retry env config a (Some n) (Some d) history w))
    = inl (Py.OverflowError "int too large to convert to float") /\
  slept_of (snd (execute_with_retry env config a (Some n) (Some d) history w))
    = (slept_of w ++ List.map (delay_after config d) (List.seq 0 1024))%list.
Proof.
  intros Hflaky Hn Hd Hbackoff. unfold execute_with_retry.
  assert (Hz : (n =? 0)%Z = false) by lia.
  rewrite Hz, (positive_delay_kept d Hd).
  rewrite (range_pos n) by lia. cbn [retry_loop]. cbn [Z.gtb Z.compare].
  match goal with
  | |- context [attempt_once env ?s1 ?w1] =>
      destruct (attempt_once_flaky s1 w1 Hflaky) as (s1' & w1' & -> & Hs1 & Hw1)
  end.
  replace (Z.to_nat n - 1) with (1024 + S (Z.to_nat n - 1026)) by lia.
  rewrite List.seq_app, List.map_app.
  destruct (retry_loop_sleeps n d
              (List.map Z.of_nat (List.seq (1 + 1024) (S (Z.to_nat n - 1026))))
              1024 1 s1' w1' (le_n 1))
    as (s' & w' & Hloop & Hs' & Hw');
    [lia | intros _; lia | exact Hs1 |].
  rewrite Hloop. clear Hloop.
  cbn [List.seq List.map retry_loop].
  change (Z.of_nat (1 + 1024)) with 1025%Z. cbn [Z.gtb Z.compare].
  destruct Hs' as (_ & msg & Herr & Hclass). rewrite Herr.
  unfold Classifier.create_error_context, ErrorHandler.create_error_context.
  cbn [Classifier.type_name Py.str_of_exn].
  unfold ErrorHandler.get_recovery_strategy.
  cbn [ErrorHandler.error_type ErrorHandler.retry_count ErrorHandler.should_retry].
  rewrite Hclass.
  change (1025 - 1)%Z with 1024%Z.
  assert (Hge : (1024 >=? n)%Z = false) by lia.
  assert (Hlt : (1024 <? n)%Z = true) by lia.
  rewrite Hge, Hlt. cbn [ErrorHandler.strategy_eqb andb negb].
  unfold ErrorHandler.get_retry_delay. rewrite Hbackoff.
  cbn [negb ErrorHandler.retry_count].
  rewrite (float_pow2_overflow 1024) by lia.
  cbn [Py.bind fst snd].
  split; [reflexivity |].
  cbn [Nat.sub] in Hw'. now rewrite Hw', Hw1.
Qed.

End Backoff.

(** X15.  A failure that the error handler does not class as retryable is
    not retried: when the first attempt fails and the text of its error
    belongs to a class whose strategy is not RETRY (in particular when it
    matches no keyword at all), [execute_with_retry] returns the result of
    that attempt and leaves the world as the attempt left it, however
    large the bound. *)
Theorem non_retryable_failure_is_not_retried
    (a a1 : Action) (result : ActionResult) (n : Z) (retry_delay : option Q)
    (history : list ErrorHandler.ErrorContext) (w w1 : World) :
  execute_action env a w = (result, a1, w1) ->
  (1 <= n)%Z ->
  success result = false ->
  ErrorHandler.ERROR_RECOVERY_MAP
    (Classifier.classify_error (lower env) "Exception" (error_msg_of result) None)
    <> ErrorHandler.RETRY ->
  exists s : RetryState,
    execute_with_retry env config a (Some n) retry_delay history w
      = (inr result, s, w1) /\
    action s = a1.
Proof.
  intros Ea Hn Hfail Hclass. unfold execute_with_retry.
  assert (Hz : (n =? 0)%Z = false) by lia. rewrite Hz.
  rewrite (range_pos n Hn). cbn [retry_loop]. cbn [Z.gtb Z.compare].
  rewrite attempt_once_eq. cbn [action]. rewrite Ea, Hfail.
  destruct (Z.to_nat n - 1) as [| m]; cbn [List.seq List.map retry_loop].
  - eexists. split; reflexivity.
  - cbn [Z.gtb Z.of_nat Z.compare Pos.of_succ_nat last_error].
    unfold Classifier.create_error_context, ErrorHandler.create_error_context.
    cbn [Classifier.type_name Py.str_of_exn].
    unfold ErrorHandler.get_recovery_strategy.
    cbn [ErrorHandler.error_type ErrorHandler.retry_count ErrorHandler.should_retry].
    set (t := Classifier.classify_error (lower env) "Exception" (error_msg_of result) None)
      in *.
    assert (Hs : forall b : bool,
               ErrorHandler.strategy_eqb
                 (if b
                  then if ErrorHandler.strategy_eqb (ErrorHandler.ERROR_RECOVERY_MAP t)
                                                    ErrorHandler.RETRY
                       then if ErrorHandler.is_timeout_or_network t
                            then ErrorHandler.SKIP else ErrorHandler.ABORT
                       else ErrorHandler.ERROR_RECOVERY_MAP t
                  else ErrorHandler.ERROR_RECOVERY_MAP t) ErrorHandler.RETRY = false).
    { intros b. destruct b; destruct t; cbn in *; congruence. }
    rewrite Hs. cbn [andb negb]. eexists. split; reflexivity.
Qed.

End WorkerFacts.

Lemma normalize_tool_name_idempotent_witness :
  Worker._normalize_tool_name (Worker.registry_env ToolRegistry.sample_registry)
    (Json.JStr "click") Worker.trace0 = inr (Json.JStr "click") /\
  (Json.JStr "click" = Json.JStr "点击" \/
   Worker.registry_has (Worker.registry_env ToolRegistry.sample_registry)
     (Json.JStr "click") Worker.trace0 = inr true).
Proof.
  apply (normalize_tool_name_idempotent
           (Worker.registry_env ToolRegistry.sample_registry)
           (Json.JStr "点击") (Json.JStr "click") Worker.trace0).
  reflexivity.
Defined.

Lemma code_actions_always_fail_witness :
  exists result : Types.ActionResult,
    Worker.execute_action (Worker.registry_env ToolRegistry.sample_registry)
      Worker.code_action Worker.trace0
      = (result, Worker.code_action,
         {| Worker.clock := 1700000002; Worker.executed := 0; Worker.slept := [] |}) /\
    Types.success result = false /\
    Types.error result = Some "Code execution not implemented yet".
Proof.
  apply (code_actions_always_fail (Worker.registry_env ToolRegistry.sample_registry)
           Worker.code_action Worker.trace0).
  reflexivity.
Defined.

Lemma execute_with_retry_bounded_witness :
  Worker.executed
    (snd (Worker.execute_with_retry (Worker.registry_env Worker.timeout_registry)
            Worker.default_config (Worker.gui_action "flaky") None None []
            Worker.trace0))
  <= Worker.executed Worker.trace0 + Z.to_nat 3.
Proof.
  apply (execute_with_retry_bounded (Worker.registry_env Worker.timeout_registry)
           Worker.default_config Worker.executed).
  - intros name args w. destruct name, args; cbn; lia.
  - intros w. reflexivity.
  - intros d w. reflexivity.
  - intros find_element description element_type w H. discriminate H.
Defined.

Lemma non_retryable_failure_is_not_retried_witness :
  exists s : Worker.RetryState,
    Worker.execute_with_retry (Worker.registry_env Worker.boom_registry)
      Worker.default_config (Worker.gui_action "flaky") (Some 5%Z) None []
      Worker.trace0
    = (inr {| Types.action_id := "gui_flaky_1700000000"; Types.success := false;
              Types.data := None; Types.error := Some "boom"; Types.message := "" |},
       s,
       {| Worker.clock := 1700000002; Worker.executed := 1; Worker.slept := [] |}) /\
    Worker.action s = Worker.gui_action "flaky".
Proof.
  apply (non_retryable_failure_is_not_retried
           (Worker.registry_env Worker.boom_registry) Worker.default_config
           (Worker.gui_action "flaky") (Worker.gui_action "flaky") _ 5 None []
           Worker.trace0 _).
  - reflexivity.
  - lia.
  - reflexivity.
  - vm_compute. discriminate.
Defined.

Lemma persistent_failures_back_off_witness :
  (exists result : Types.ActionResult,
     fst (fst (Worker.execute_with_retry
                 (Worker.registry_env Worker.timeout_registry)
                 Worker.default_config (Worker.gui_action "flaky") (Some 4%Z)
                 (Some 1%Q) [] Worker.trace0))
       = inr result) /\
  Worker.slept
    (snd (Worker.execute_with_retry (Worker.registry_env Worker.timeout_registry)
            Worker.default_config (Worker.gui_action "flaky") (Some 4%Z) (Some 1%Q) []
            Worker.trace0))
  = (Worker.slept Worker.trace0
       ++ List.map (Worker.delay_after Worker.default_config 1)
            (List.seq 0 (Z.to_nat 4 - 1)))%list.
Proof.
  apply (persistent_failures_back_off (Worker.registry_env Worker.timeout_registry)
           Worker.default_config Worker.slept
           (fun name args w => ltac:(destruct name, args; reflexivity))
           (fun w => eq_refl) (fun d w => eq_refl)
           (fun f d t w (H : None = Some f) => ltac:(discriminate H))
           (fun a => a = Worker.gui_action "flaky")).
  - intros a w ->. vm_compute. repeat split.
  - reflexivity.
  - lia.
  - reflexivity.
  - intros _. lia.
Defined.

Lemma long_backoff_overflows_witness :
  fst (fst (Worker.execute_with_retry (Worker.registry_env Worker.timeout_registry)
              Worker.default_config (Worker.gui_action "flaky") (Some 1026%Z)
              (Some 1%Q) [] Worker.trace0))
    = inl (Py.OverflowError "int too large to convert to float") /\
  Worker.slept
    (snd (Worker.execute_with_retry (Worker.registry_env Worker.timeout_registry)
            Worker.default_config (Worker.gui_action "flaky") (Some 1026%Z)
            (Some 1%Q) [] Worker.trace0))
  = (Worker.slept Worker.trace0
       ++ List.map (Worker.delay_after Worker.default_config 1)
            (List.seq 0 1024))%list.
Proof.
  apply (long_backoff_overflows (Worker.registry_env Worker.timeout_registry)
           Worker.default_config Worker.slept
           (fun name args w => ltac:(destruct name, args; reflexivity))
           (fun w => eq_refl) (fun d w => eq_refl)
           (fun f d t w (H : None = Some f) => ltac:(discriminate H))
           (fun a => a = Worker.gui_action "flaky")).
  - intros a w ->. vm_compute. repeat split.
  - reflexivity.
  - lia.
  - reflexivity.
  - reflexivity.
Defined.

(** ** Choosing and running workflows *)

Section WorkflowFacts.

Import Types Workflows WorkflowExecutor.

(** X17.  A workflow whose name or description is empty matches every
    goal: the empty text occurs in any goal, so [match_workflow] returns
    the first such workflow without looking at keywords or at the
    workflows after it. *)
Theorem empty_description_matches_every_goal
    (lower : string -> string) (workflow : WorkflowDefinition)
    (rest : list WorkflowDefinition) (goal : string) :
  lower "" = "" ->
  workflow_name workflow = "" \/ workflow_description workflow = "" ->
  match_workflow lower goal (workflow :: rest) = inr (Some workflow).
Proof.
  intros Hlower Hempty. cbn [match_workflow].
  assert (Hany : forall s, Str.contains "" s = true).
  { intros s. unfold Str.contains. now rewrite index_empty. }
  destruct Hempty as [-> | ->]; rewrite Hlower, Hany.
  - reflexivity.
  - now rewrite orb_true_r.
Qed.

Context {World : Type}.
Variable env : Env World.




End WorkflowFacts.

Lemma empty_description_matches_every_goal_witness :
  Workflows.match_workflow Str.ascii_lower "open the mail client"
    [Workflows.undescribed] = inr (Some Workflows.undescribed).
Proof.
  apply (empty_description_matches_every_goal Str.ascii_lower Workflows.undescribed
           [] "open the mail client").
  - reflexivity.
  - right. reflexivity.
Defined.

(** ** Agent loop: what a successful run looks like *)

Section AgentSuccess.

Import Types AgentExecutor.

Context {World : Type}.
Variable env : Env World.
Variable max_steps : Z.

Lemma all_success_snoc (rs : list ActionResult) (r : ActionResult) :
  all_success (rs ++ [r]) = all_success rs && success r.
Proof.
  unfold all_success, Py.all. rewrite List.map_app, forallb_app. cbn.
  now rewrite andb_true_r.
Qed.

(** While the loop goes on, either nothing has been executed yet or some
    executed action has failed; when a pass leaves the loop, the results
    may also consist of one successful action. *)
Lemma loop_body_undecided (goal : string) (s : LoopState) (w : World) :
  loop_action_results s = [] \/ all_success (loop_action_results s) = false ->
  match fst (loop_body env goal s w) with
  | Next s' =>
      loop_action_results s' = [] \/ all_success (loop_action_results s') = false
  | Break s' | Raised _ s' =>
      (loop_action_results s' = [] \/ all_success (loop_action_results s') = false)
      \/ exists r, loop_action_results s' = [r]
  end.
Proof.
  intros Hs. unfold loop_body, Py.ret, Py.raise.
  destruct (_decide_next_step env goal _ _ _ w) as [decision w1].
  cbn [context last_decision loop_action_results].
  destruct (should_continue decision); cbn [negb fst]; [| now left].
  destruct (should_skip decision); cbn [fst]; [exact Hs |].
  assert (Hidle : match fst (if _check_task_complete (loop_action_results s)
                             then (Break {| context := context s;
                                            loop_action_results := loop_action_results s;
                                            step_count := (step_count s + 1)%Z;
                                            last_decision := Some decision |}, w1)
                             else (Next {| context := context s;
                                           loop_action_results := loop_action_results s;
                                           step_count := (step_count s + 1)%Z;
                                           last_decision := Some decision |}, w1)) with
                  | Next s' =>
                      loop_action_results s' = []
                      \/ all_success (loop_action_results s') = false
                  | Break s' | Raised _ s' =>
                      (loop_action_results s' = []
                       \/ all_success (loop_action_results s') = false)
                      \/ exists r, loop_action_results s' = [r]
                  end).
  { destruct (_check_task_complete (loop_action_results s)); cbn [fst loop_action_results];
      [now left | exact Hs]. }
  destruct (decision_action decision) as [action |]; [| exact Hidle].
  destruct (format_confidence (decision_confidence decision)) as [e | []];
    cbn [fst loop_action_results]; [now left |].
  destruct (execute_action env action _ w1) as [[e | result] w2];
    cbn [fst loop_action_results]; [now left |].
  unfold _check_task_complete.
  destruct (loop_action_results s ++ [result])%list as [| r0 rs0] eqn:Eapp.
  - cbn [fst loop_action_results]. now left.
  - rewrite <- Eapp. rewrite all_success_snoc.
    destruct Hs as [Hnil | Hfail].
    + rewrite Hnil. cbn [app all_success Py.all List.map forallb andb id].
      unfold all_success, Py.all. cbn [List.map forallb andb].
      destruct (success result) eqn:Er; cbn [fst loop_action_results id].
      * right. now exists result.
      * right. unfold all_success, Py.all. cbn. now rewrite Er.
    + rewrite Hfail. cbn [andb fst loop_action_results]. right.
      now rewrite all_success_snoc, Hfail.
Qed.

Lemma run_loop_settled (goal : string) (fuel : nat) :
  forall (s : LoopState) (w : World) (exit : LoopExit) (w' : World),
    loop_action_results s = [] \/ all_success (loop_action_results s) = false ->
    run_loop env max_steps fuel goal s w = Some (exit, w') ->
    let rs := match exit with
              | Exited s' | Failed _ s' => loop_action_results s'
              end in
    (rs = [] \/ all_success rs = false) \/ exists r, rs = [r].
Proof.
  induction fuel as [| fuel IH]; intros s w exit w' Hs Hrun; cbn [run_loop] in Hrun;
    destruct (negb (step_count s <? max_steps)%Z).
  - injection Hrun as <- <-. now left.
  - discriminate Hrun.
  - injection Hrun as <- <-. now left.
  - pose proof (loop_body_undecided goal s w Hs) as Hbody.
    destruct (loop_body env goal s w) as [[s1 | s1 | e s1] w1]; cbn [fst] in Hbody.
    + exact (IH s1 w1 exit w' Hbody Hrun).
    + injection Hrun as <- <-. exact Hbody.
    + injection Hrun as <- <-. exact Hbody.
Qed.

(** X19.  A run of the agent loop that reports success holds at most one
    action result: the loop is left as soon as every action so far has
    succeeded, which is after the first action when that one succeeds,
    and once an action has failed the run can no longer succeed. *)
Theorem successful_run_has_one_action
    (fuel : nat) (goal : string) (initial_context : option Context) (w w' : World)
    (res : TaskResult) (task : Task) :
  execute_task env max_steps fuel goal initial_context w = Some (res, task, w') ->
  result_success res = true ->
  length (result_action_results res) <= 1.
Proof.
  unfold execute_task.
  destruct (new_task_id env w) as [id w0].
  set (s0 := {| context := _; loop_action_results := []; step_count := 0;
                last_decision := None |}).
  destruct (run_loop env max_steps fuel goal s0 w0) as [[exit w1] |] eqn:Erun;
    [| discriminate].
  pose proof (run_loop_settled goal fuel s0 w0 exit w1 (or_introl eq_refl) Erun) as Hset.
  cbv zeta in Hset.
  destruct exit as [s1 | e s1].
  - destruct (reflect env _ (loop_action_results s1) _ w1) as [[e | r] w2].
    + intros [= <- <- <-]. discriminate.
    + intros [= <- <- <-]. cbn [result_success result_action_results]. intros Hok.
      destruct Hset as [[-> | Hfail] | [r0 ->]]; cbn; [lia | congruence | lia].
  - intros [= <- <- <-]. discriminate.
Qed.

End AgentSuccess.

Lemma successful_run_has_one_action_witness :
  exists (res : AgentExecutor.TaskResult) (task : Types.Task) (w' : nat),
    AgentExecutor.execute_task AgentSamples.clicking_env 50 50 "click once" None 0
      = Some (res, task, w') /\
    AgentExecutor.result_success res = true /\
    length (AgentExecutor.result_action_results res) <= 1.
Proof.
  do 3 eexists. split; [reflexivity |]. split; [reflexivity |].
  eapply (successful_run_has_one_action AgentSamples.clicking_env 50 50 "click once"
            None 0); reflexivity.
Defined.

(** ** Planner: validated plans *)

Section PlanValidation.

Import Planner PlanShape.

Lemma dict_has_set {V : Type} (k k' : string) (v : V) (d : list (string * V)) :
  Json.dict_has k (Json.dict_set k' v d) = String.eqb k k' || Json.dict_has k d.
Proof.
  unfold Json.dict_has. destruct (String.eqb k k') eqn:E.
  - apply String.eqb_eq in E. subst. now rewrite dict_get_set_eq.
  - apply String.eqb_neq in E. now rewrite dict_get_set_ne.
Qed.

Lemma dict_set_same {V : Type} (k : string) (v : V) (d : list (string * V)) :
  Json.dict_get k d = Some v -> Json.dict_set k v d = d.
Proof.
  induction d as [| [k' v'] d IH]; cbn; [discriminate |].
  destruct (String.eqb k k') eqn:E.
  - apply String.eqb_eq in E. now intros [= ->]; subst.
  - intros H. now rewrite IH.
Qed.

(** Comparisons of key literals. *)
Ltac eval_eqb :=
  repeat match goal with
         | |- context [String.eqb ?a ?b] =>
             let v := eval vm_compute in (String.eqb a b) in
             match v with
             | true => change (String.eqb a b) with true
             | false => change (String.eqb a b) with false
             end
         end.

Lemma validate_actions_complete (actions : list Json.t) :
  forallb complete_action (validate_actions actions) = true.
Proof.
  induction actions as [| action rest IH]; [reflexivity |].
  destruct action as [| b | n | s | l | a]; cbn [validate_actions]; try exact IH.
  destruct (Json.dict_has "tool" a) eqn:Et; cbn [negb]; [| exact IH].
  cbn [forallb complete_action]. rewrite IH, andb_true_r.
  destruct (Json.dict_has "args" a) eqn:Ea;
    rewrite ?dict_has_set, ?Et, ?Ea; eval_eqb; cbn [orb];
    destruct (Json.dict_has "type" a) eqn:Ety;
    rewrite ?dict_has_set, ?Et, ?Ea, ?Ety; eval_eqb; reflexivity.
Qed.

Lemma validate_actions_fixed (actions : list Json.t) :
  forallb complete_action actions = true -> validate_actions actions = actions.
Proof.
  induction actions as [| action rest IH]; [reflexivity |].
  cbn [forallb]. intros H. apply andb_true_iff in H as [Ha Hrest].
  destruct action as [| b | n | s | l | a]; try discriminate Ha.
  cbn [complete_action] in Ha.
  apply andb_true_iff in Ha as [Ha Hty]. apply andb_true_iff in Ha as [Ht Hargs].
  cbn [validate_actions]. rewrite Ht, Hargs, Hty. cbn [negb]. now rewrite IH.
Qed.

Lemma validate_subtasks_complete (subtasks : list Json.t) :
  forall (idx : nat) (validated : list Json.t),
    validate_subtasks idx subtasks = inr validated ->
    forallb complete_subtask validated = true.
Proof.
  induction subtasks as [| subtask rest IH]; intros idx validated H.
  - injection H as <-. reflexivity.
  - destruct subtask as [| b | n | s | l | st]; cbn [validate_subtasks] in H;
      try (now apply (IH (S idx))).
    set (st1 := if Json.dict_has "id" st then st
                else Json.dict_set "id" (Json.JStr ("subtask_" +:+ pretty (idx + 1))) st)
      in H.
    set (st2 := if Json.dict_has "description" st1 then st1
                else Json.dict_set "description"
                       (Json.JStr ("Subtask " +:+ pretty (idx + 1))) st1) in H.
    set (st3 := if Json.dict_has "actions" st2 then st2
                else Json.dict_set "actions" (Json.JList []) st2) in H.
    assert (H1 : Json.dict_has "id" st1 = true).
    { subst st1. destruct (Json.dict_has "id" st) eqn:E; [exact E |].
      rewrite dict_has_set. eval_eqb. reflexivity. }
    assert (H2 : Json.dict_has "id" st2 = true /\ Json.dict_has "description" st2 = true).
    { subst st2. destruct (Json.dict_has "description" st1) eqn:E; [now split |].
      rewrite !dict_has_set, H1. eval_eqb. now split. }
    assert (H3 : Json.dict_has "id" st3 = true /\ Json.dict_has "description" st3 = true).
    { subst st3. destruct (Json.dict_has "actions" st2); [exact H2 |].
      rewrite !dict_has_set. destruct H2 as [-> ->]. eval_eqb. now split. }
    destruct (match Json.dict_get "actions" st3 with
              | Some v => Json.iter v
              | None => Py.ret []
              end) as [e | actions]; cbn [Py.bind] in H; [discriminate |].
    destruct (validate_subtasks (S idx) rest) as [e | validated'] eqn:Erest;
      cbn [Py.bind] in H; [discriminate |].
    injection H as <-. cbn [forallb complete_subtask].
    rewrite (IH (S idx) validated' Erest), andb_true_r.
    rewrite !dict_has_set. destruct H3 as [-> ->]. eval_eqb. cbn [orb andb].
    rewrite dict_get_set_eq. apply validate_actions_complete.
Qed.

Lemma validate_subtasks_fixed (subtasks : list Json.t) :
  forall idx : nat,
    forallb complete_subtask subtasks = true ->
    validate_subtasks idx subtasks = inr subtasks.
Proof.
  induction subtasks as [| subtask rest IH]; intros idx H; [reflexivity |].
  cbn [forallb] in H. apply andb_true_iff in H as [Hs Hrest].
  destruct subtask as [| b | n | s | l | st]; try discriminate Hs.
  cbn [complete_subtask] in Hs.
  apply andb_true_iff in Hs as [Hs Hacts]. apply andb_true_iff in Hs as [Hid Hdesc].
  destruct (Json.dict_get "actions" st) as [[| | | | actions |] |] eqn:Eacts;
    try discriminate Hacts.
  cbn [validate_subtasks]. rewrite Hid, Hdesc.
  assert (Hhas : Json.dict_has "actions" st = true)
    by (unfold Json.dict_has; now rewrite Eacts).
  rewrite Hhas, Eacts. cbn [Json.iter Py.bind Py.ret].
  rewrite (validate_actions_fixed actions Hacts), (IH (S idx) Hrest).
  cbn [Py.bind]. now rewrite (dict_set_same "actions" _ st Eacts).
Qed.

Lemma validated_plan_is_complete_aux (plan_data validated : Json.t) :
  _validate_plan_data plan_data = inr validated ->
  complete_plan validated = true.
Proof.
  unfold _validate_plan_data.
  destruct plan_data as [| b | n | s | l | d]; try discriminate.
  set (d1 := if Json.dict_has "subtasks" d then d
             else Json.dict_set "subtasks" (Json.JList []) d).
  destruct (match Json.dict_get "subtasks" d1 with
            | Some v => Json.iter v
            | None => Py.ret []
            end) as [e | subtasks]; cbn [Py.bind]; [discriminate |].
  destruct (validate_subtasks 0 subtasks) as [e | out] eqn:Eout; cbn [Py.bind];
    [discriminate |].
  intros [= <-]. cbn [complete_plan]. rewrite dict_get_set_eq.
  exact (validate_subtasks_complete subtasks 0 out Eout).
Qed.

(** X20.  A plan that [_validate_plan_data] lets through is complete:
    every subtask is a dictionary with an id, a description and a list of
    actions, and every action is a dictionary with a tool, arguments and
    a type.  Entries that are no dictionaries and actions without a tool
    are dropped on the way. *)
Theorem validated_plan_is_complete (plan_data validated : Json.t) :
  _validate_plan_data plan_data = inr validated ->
  complete_plan validated = true.
Proof. apply validated_plan_is_complete_aux. Qed.

(** X21.  Validation is idempotent: validating a validated plan again
    succeeds and changes nothing. *)
Theorem validate_plan_data_idempotent (plan_data validated : Json.t) :
  _validate_plan_data plan_data = inr validated ->
  _validate_plan_data validated = inr validated.
Proof.
  intros H. pose proof (validated_plan_is_complete_aux plan_data validated H) as Hc.
  destruct validated as [| b | n | s | l | d]; try discriminate Hc.
  cbn [complete_plan] in Hc.
  destruct (Json.dict_get "subtasks" d) as [[| | | | subtasks |] |] eqn:Es;
    try discriminate Hc.
  unfold _validate_plan_data.
  assert (Hhas : Json.dict_has "subtasks" d = true)
    by (unfold Json.dict_has; now rewrite Es).
  rewrite Hhas, Es. cbn [Json.iter Py.bind Py.ret].
  rewrite (validate_subtasks_fixed subtasks 0 Hc). cbn [Py.bind].
  now rewrite (dict_set_same "subtasks" _ d Es).
Qed.

End PlanValidation.

Lemma validated_plan_is_complete_witness :
  exists validated : Json.t,
    Planner._validate_plan_data PlanShape.ragged_plan = inr validated /\
    PlanShape.complete_plan validated = true.
Proof.
  eexists. split; [reflexivity |].
  apply (validated_plan_is_complete PlanShape.ragged_plan). reflexivity.
Defined.

Lemma validate_plan_data_idempotent_witness :
  exists validated : Json.t,
    Planner._validate_plan_data PlanShape.ragged_plan = inr validated /\
    Planner._validate_plan_data validated = inr validated.
Proof.
  eexists. split; [reflexivity |].
  apply (validate_plan_data_idempotent PlanShape.ragged_plan). reflexivity.
Defined.

(** ** Planner: what the extraction returns *)

Section Extraction.

Import Planner.

Variable lib : Lib.

Lemma scan_object_valid (response rest : string) :
  forall (i : nat) (brace_count : Z) (start_idx : option nat) (extracted : string),
    scan_object lib response rest i brace_count start_idx = inr (Some extracted) ->
    _is_valid_json lib extracted = inr true.
Proof.
  induction rest as [| char rest IH]; intros i brace_count start_idx extracted H;
    cbn [scan_object] in H; [discriminate |].
  destruct (Ascii.eqb char "{"%char); [now apply IH in H |].
  destruct (Ascii.eqb char "}"%char); [| now apply IH in H].
  destruct (brace_count - 1 =? 0)%Z; [| now apply IH in H].
  destruct start_idx as [start |]; [| now apply IH in H].
  destruct (_is_valid_json lib (strip lib (Str.slice response start (i + 1))))
    as [e | valid] eqn:Ev; cbn [Py.bind] in H; [discriminate |].
  destruct valid; [| now apply IH in H].
  injection H as <-. exact Ev.
Qed.

Lemma scan_from_valid (response rest : string) :
  forall (i json_start : nat) (brace_count : Z) (extracted : string),
    scan_from lib response rest i json_start brace_count = inr (Some extracted) ->
    _is_valid_json lib extracted = inr true.
Proof.
  induction rest as [| char rest IH]; intros i json_start brace_count extracted H;
    cbn [scan_from] in H; [discriminate |].
  destruct (Ascii.eqb char "{"%char); [now apply IH in H |].
  destruct (Ascii.eqb char "}"%char); [| now apply IH in H].
  destruct (brace_count - 1 =? 0)%Z; [| now apply IH in H].
  destruct (_is_valid_json lib (strip lib (Str.slice response json_start (i + 1))))
    as [e | valid] eqn:Ev; cbn [Py.bind] in H; [discriminate |].
  destruct valid; [| now apply IH in H].
  injection H as <-. exact Ev.
Qed.

Lemma fenced_block_valid (response fence extracted : string) :
  fenced_block lib response fence = inr (Some extracted) ->
  _is_valid_json lib extracted = inr true.
Proof.
  unfold fenced_block.
  destruct (Str.find fence response 0) as [at_ |]; [| discriminate].
  destruct (Str.find "```" response (at_ + String.length fence)) as [end_ |];
    [| discriminate].
  destruct (_is_valid_json lib _) as [e | valid] eqn:Ev; cbn [Py.bind];
    [discriminate |].
  destruct valid; [| discriminate]. now intros [= <-].
Qed.

(** X22.  What [_extract_json_from_response] returns is either a text
    that the validity check accepts, that is, one that decodes to a JSON
    object, or the whole response with the surrounding blanks removed: the
    function never hands on a fragment it has not checked. *)
Theorem extracted_json_is_checked (response extracted : string) :
  _extract_json_from_response lib response = inr extracted ->
  _is_valid_json lib extracted = inr true \/ extracted = strip lib response.
Proof.
  unfold _extract_json_from_response.
  set (r := strip lib response).
  destruct (if Str.contains "```json" r then fenced_block lib r "```json"
            else if Str.contains "```" r then fenced_block lib r "```"
            else Py.ret None) as [e | block] eqn:Eblock; cbn [Py.bind];
    [discriminate |].
  destruct block as [b |].
  - intros [= <-]. left.
    destruct (Str.contains "```json" r); [now apply fenced_block_valid in Eblock |].
    destruct (Str.contains "```" r); [now apply fenced_block_valid in Eblock |].
    discriminate Eblock.
  - destruct (scan_object lib r r 0 0 None) as [e | object] eqn:Eobj; cbn [Py.bind];
      [discriminate |].
    destruct object as [o |].
    + intros [= <-]. left. now apply scan_object_valid in Eobj.
    + match goal with
      | |- context [Py.bind ?m _] => destruct m as [e | anchored] eqn:Eanch
      end; cbn [Py.bind]; [discriminate |].
      destruct anchored as [x |]; intros [= <-]; [left | now right].
      destruct (Str.contains (q +:+ "subtasks" +:+ q) r || Str.contains "'subtasks'" r);
        [| discriminate Eanch].
      destruct (match Str.find (q +:+ "subtasks" +:+ q) r 0 with
                | Some start => Some start
                | None => Str.find "'subtasks'" r 0
                end) as [start |]; [| discriminate Eanch].
      destruct (Str.rfind_char "{"%char r start) as [json_start |];
        [| discriminate Eanch].
      now apply scan_from_valid in Eanch.
Qed.

End Extraction.

Lemma extracted_json_is_checked_witness :
  Planner._is_valid_json PlannerSamples.braces_lib "{}" = inr true \/
  "{}" = Planner.strip PlannerSamples.braces_lib "Here is the plan: {} Done.".
Proof.
  apply (extracted_json_is_checked PlannerSamples.braces_lib
           "Here is the plan: {} Done." "{}").
  reflexivity.
Defined.

(** ** Voting: similarity and consistency *)

Section SimilarityFacts.

Import SelfConsistency.

Lemma div_by_total (x : Q) : (x / (0 + (3 # 10) + (7 # 10)) == x)%Q.
Proof. field. Qed.

Lemma Qlen_nonneg (n : nat) : (0 <= Qlen n)%Q.
Proof. unfold Qlen, Qle. cbn. lia. Qed.

Lemma Qlen_le (n m : nat) : n <= m -> (Qlen n <= Qlen m)%Q.
Proof. intros H. unfold Qlen, Qle. cbn. lia. Qed.

Lemma Qlen_positive (n : nat) : 0 < n -> (0 < Qlen n)%Q.
Proof. intros H. unfold Qlen, Qlt. cbn. lia. Qed.

Lemma ratio_bounds (i u : nat) :
  i <= u -> 0 < u -> (0 <= Qlen i / Qlen u)%Q /\ (Qlen i / Qlen u <= 1)%Q.
Proof.
  intros Hle Hpos. split.
  - apply Qle_shift_div_l; [now apply Qlen_positive |].
    rewrite Qmult_0_l. apply Qlen_nonneg.
  - apply Qle_shift_div_r; [now apply Qlen_positive |].
    rewrite Qmult_1_l. now apply Qlen_le.
Qed.

(** The score before the division, for the two tool sets. *)
Lemma score_bounds (same : bool) (tools1 tools2 : gset Key) :
  let score := if same then (0 + (3 # 10))%Q else 0%Q in
  let score :=
    if negb (bool_decide (tools1 = ∅)) && negb (bool_decide (tools2 = ∅)) then
      if (0 <? size (tools1 ∪ tools2))%nat
      then (score + (7 # 10) * (Qlen (size (tools1 ∩ tools2))
                                / Qlen (size (tools1 ∪ tools2))))%Q
      else score
    else score in
  (0 <= score)%Q /\ (score <= 1)%Q.
Proof.
  cbv zeta.
  assert (Hbase : (0 <= (if same then 0 + (3 # 10) else 0))%Q
                  /\ ((if same then 0 + (3 # 10) else 0) <= 3 # 10)%Q)
    by (destruct same; split; unfold Qle; cbn; lia).
  destruct Hbase as [Hb0 Hb1].
  assert (Hsmall : ((if same then 0 + (3 # 10) else 0) <= 1)%Q)
    by (eapply Qle_trans; [exact Hb1 | unfold Qle; cbn; lia]).
  destruct (negb (bool_decide (tools1 = ∅)) && negb (bool_decide (tools2 = ∅)));
    [| now split].
  destruct (0 <? size (tools1 ∪ tools2))%nat eqn:Eu; [| now split].
  apply Nat.ltb_lt in Eu.
  assert (Hsub : size (tools1 ∩ tools2) <= size (tools1 ∪ tools2)).
  { apply subseteq_size. intros k Hk. apply elem_of_intersection in Hk as [Hk _].
    apply elem_of_union. now left. }
  destruct (ratio_bounds _ _ Hsub Eu) as [Hr0 Hr1].
  set (ratio := (Qlen (size (tools1 ∩ tools2)) / Qlen (size (tools1 ∪ tools2)))%Q) in *.
  split.
  - apply Qle_trans with (0 + 0)%Q; [unfold Qle; cbn; lia |].
    apply Qplus_le_compat; [exact Hb0 |].
    apply Qmult_le_0_compat; [unfold Qle; cbn; lia | exact Hr0].
  - apply Qle_trans with ((3 # 10) + (7 # 10) * 1)%Q; [| unfold Qle; cbn; lia].
    apply Qplus_le_compat; [exact Hb1 |].
    rewrite !(Qmult_comm (7 # 10)).
    apply Qmult_le_compat_r; [exact Hr1 | unfold Qle; cbn; lia].
Qed.

Lemma similarity_bounds (data1 data2 : Json.t) (x : Q) :
  _calculate_similarity data1 data2 = inr x -> (0 <= x)%Q /\ (x <= 1)%Q.
Proof.
  unfold _calculate_similarity.
  destruct (negb (Json.truthy data1) || negb (Json.truthy data2)).
  - intros [= <-]. split; unfold Qle; cbn; lia.
  - destruct (get_subtasks data1) as [e | s1]; cbn [Py.bind]; [discriminate |].
    destruct (get_subtasks data2) as [e | s2]; cbn [Py.bind]; [discriminate |].
    destruct (len s1) as [e | len1]; cbn [Py.bind]; [discriminate |].
    destruct (len s2) as [e | len2]; cbn [Py.bind]; [discriminate |].
    destruct (fold_tools add_tool ∅ s1) as [e | tools1]; cbn [Py.bind]; [discriminate |].
    destruct (fold_tools add_tool ∅ s2) as [e | tools2]; cbn [Py.bind]; [discriminate |].
    intros [= <-].
    change (Qle_bool (0 + (3 # 10) + (7 # 10)) 0) with false. cbv iota.
    rewrite div_by_total.
    exact (score_bounds (len1 =? len2)%nat tools1 tools2).
Qed.

(** X23.  The similarity of two plans does not depend on their order, and
    whenever it is defined it lies between 0 and 1. *)
Theorem similarity_symmetric_and_bounded (data1 data2 : Json.t) (x : Q) :
  _calculate_similarity data1 data2 = inr x ->
  _calculate_similarity data2 data1 = inr x /\ (0 <= x)%Q /\ (x <= 1)%Q.
Proof.
  intros H. split; [| exact (similarity_bounds data1 data2 x H)].
  revert H. unfold _calculate_similarity.
  rewrite (orb_comm (negb (Json.truthy data2))).
  destruct (negb (Json.truthy data1) || negb (Json.truthy data2)); [easy |].
  destruct (get_subtasks data1) as [e | s1]; cbn [Py.bind]; [discriminate |].
  destruct (get_subtasks data2) as [e | s2]; cbn [Py.bind]; [discriminate |].
  destruct (len s1) as [e | len1]; cbn [Py.bind]; [discriminate |].
  destruct (len s2) as [e | len2]; cbn [Py.bind]; [discriminate |].
  destruct (fold_tools add_tool ∅ s1) as [e | tools1]; cbn [Py.bind]; [discriminate |].
  destruct (fold_tools add_tool ∅ s2) as [e | tools2]; cbn [Py.bind]; [discriminate |].
  intros [= <-].
  rewrite (Nat.eqb_sym len2 len1).
  rewrite (andb_comm (negb (bool_decide (tools2 = ∅)))).
  assert (Hi : tools2 ∩ tools1 = tools1 ∩ tools2).
  { apply set_eq. intros k. rewrite !elem_of_intersection. tauto. }
  assert (Hu : tools2 ∪ tools1 = tools1 ∪ tools2).
  { apply set_eq. intros k. rewrite !elem_of_union. tauto. }
  rewrite Hi, Hu. reflexivity.
Qed.

Lemma similarities_to_bounds (other : Json.t) (samples : list SampleResult) :
  forall sims : list Q,
    similarities_to other samples = inr sims ->
    List.Forall (fun x => (0 <= x)%Q /\ (x <= 1)%Q) sims.
Proof.
  induction samples as [| sample rest IH]; intros sims H; cbn [similarities_to] in H.
  - injection H as <-. constructor.
  - destruct (parsed_data sample) as [data |]; [| now apply IH].
    destruct (Json.truthy data); [| now apply IH].
    destruct (_calculate_similarity data other) as [e | x] eqn:Ex; cbn [Py.bind] in H;
      [discriminate |].
    destruct (similarities_to other rest) as [e | sims'] eqn:Er; cbn [Py.bind] in H;
      [discriminate |].
    injection H as <-. constructor; [exact (similarity_bounds _ _ _ Ex) | now apply IH].
Qed.

Lemma pair_similarities_bounds (samples : list SampleResult) :
  forall sims : list Q,
    pair_similarities samples = inr sims ->
    List.Forall (fun x => (0 <= x)%Q /\ (x <= 1)%Q) sims.
Proof.
  induction samples as [| sample rest IH]; intros sims H; cbn [pair_similarities] in H.
  - injection H as <-. constructor.
  - destruct (match data_of sample with
              | Some data => similarities_to data rest
              | None => Py.ret []
              end) as [e | row] eqn:Erow; cbn [Py.bind] in H; [discriminate |].
    destruct (pair_similarities rest) as [e | more] eqn:Emore; cbn [Py.bind] in H;
      [discriminate |].
    injection H as <-. apply List.Forall_app. split; [| now apply IH].
    destruct (data_of sample) as [data |].
    + exact (similarities_to_bounds _ _ _ Erow).
    + injection Erow as <-. constructor.
Qed.

Lemma sum_bounds (xs : list Q) :
  List.Forall (fun x => (0 <= x)%Q /\ (x <= 1)%Q) xs ->
  forall acc : Q,
    (acc <= fold_left Qplus xs acc)%Q /\
    (fold_left Qplus xs acc <= acc + Qlen (length xs))%Q.
Proof.
  induction 1 as [| x xs Hx _ IH]; intros acc; cbn [fold_left length];
    [| destruct Hx as [Hx0 Hx1]].
  - split; [apply Qle_refl |]. unfold Qlen. cbn. rewrite Qplus_0_r. apply Qle_refl.
  - destruct (IH (acc + x)%Q) as [Hlo Hhi]. split.
    + eapply Qle_trans; [| exact Hlo].
      rewrite <- (Qplus_0_r acc) at 1. now apply Qplus_le_compat; [apply Qle_refl |].
    + eapply Qle_trans; [exact Hhi |].
      assert (Hlen : (Qlen (S (length xs)) == 1 + Qlen (length xs))%Q).
      { unfold Qlen. rewrite Nat2Z.inj_succ, <- Z.add_1_l, inject_Z_plus. reflexivity. }
      rewrite Hlen, Qplus_assoc.
      apply Qplus_le_compat; [| apply Qle_refl].
      now apply Qplus_le_compat; [apply Qle_refl |].
Qed.

Lemma mean_bounds (xs : list Q) :
  xs <> [] ->
  List.Forall (fun x => (0 <= x)%Q /\ (x <= 1)%Q) xs ->
  (0 <= mean xs)%Q /\ (mean xs <= 1)%Q.
Proof.
  intros Hne Hall. unfold mean.
  destruct (sum_bounds xs Hall 0) as [Hlo Hhi].
  assert (Hpos : (0 < Qlen (length xs))%Q).
  { apply Qlen_positive. destruct xs; [contradiction | cbn; lia]. }
  split.
  - apply Qle_shift_div_l; [exact Hpos |]. now rewrite Qmult_0_l.
  - apply Qle_shift_div_r; [exact Hpos |]. rewrite Qmult_1_l.
    now rewrite Qplus_0_l in Hhi.
Qed.

(** X24.  The consistency score of a vote and the preliminary consistency
    used to stop sampling early are averages of similarities: whenever
    they are defined they lie between 0 and 1. *)
Theorem consistency_scores_bounded
    (parsed_samples : list SampleResult) (best_result : Json.t) :
  (forall x : Q,
     _calculate_consistency_score parsed_samples best_result = inr x ->
     (0 <= x)%Q /\ (x <= 1)%Q) /\
  (forall x : Q,
     _calculate_preliminary_consistency parsed_samples = inr x ->
     (0 <= x)%Q /\ (x <= 1)%Q).
Proof.
  assert (Hzero : (0 <= 0)%Q /\ (0 <= 1)%Q) by (split; unfold Qle; cbn; lia).
  split; intros x.
  - unfold _calculate_consistency_score.
    destruct parsed_samples as [| sample rest]; [now intros [= <-] |].
    destruct (negb (Json.truthy best_result)); [now intros [= <-] |].
    destruct (similarities_to best_result (sample :: rest)) as [e | sims] eqn:Es;
      cbn [Py.bind]; [discriminate |].
    pose proof (similarities_to_bounds _ _ _ Es) as Hall.
    destruct sims as [| y ys]; [now intros [= <-] |].
    intros [= <-]. now apply mean_bounds.
  - unfold _calculate_preliminary_consistency.
    destruct (length parsed_samples <? 2)%nat; [now intros [= <-] |].
    destruct (pair_similarities parsed_samples) as [e | sims] eqn:Es;
      cbn [Py.bind]; [discriminate |].
    pose proof (pair_similarities_bounds _ _ Es) as Hall.
    destruct sims as [| y ys]; [now intros [= <-] |].
    intros [= <-]. now apply mean_bounds.
Qed.

End SimilarityFacts.

Lemma similarity_symmetric_and_bounded_witness :
  exists x : Q,
    SelfConsistency._calculate_similarity SelfConsistency.empty_plan
      SelfConsistency.navigate_plan = inr x /\
    SelfConsistency._calculate_similarity SelfConsistency.navigate_plan
      SelfConsistency.empty_plan = inr x /\
    (0 <= x)%Q /\ (x <= 1)%Q.
Proof.
  eexists. split; [reflexivity |].
  apply (similarity_symmetric_and_bounded SelfConsistency.empty_plan
           SelfConsistency.navigate_plan).
  reflexivity.
Defined.

(** ** Voting: the winner is one of the samples *)

Section VoteMembership.

Import SelfConsistency Votes.

Lemma max_by_in {A K : Type} (lt : K -> K -> bool) (key : A -> K) (rest : list A) :
  forall best : A, In (max_by lt key best rest) (best :: rest).
Proof.
  induction rest as [| x rest IH]; intros best; cbn [max_by].
  - now left.
  - destruct (lt (key best) (key x)).
    + right. apply IH.
    + destruct (IH best) as [H | H]; [now left | right; now right].
Qed.

Lemma pick_best_in (tool_votes : list (Key * Z)) (most_common : nat)
    (all_samples samples : list SampleResult) :
  forall (best_sample : option SampleResult) (best_score : Z)
         (chosen : option SampleResult) (score : Z),
    (forall s, In s samples -> In s all_samples) ->
    (forall s, best_sample = Some s -> In s all_samples) ->
    pick_best tool_votes most_common best_sample best_score samples
      = inr (chosen, score) ->
    forall s, chosen = Some s -> In s all_samples.
Proof.
  induction samples as [| sample rest IH];
    intros best_sample best_score chosen score Hsub Hbest H; cbn [pick_best] in H.
  - injection H as <- <-. exact Hbest.
  - assert (Hrest : forall s, In s rest -> In s all_samples)
      by (intros s Hs; apply Hsub; now right).
    destruct (data_of sample) as [data |]; [| exact (IH _ _ _ _ Hrest Hbest H)].
    destruct (py_in "subtasks" data) as [e | has]; cbn [Py.bind] in H; [discriminate |].
    destruct has; cbn [negb] in H; [| exact (IH _ _ _ _ Hrest Hbest H)].
    destruct (getitem "subtasks" data) as [e | subtasks]; cbn [Py.bind] in H;
      [discriminate |].
    destruct (len subtasks) as [e | n]; cbn [Py.bind] in H; [discriminate |].
    destruct (fold_tools _ _ subtasks) as [e | sc]; cbn [Py.bind] in H; [discriminate |].
    destruct (best_score <? sc)%Z; [| exact (IH _ _ _ _ Hrest Hbest H)].
    refine (IH _ _ _ _ Hrest _ H).
    intros s [= <-]. apply Hsub. now left.
Qed.

Lemma first_data_carried (samples : list SampleResult) (data : Json.t) :
  first_data samples = Some data -> carried_by samples data.
Proof.
  unfold carried_by. induction samples as [| sample rest IH]; cbn [first_data]; [discriminate |].
  destruct (data_of sample) as [d |] eqn:Ed.
  - intros [= <-]. exists sample. split; [now left | exact Ed].
  - intros H. destruct (IH H) as (s & Hs & Hd). exists s. split; [now right | exact Hd].
Qed.

Lemma weighted_samples_carried (samples : list SampleResult) (data : Json.t) (q : Q) :
  In (data, q) (weighted_samples samples) -> carried_by samples data.
Proof.
  unfold carried_by. induction samples as [| sample rest IH]; cbn [weighted_samples]; [intros [] |].
  destruct (data_of sample) as [d |] eqn:Ed.
  - intros [[= <- <-] | H].
    + exists sample. split; [now left | exact Ed].
    + destruct (IH H) as (s & Hs & Hd). exists s. split; [now right | exact Hd].
  - intros H. destruct (IH H) as (s & Hs & Hd). exists s. split; [now right | exact Hd].
Qed.

(** Every member of a cluster is a sample with data. *)
Lemma gather_cluster_members (data1 : Json.t) (all_samples rest : list SampleResult) :
  forall (j : nat) (cluster : list SampleResult) (used : list nat)
         (cluster' : list SampleResult) (used' : list nat),
    (forall s, In s rest -> In s all_samples) ->
    List.Forall (fun s => In s all_samples /\ data_of s <> None) cluster ->
    gather_cluster data1 j rest cluster used = inr (cluster', used') ->
    List.Forall (fun s => In s all_samples /\ data_of s <> None) cluster'.
Proof.
  induction rest as [| sample2 rest IH]; intros j cluster used cluster' used' Hsub Hc H;
    cbn [gather_cluster] in H.
  - injection H as <- <-. exact Hc.
  - assert (Hrest : forall s, In s rest -> In s all_samples)
      by (intros s Hs; apply Hsub; now right).
    destruct (bool_decide (j ∈ used)); [now apply (IH _ _ _ _ _ Hrest Hc H) |].
    destruct (data_of sample2) as [data2 |] eqn:Ed;
      [| now apply (IH _ _ _ _ _ Hrest Hc H)].
    destruct (_calculate_similarity data1 data2) as [e | sim]; cbn [Py.bind] in H;
      [discriminate |].
    destruct (Qltb (7 # 10) sim); [| now apply (IH _ _ _ _ _ Hrest Hc H)].
    apply (IH _ _ _ _ _ Hrest) in H; [exact H |].
    apply List.Forall_app. split; [exact Hc |].
    constructor; [| constructor]. split; [apply Hsub; now left | congruence].
Qed.

Lemma build_clusters_members (all_samples rest : list SampleResult) :
  forall (i : nat) (used : list nat) (clusters : list (list SampleResult)),
    (forall s, In s rest -> In s all_samples) ->
    build_clusters i rest used = inr clusters ->
    List.Forall (List.Forall (fun s => In s all_samples /\ data_of s <> None)) clusters.
Proof.
  induction rest as [| sample1 rest IH]; intros i used clusters Hsub H;
    cbn [build_clusters] in H.
  - injection H as <-. constructor.
  - assert (Hrest : forall s, In s rest -> In s all_samples)
      by (intros s Hs; apply Hsub; now right).
    destruct (bool_decide (i ∈ used)); [now apply (IH _ _ _ Hrest H) |].
    destruct (data_of sample1) as [data1 |] eqn:Ed; [| now apply (IH _ _ _ Hrest H)].
    destruct (gather_cluster data1 (S i) rest [sample1] (i :: used))
      as [e | [cluster used1]] eqn:Eg; cbn [Py.bind] in H; [discriminate |].
    destruct (build_clusters (S i) rest used1) as [e | more] eqn:Eb;
      cbn [Py.bind] in H; [discriminate |].
    injection H as <-. constructor; [| now apply (IH _ _ _ Hrest Eb)].
    apply (gather_cluster_members _ _ _ _ _ _ _ _ Hrest) in Eg; [exact Eg |].
    constructor; [| constructor]. split; [apply Hsub; now left | congruence].
Qed.

(** Every member of a group is a sample with data. *)
Lemma group_samples_members (lib : Lib) (all_samples samples : list SampleResult) :
  forall (sample_counts groups : list (string * list SampleResult)),
    (forall s, In s samples -> In s all_samples) ->
    List.Forall (fun kv => List.Forall (fun s => In s all_samples /\ data_of s <> None)
                             (snd kv)) sample_counts ->
    group_samples lib sample_counts samples = inr groups ->
    List.Forall (fun kv => List.Forall (fun s => In s all_samples /\ data_of s <> None)
                             (snd kv)) groups.
Proof.
  induction samples as [| sample rest IH]; intros sample_counts groups Hsub Hc H;
    cbn [group_samples] in H.
  - injection H as <-. exact Hc.
  - assert (Hrest : forall s, In s rest -> In s all_samples)
      by (intros s Hs; apply Hsub; now right).
    destruct (data_of sample) as [data |] eqn:Ed; [| now apply (IH _ _ Hrest Hc H)].
    destruct (json_dumps lib data) as [e | key]; cbn [Py.bind] in H; [discriminate |].
    apply (IH _ _ Hrest) in H; [exact H |].
    set (P := fun s : SampleResult => In s all_samples /\ data_of s <> None) in *.
    assert (Hgroup : List.Forall P match Json.dict_get key sample_counts with
                                   | Some g => g
                                   | None => []
                                   end).
    { clear -Hc. induction Hc as [| [k g] d Hg _ IHd]; cbn; [constructor |].
      destruct (String.eqb key k); [exact Hg | exact IHd]. }
    assert (Hnew : List.Forall P (match Json.dict_get key sample_counts with
                                  | Some g => g
                                  | None => []
                                  end ++ [sample])).
    { apply List.Forall_app. split; [exact Hgroup |].
      constructor; [| constructor]. split; [apply Hsub; now left | congruence]. }
    clear -Hc Hnew. revert Hnew. generalize (match Json.dict_get key sample_counts with
                                             | Some g => g
                                             | None => []
                                             end ++ [sample])%list.
    intros v Hv. induction Hc as [| [k g] d Hg Hd IHd]; cbn.
    + constructor; [exact Hv | constructor].
    + destruct (String.eqb key k); constructor; assumption.
Qed.

Lemma scored_groups_carried (total : nat) (all_samples : list SampleResult)
    (groups : list (string * list SampleResult)) :
  List.Forall (fun kv => List.Forall (fun s => In s all_samples /\ data_of s <> None)
                           (snd kv)) groups ->
  forall r : Json.t * Q * Q * Q,
    In r (omap (fun kv => score_group total (snd kv)) groups) ->
    carried_by all_samples (fst (fst (fst r))).
Proof.
  unfold carried_by. induction 1 as [| [k g] d Hg _ IH]; intros r Hr; cbn in Hr; [destruct Hr |].
  destruct (score_group total g) as [scored |] eqn:Es; [| now apply IH].
  destruct Hr as [<- | Hr]; [| now apply IH].
  unfold score_group in Es. destruct g as [| first g']; [discriminate |].
  destruct (data_of first) as [data |] eqn:Ed; [| discriminate].
  injection Es as <-. cbn [fst].
  inversion Hg as [| ? ? [Hin _] _]; subst.
  exists first. now split.
Qed.

(** X25.  Voting never makes up a plan: with each of the four strategies
    the plan that wins is the data of one of the samples, or the empty
    dictionary. *)
Theorem vote_picks_a_sample
    (lib : Lib) (strategy : VotingStrategy) (parsed_samples : list SampleResult)
    (best : Json.t) (details : VotingDetails) :
  _vote lib strategy parsed_samples = inr (best, details) ->
  carried_by parsed_samples best \/ best = Json.JDict [].
Proof.
  unfold carried_by. destruct strategy; cbn [_vote].
  - unfold _majority_vote.
    destruct (tally [] [] parsed_samples) as [e | [tool_votes subtask_counts]];
      cbn [Py.bind]; [discriminate |].
    destruct (pick_best tool_votes _ None 0 parsed_samples)
      as [e | [best_sample best_score]] eqn:Ep; cbn [Py.bind]; [discriminate |].
    pose proof (pick_best_in _ _ parsed_samples parsed_samples None 0%Z best_sample
                  best_score (fun s H => H) ltac:(discriminate) Ep) as Hin.
    destruct (match best_sample with
              | Some sample => data_of sample
              | None => None
              end) as [data |] eqn:Ed.
    + intros [= <- <-]. left. destruct best_sample as [s |]; [| discriminate].
      exists s. split; [now apply Hin | exact Ed].
    + destruct (first_data parsed_samples) as [data |] eqn:Ef.
      * intros [= <- <-]. left. now apply first_data_carried.
      * intros [= <- <-]. now right.
  - unfold _weighted_vote.
    destruct (weighted_samples parsed_samples) as [| first rest] eqn:Ew.
    + intros [= <- <-]. now right.
    + pose proof (max_by_in Qltb snd rest first) as Hin.
      destruct (max_by Qltb snd first rest) as [best_data best_weight].
      intros [= <- <-]. left.
      apply (weighted_samples_carried _ _ best_weight). now rewrite Ew.
  - unfold _clustering_vote.
    destruct (build_clusters 0 parsed_samples []) as [e | clusters] eqn:Eb;
      cbn [Py.bind]; [discriminate |].
    pose proof (build_clusters_members parsed_samples parsed_samples 0 [] clusters
                  (fun s H => H) Eb) as Hall.
    destruct clusters as [| first rest]; [intros [= <- <-]; now right |].
    pose proof (max_by_in Nat.ltb (fun cluster : list SampleResult => length cluster)
                  rest first) as Hlargest.
    rewrite List.Forall_forall in Hall. apply Hall in Hlargest.
    destruct (max_by Nat.ltb _ first rest) as [| s ss]; [discriminate |].
    pose proof (max_by_in Qltb quality_score ss s) as Hbest.
    rewrite List.Forall_forall in Hlargest. apply Hlargest in Hbest as [Hin Hdata].
    intros [= <- <-]. left.
    exists (max_by Qltb quality_score s ss). split; [exact Hin |].
    unfold data_of in *.
    destruct (parsed_data (max_by Qltb quality_score s ss)) as [data |];
      [| contradiction].
    destruct (Json.truthy data); [reflexivity | contradiction].
  - unfold _quality_based_vote.
    destruct (group_samples lib [] parsed_samples) as [e | groups] eqn:Eg;
      cbn [Py.bind]; [discriminate |].
    pose proof (group_samples_members lib parsed_samples parsed_samples [] groups
                  (fun s H => H) (List.Forall_nil _) Eg) as Hall.
    pose proof (scored_groups_carried (length parsed_samples) _ _ Hall) as Hscored.
    destruct (omap _ groups) as [| first rest]; [intros [= <- <-]; now right |].
    pose proof (max_by_in Qltb (fun r : Json.t * Q * Q * Q => snd (fst (fst r)))
                  rest first) as Hin.
    apply Hscored in Hin.
    destruct (max_by Qltb _ first rest) as [[[best_data best_score] freq] qual].
    intros [= <- <-]. left. exact Hin.
Qed.

End VoteMembership.

Lemma vote_picks_a_sample_witness :
  exists (best : Json.t) (details : SelfConsistency.VotingDetails),
    SelfConsistency._vote SelfConsistency.sample_lib SelfConsistency.WEIGHTED
      Votes.three_samples = inr (best, details) /\
    (Votes.carried_by Votes.three_samples best \/ best = Json.JDict []).
Proof.
  do 2 eexists. split; [reflexivity |].
  eapply (vote_picks_a_sample SelfConsistency.sample_lib SelfConsistency.WEIGHTED
            Votes.three_samples).
  reflexivity.
Defined.

(** ** Orchestrator: the tool names that are stored *)

Section ToolUsageFacts.

Import Types Orchestrator.

Lemma split_on_nonempty (sep : ascii) (s : string) : split_on sep s <> [].
Proof.
  destruct s as [| c rest]; cbn; [discriminate |].
  destruct (Ascii.eqb c sep); [discriminate |].
  destruct (split_on sep rest); discriminate.
Qed.

Lemma split_on_free (sep : ascii) (s : string) :
  has_char sep s = false -> split_on sep s = [s].
Proof.
  induction s as [| c rest IH]; cbn; [reflexivity |].
  intros H. apply orb_false_iff in H as [Hc Hrest].
  rewrite Hc, (IH Hrest). reflexivity.
Qed.

Lemma last_cons_nonempty {A : Type} (x : A) (l : list A) (d : A) :
  l <> [] -> List.last (x :: l) d = List.last l d.
Proof. destruct l; [contradiction | reflexivity]. Qed.

Lemma split_on_last (sep : ascii) (p q : string) :
  has_char sep q = false ->
  List.last (split_on sep (p +:+ String sep q)) EmptyString = q /\
  2 <= length (split_on sep (p +:+ String sep q)).
Proof.
  intros Hq. induction p as [| c p IH].
  - change (EmptyString +:+ String sep q) with (String sep q).
    cbn [split_on]. rewrite Ascii.eqb_refl, (split_on_free sep q Hq).
    split; [reflexivity | cbn; lia].
  - change (String c p +:+ String sep q) with (String c (p +:+ String sep q)).
    cbn [split_on]. destruct IH as [IHlast IHlen].
    destruct (Ascii.eqb c sep).
    + split; [| cbn; lia].
      rewrite last_cons_nonempty; [exact IHlast | apply split_on_nonempty].
    + destruct (split_on sep (p +:+ String sep q)) as [| segment segments];
        [cbn in IHlen; lia |].
      destruct segments as [| s2 segments]; [cbn in IHlen; lia |].
      split; [exact IHlast | cbn; lia].
Qed.

Lemma substring_prefix (t q : string) :
  String.substring 0 (String.length t) (t +:+ q) = t.
Proof.
  induction t as [| c t IH].
  - destruct q; reflexivity.
  - change (String c t +:+ q) with (String c (t +:+ q)). cbn. now rewrite IH.
Qed.

Lemma contains_middle (p t q : string) : Str.contains t (p +:+ t +:+ q) = true.
Proof.
  apply contains_spec. exists (String.length p).
  induction p as [| c p IH]; [exact (substring_prefix t q) |].
  change (String c p +:+ t +:+ q) with (String c (p +:+ t +:+ q)). exact IH.
Qed.

Lemma pretty_N_char_free (x : N) : Ascii.eqb (pretty_N_char x) "_"%char = false.
Proof. unfold pretty_N_char. repeat case_match; reflexivity. Qed.

Lemma pretty_N_go_free (x : N) :
  forall s : string,
    has_char "_"%char s = false -> has_char "_"%char (pretty_N_go x s) = false.
Proof.
  induction (N.lt_wf_0 x) as [x _ IH]; intros s Hs.
  destruct (decide (0 < x)%N) as [Hpos | Hzero].
  - rewrite pretty_N_go_step by exact Hpos.
    apply IH; [apply N.div_lt; lia |].
    cbn [has_char]. now rewrite pretty_N_char_free, Hs.
  - assert (x = 0%N) as -> by lia. now rewrite pretty_N_go_0.
Qed.

Lemma pretty_N_free (n : N) : has_char "_"%char (pretty n) = false.
Proof.
  unfold pretty, pretty_N. destruct (decide (n = 0%N)); [reflexivity |].
  now apply pretty_N_go_free.
Qed.

Lemma pretty_Z_free (t : Z) : has_char "_"%char (pretty t) = false.
Proof.
  destruct t as [| p | p].
  - reflexivity.
  - exact (pretty_N_free (N.pos p)).
  - change (pretty (Z.neg p)) with (String "-"%char (pretty (N.pos p))).
    cbn [has_char]. exact (pretty_N_free (N.pos p)).
Qed.

(** X26.  The tool usage stored for a result of [Worker.execute_action]
    does not name the tool: the action id ends in the time of the call, so
    the part after its last underscore, which the orchestrator stores as
    the tool name, is that time in decimal. *)
Theorem stored_tool_name_is_the_timestamp
    {World : Type} (env : Worker.Env World) (action : Action) (w : World) :
  tool_name_of (action_id (fst (fst (Worker.execute_action env action w))))
    = pretty (fst (Worker.time env w)).
Proof.
  unfold Worker.execute_action.
  destruct (Worker.time env w) as [start_time w1]. cbn [fst].
  set (id := Worker.format_type env (action_type action) +:+ "_"
               +:+ Worker.py_str env (tool action) +:+ "_" +:+ pretty start_time).
  assert (Hid : forall (r : ActionResult) (a : Action) (w' : World),
            action_id r = id ->
            tool_name_of (action_id (fst (fst (r, a, w')))) = pretty start_time).
  { intros r a w' Hr. cbn [fst]. rewrite Hr. unfold tool_name_of.
    assert (Hshape : id = (Worker.format_type env (action_type action) +:+ "_"
                             +:+ Worker.py_str env (tool action))
                          +:+ String "_"%char (pretty start_time)).
    { subst id. rewrite !string_app_assoc. reflexivity. }
    rewrite Hshape.
    destruct (split_on_last "_"%char
                (Worker.format_type env (action_type action) +:+ "_"
                   +:+ Worker.py_str env (tool action))
                (pretty start_time) (pretty_Z_free start_time)) as [-> _].
    change (String "_"%char (pretty start_time)) with ("_" +:+ pretty start_time).
    now rewrite contains_middle. }
  destruct (match action_type action with
            | GUI => Worker._execute_gui_action env action w1
            | CODE => (Py.ret (Worker._execute_code_action), action, w1)
            | MCP => let '(r, w0) := Worker._execute_mcp_action env action w1 in
                     (r, action, w0)
            end) as [[outcome a'] w2].
  destruct (Worker.time env w2) as [t w3].
  destruct outcome; apply Hid; reflexivity.
Qed.

End ToolUsageFacts.

(** ** Agent loop: when a decision continues *)

Section DecisionFacts.

Import Types AgentExecutor.

Context {World : Type}.
Variable env : Env World.

(** X27.  The loop goes on only on an answer that decodes to a JSON
    object: when the text taken from the oracle's answer does not decode,
    or decodes to anything but an object, the decision that comes back
    stops the run and names no action. *)
Theorem decision_continues_only_on_objects (response : string) :
  let decision := _parse_decision_response env response in
  (should_continue decision = true ->
     exists d : Json.Dict,
       json_loads env (_extract_json_from_response env response) = inr (Json.JDict d)) /\
  ((forall d : Json.Dict,
      json_loads env (_extract_json_from_response env response) <> inr (Json.JDict d)) ->
     should_continue decision = false /\ decision_action decision = None).
Proof.
  cbv zeta.
  assert (Hstop : (forall d : Json.Dict,
                     json_loads env (_extract_json_from_response env response)
                       <> inr (Json.JDict d)) ->
                  exists reason : string,
                    _parse_decision_response env response = stop_decision reason).
  { intros Hnot. unfold _parse_decision_response, parse_decision_body.
    destruct (json_loads env (_extract_json_from_response env response))
      as [e | [| b | n | s | l | d]]; cbn [Py.bind];
      try (eexists; reflexivity).
    - unfold SelfConsistency.py_in. cbn [Py.bind Py.ret].
      destruct (Str.contains "action" s); cbn; eexists; reflexivity.
    - unfold SelfConsistency.py_in. cbn [Py.bind Py.ret].
      destruct (existsb _ l); cbn; eexists; reflexivity.
    - exfalso. now apply (Hnot d). }
  split.
  - intros Hcont.
    destruct (json_loads env (_extract_json_from_response env response))
      as [e | [| b | n | s | l | d]] eqn:E; try (now exists d);
      (destruct Hstop as [reason Hr]; [intros d; discriminate |];
       rewrite Hr in Hcont; discriminate Hcont).
  - intros Hnot. destruct (Hstop Hnot) as [reason ->]. now split.
Qed.

End DecisionFacts.

(** ** Workflow steps over the worker *)

Section StepAttempts.

Import Types WorkflowWiring.

Context {World : Type}.
Variable worker : Worker.Env World.
Variable config : Worker.Config.
Variable py_eval : string -> Context -> Py.result bool.
Variable py_exec : string -> Context -> Py.result unit * gmap string Json.t.
Variable new_task_id : World -> string * World.

(** X28.  A workflow step whose [retry_count] is 0 or 1 (or negative) is
    attempted exactly once: the result of the step is the result of a
    single [execute_action], nothing is slept and nothing is added to the
    history of the error handler, whether the action succeeds or fails. *)
Theorem step_without_retries_runs_once
    (step : WorkflowStep) (context : Context) (w w' : World)
    (history : list ErrorHandler.ErrorContext)
    (result : ActionResult) (action' : Action) :
  (retry_count step <= 1)%Z ->
  Worker.execute_action worker (step_action step) w = (result, action', w') ->
  WorkflowExecutor._execute_step
    (worker_backed worker config py_eval py_exec new_task_id) step context (w, history)
  = (inr result, (w', history)).
Proof.
  intros Hcount Hrun. unfold WorkflowExecutor._execute_step, worker_backed.
  cbn [WorkflowExecutor.execute_with_retry fst snd].
  assert (Hmax : (if (0 <? retry_count step)%Z then retry_count step else 1%Z) = 1%Z).
  { destruct (0 <? retry_count step)%Z eqn:E; [lia | reflexivity]. }
  rewrite Hmax. unfold Worker.execute_with_retry.
  cbn [Z.eqb]. change (Worker.range 1) with [0%Z].
  cbn [Worker.retry_loop Z.gtb Z.compare].
  rewrite attempt_once_eq. cbn [Worker.action]. rewrite Hrun.
  destruct (success result); reflexivity.
Qed.

End StepAttempts.

Lemma step_without_retries_runs_once_witness :
  WorkflowExecutor._execute_step
    (WorkflowWiring.worker_backed (Worker.registry_env Worker.timeout_registry)
       Worker.default_config (fun _ _ => Py.ret true)
       (fun _ c => (Py.ret tt, Types.variables c))
       (fun w => ("task_00000000", w)))
    {| Types.step_id := "a"; Types.step_name := "a"; Types.step_description := "";
       Types.step_action := Worker.gui_action "flaky"; Types.condition := None;
       Types.step_on_error := None; Types.retry_count := 0;
       Types.step_timeout := None |}
    (WorkflowExecutor.context WorkflowExecutor.start_state) (Worker.trace0, [])
  = (inr {| Types.action_id := "gui_flaky_1700000000"; Types.success := false;
            Types.data := None; Types.error := Some "timeout"; Types.message := "" |},
     ({| Worker.clock := 1700000002; Worker.executed := 1; Worker.slept := [] |}, [])).
Proof.
  apply (step_without_retries_runs_once (Worker.registry_env Worker.timeout_registry)
           Worker.default_config _ _ _ _ _ Worker.trace0 _ []
           _ (Worker.gui_action "flaky")).
  - cbn. lia.
  - reflexivity.
Defined.

(** ** Voting: quality scores *)

Section QualityFacts.

Import SelfConsistency.

Lemma quality_loop_bounds (subtasks : list Json.t) :
  forall score q : Q,
    (0 < score)%Q -> (score <= 1)%Q ->
    quality_loop score subtasks = inr q ->
    (0 < q)%Q /\ (q <= 1)%Q.
Proof.
  assert (Hshrink : forall s : Q, (0 < s)%Q -> (s <= 1)%Q ->
            (0 < s * (8 # 10))%Q /\ (s * (8 # 10) <= 1)%Q).
  { intros s Hpos Hle. split.
    - apply Qmult_lt_0_compat; [exact Hpos | reflexivity].
    - apply Qle_trans with (1 * (8 # 10))%Q; [| unfold Qle; cbn; lia].
      apply Qmult_le_compat_r; [exact Hle | unfold Qle; cbn; lia]. }
  induction subtasks as [| subtask rest IH]; intros score q Hpos Hle H;
    cbn [quality_loop] in H.
  - injection H as <-. now split.
  - set (s1 := if Json.is_dict subtask then score else (score * (8 # 10))%Q) in H.
    assert (H1 : (0 < s1)%Q /\ (s1 <= 1)%Q).
    { subst s1. destruct (Json.is_dict subtask); [now split | now apply Hshrink]. }
    destruct (py_in "actions" subtask) as [e | has]; cbn [Py.bind] in H; [discriminate |].
    destruct H1 as [H1p H1l].
    destruct has; [now apply (IH s1 q) |].
    destruct (Hshrink s1 H1p H1l) as [H2p H2l]. now apply (IH (s1 * (8 # 10))%Q q).
Qed.

(** X29.  A quality score, whenever it is defined, lies between 0 and 1;
    it is 0 exactly for the samples that failed to parse, and positive for
    every sample that parsed, however poor its structure. *)
Theorem quality_score_range (sample : SampleResult) (q : Q) :
  _calculate_quality_score sample = inr q ->
  (0 <= q)%Q /\ (q <= 1)%Q /\
  (is_valid sample = false -> q = 0%Q) /\
  (is_valid sample = true -> (0 < q)%Q).
Proof.
  unfold _calculate_quality_score.
  destruct (is_valid sample); cbn [negb].
  - assert (Hpos : forall q' : Q, (0 < q')%Q /\ (q' <= 1)%Q ->
              (0 <= q')%Q /\ (q' <= 1)%Q /\ (true = false -> q' = 0%Q)
              /\ (true = true -> (0 < q')%Q)).
    { intros q' [Hp Hl]. split; [now apply Qlt_le_weak |]. split; [exact Hl |].
      split; [discriminate | intros _; exact Hp]. }
    assert (Hone : (0 < 1)%Q /\ (1 <= 1)%Q) by (split; [reflexivity | apply Qle_refl]).
    destruct (data_of sample) as [data |]; [| intros [= <-]; now apply Hpos].
    destruct (py_in "subtasks" data) as [e | has]; cbn [Py.bind]; [discriminate |].
    destruct has; [| intros [= <-]; now apply Hpos].
    destruct (getitem "subtasks" data) as [e | subtasks]; cbn [Py.bind]; [discriminate |].
    destruct (Json.truthy subtasks); cbn [negb].
    + destruct (Json.iter subtasks) as [e | items]; cbn [Py.bind]; [discriminate |].
      intros H. apply Hpos. destruct Hone as [H0 H1].
      exact (quality_loop_bounds items 1 q H0 H1 H).
    + intros [= <-]. apply Hpos. split; [reflexivity | unfold Qle; cbn; lia].
  - intros [= <-]. split; [apply Qle_refl |]. split; [unfold Qle; cbn; lia |].
    split; [reflexivity | discriminate].
Qed.

End QualityFacts.

Lemma quality_score_range_witness :
  exists q : Q,
    SelfConsistency._calculate_quality_score
      {| SelfConsistency.content := SelfConsistency.empty_plan_text;
         SelfConsistency.parsed_data := Some SelfConsistency.empty_plan;
         SelfConsistency.is_valid := true;
         SelfConsistency.quality_score := 0;
         SelfConsistency.parse_error := None |} = inr q /\
    (0 <= q)%Q /\ (q <= 1)%Q /\
    (true = false -> q = 0%Q) /\
    (true = true -> (0 < q)%Q).
Proof.
  eexists. split; [reflexivity |].
  apply (quality_score_range
           {| SelfConsistency.content := SelfConsistency.empty_plan_text;
              SelfConsistency.parsed_data := Some SelfConsistency.empty_plan;
              SelfConsistency.is_valid := true;
              SelfConsistency.quality_score := 0;
              SelfConsistency.parse_error := None |}).
  reflexivity.
Defined.
